(** * update_etf_data.py: a shallow embedding and its verified properties

    The script refreshes three embedded data blocks of ETFComparison.html:
    it fetches holdings and returns (JSON servlet, page scrape, price
    history), renders them as JavaScript constants and substitutes them
    into the document with regular expressions.

    Python values are modelled as follows.
    - [str] is a list of Unicode code points ([pystr]).
    - [float] is an abstract type with the operations the script uses
      (class [PyFloat]); exact rational arithmetic is one instance.
    - [dict] is an insertion-ordered association list ([pydict]).
    - exceptions are an error monad ([result]).
    - the network, the HTML parser and the price service are read-only
      inputs gathered in the record [World]. *)

From Stdlib Require Import ZArith NArith QArith Qround List String Ascii Bool Lia.
From Stdlib Require Import Sorting.Sorted.
Import ListNotations.

Local Open Scope Z_scope.

(* ================================================================== *)
(** * Python strings *)
(* ================================================================== *)

(** A Python [str]: a sequence of code points. *)
Definition pystr := list N.

(** The code points of an ASCII literal of the source. *)
Fixpoint lit (s : string) : pystr :=
  match s with
  | EmptyString => []
  | String a s' => N_of_ascii a :: lit s'
  end.

Definition pystr_eq_dec : forall a b : pystr, {a = b} + {a <> b} :=
  list_eq_dec N.eq_dec.

Definition pystr_eqb (a b : pystr) : bool :=
  if pystr_eq_dec a b then true else false.

(** [s.startswith(p)], returning the remainder after the prefix. *)
Fixpoint strip_prefix (p s : pystr) : option pystr :=
  match p, s with
  | [], _ => Some s
  | _ :: _, [] => None
  | a :: p', b :: s' => if N.eqb a b then strip_prefix p' s' else None
  end.

(** [needle in s]. *)
Fixpoint contains (needle s : pystr) : bool :=
  match strip_prefix needle s with
  | Some _ => true
  | None => match s with
            | [] => false
            | _ :: s' => contains needle s'
            end
  end.

(** [s.replace(old, new)] for a non-empty [old]: occurrences are replaced
    from left to right and do not overlap.  [skip] counts the characters
    of the current occurrence still to be dropped. *)
Fixpoint replace_from (old new s : pystr) (skip : nat) : pystr :=
  match s with
  | [] => []
  | c :: s' =>
      match skip with
      | S k => replace_from old new s' k
      | O =>
          match strip_prefix old s with
          | Some _ => new ++ replace_from old new s' (Nat.pred (List.length old))
          | None => c :: replace_from old new s' 0
          end
      end
  end.

Definition replace (old new s : pystr) : pystr := replace_from old new s 0.

(** [sep.join(parts)]. *)
Fixpoint join (sep : pystr) (parts : list pystr) : pystr :=
  match parts with
  | [] => []
  | [p] => p
  | p :: ps => p ++ sep ++ join sep ps
  end.

(** ** Character classes

    Python decides [isalnum], [isspace], [lower] and the regular
    expression classes [\w] and [\d] with the Unicode database.  Below
    128 the classes are written out; above, they are read from the
    tables of [Unicode], which stay abstract.

    The last field is the one place where the interpreters that run the
    script differ: in a replacement template, Python 3.10 and 3.11 read
    the name of [\g<name>] with [int(name)] when it is not an
    identifier, so that [+0] or [0_0] stand for group 0; from Python
    3.12 on such a name is an error.  [re_legacy_index] gives the number
    read from such a name, [None] where the name is refused. *)

Record Unicode := {
  uni_alnum   : N -> bool;
  uni_decimal : N -> bool;
  uni_space   : N -> bool;
  uni_printable : N -> bool;
  uni_lower   : N -> pystr;
  re_legacy_index : pystr -> option Z
}.

Definition ascii_digit (c : N) : bool := ((48 <=? c) && (c <=? 57))%N.
Definition ascii_upper (c : N) : bool := ((65 <=? c) && (c <=? 90))%N.
Definition ascii_lower (c : N) : bool := ((97 <=? c) && (c <=? 122))%N.
Definition ascii_space (c : N) : bool :=
  (((9 <=? c) && (c <=? 13)) || ((28 <=? c) && (c <=? 32)))%N.

Section CharClasses.
Variable U : Unicode.

(** [\d]: a decimal digit. *)
Definition is_decimal (c : N) : bool :=
  if (c <? 128)%N then ascii_digit c else uni_decimal U c.

(** [c.isalnum()]. *)
Definition is_alnum (c : N) : bool :=
  if (c <? 128)%N then ascii_digit c || ascii_upper c || ascii_lower c
  else uni_alnum U c || uni_decimal U c.

(** [\w]: alphanumeric or underscore. *)
Definition is_word (c : N) : bool := is_alnum c || N.eqb c 95.

Definition is_space (c : N) : bool :=
  if (c <? 128)%N then ascii_space c else uni_space U c.

(** [s.isalnum()]: non-empty and every character alphanumeric. *)
Definition isalnum (s : pystr) : bool :=
  match s with [] => false | _ => forallb is_alnum s end.

(** [s.lower()]. *)
Definition lower (s : pystr) : pystr :=
  flat_map (fun c => if (c <? 128)%N
                     then [if ascii_upper c then (c + 32)%N else c]
                     else uni_lower U c) s.

Fixpoint lstrip (s : pystr) : pystr :=
  match s with
  | c :: s' => if is_space c then lstrip s' else s
  | [] => []
  end.

(** [s.strip()]. *)
Definition strip (s : pystr) : pystr :=
  rev (lstrip (rev (lstrip s))).
End CharClasses.

(** Decimal digits of a natural number. *)
Fixpoint dec_digits (fuel : nat) (n : N) (acc : pystr) : pystr :=
  match fuel with
  | O => acc
  | S f =>
      let acc' := (48 + n mod 10)%N :: acc in
      if (n / 10 =? 0)%N then acc' else dec_digits f (n / 10)%N acc'
  end.

Definition str_of_N (n : N) : pystr :=
  dec_digits (S (N.to_nat (N.log2 n))) n [].

(* ================================================================== *)
(** * Exceptions *)
(* ================================================================== *)

Inductive exn :=
| AttributeError | TypeError | ValueError | KeyError | IndexError
| OverflowError | ReError | RequestError.

Inductive result (A : Type) :=
| Ok (a : A)
| Raise (e : exn).
Arguments Ok {A} a.
Arguments Raise {A} e.

Definition bind {A B} (r : result A) (k : A -> result B) : result B :=
  match r with
  | Ok a => k a
  | Raise e => Raise e
  end.

Notation "'do' x <- r ; k" := (bind r (fun x => k))
  (at level 10, x name, r at level 100, k at level 200).

(** [try: r  except (e1, ...): handler]. *)
Definition try_except {A} (r : result A) (catches : exn -> bool) (handler : result A)
  : result A :=
  match r with
  | Ok a => Ok a
  | Raise e => if catches e then handler else Raise e
  end.

Definition any_exception (_ : exn) : bool := true.

Definition raises {A} (r : result A) : Prop := exists e, r = Raise e.

(* ================================================================== *)
(** * Python floats *)
(* ================================================================== *)

(** The operations on [float] that the script uses.  [f_of_int] and
    [f_parse] are the two halves of the builtin [float(x)]: the first
    fails with OverflowError, the second with ValueError.  [f_format w p]
    is the format specification [{x:w.pf}], [f_repr] is [repr(x)] and
    [f_isnan] is what [dropna] tests. *)
Class PyFloat (F : Type) := {
  f_lit    : Z -> F;
  f_sub    : F -> F -> F;
  f_mul    : F -> F -> F;
  f_div    : F -> F -> F;
  f_eqb    : F -> F -> bool;
  f_ltb    : F -> F -> bool;
  f_leb    : F -> F -> bool;
  f_round  : nat -> F -> F;
  f_isnan  : F -> bool;
  f_of_int : Z -> option F;
  f_parse  : pystr -> option F;
  f_format : nat -> nat -> F -> pystr;
  f_repr   : F -> pystr
}.

(** ** Exact rational arithmetic as an instance *)

Module QFloat.

(** Round half to even, to an integer. *)
Definition round_half_even (x : Q) : Z :=
  let fl := Qfloor x in
  match Qcompare (x - inject_Z fl) (1 # 2) with
  | Lt => fl
  | Gt => fl + 1
  | Eq => if Z.even fl then fl else fl + 1
  end.

Definition pow10 (n : nat) : Z := 10 ^ Z.of_nat n.

Definition round (n : nat) (x : Q) : Q :=
  Qred (inject_Z (round_half_even (x * inject_Z (pow10 n))) / inject_Z (pow10 n)).

(** Unsigned decimal digits, most significant first. *)
Fixpoint digits_value (s : pystr) (acc : N) : option N :=
  match s with
  | [] => Some acc
  | c :: s' => if ascii_digit c then digits_value s' (acc * 10 + (c - 48))%N
               else None
  end.

Fixpoint split_at_dot (s : pystr) : pystr * option pystr :=
  match s with
  | [] => ([], None)
  | c :: s' =>
      if N.eqb c 46 then ([], Some s')
      else let '(a, b) := split_at_dot s' in (c :: a, b)
  end.

Definition parse_unsigned (s : pystr) : option Q :=
  let '(ip, fp) := split_at_dot s in
  let fp := match fp with Some f => f | None => [] end in
  match ip, fp with
  | [], [] => None
  | _, _ =>
      match digits_value ip 0%N, digits_value fp 0%N with
      | Some i, Some f =>
          Some (Qred (inject_Z (Z.of_N i)
                      + inject_Z (Z.of_N f) / inject_Z (pow10 (List.length fp))))
      | _, _ => None
      end
  end.

(** Plain signed decimals; the other spellings that [float] accepts
    (exponents, [inf], [nan], surrounding blanks) are not numbers of
    this instance. *)
Definition parse (s : pystr) : option Q :=
  match s with
  | 45%N :: s' => option_map Qopp (parse_unsigned s')
  | 43%N :: s' => parse_unsigned s'
  | _ => parse_unsigned s
  end.

Definition pad_left (w : nat) (s : pystr) : pystr :=
  List.repeat 32%N (w - List.length s) ++ s.

Definition zero_fill (p : nat) (s : pystr) : pystr :=
  List.repeat 48%N (p - List.length s) ++ s.

(** [{x:w.pf}]. *)
Definition format (w p : nat) (x : Q) : pystr :=
  let scaled := round_half_even (x * inject_Z (pow10 p)) in
  let m := Z.abs_N scaled in
  let ip := str_of_N (m / Z.to_N (pow10 p))%N in
  let fp := zero_fill p (str_of_N (m mod Z.to_N (pow10 p))%N) in
  let body := match p with O => ip | _ => ip ++ 46%N :: fp end in
  pad_left w (if Qnum x <? 0 then 45%N :: body else body).

End QFloat.

(** Rationals have no NaN and never overflow.  [repr] is only searched
    for the word "weight" by the script, so one decimal stands for it. *)
#[export] Instance QFloat_ops : PyFloat Q := {
  f_lit z := inject_Z z;
  f_sub := Qminus;
  f_mul := Qmult;
  f_div := Qdiv;
  f_eqb := Qeq_bool;
  f_ltb x y := negb (Qle_bool y x);
  f_leb := Qle_bool;
  f_round := QFloat.round;
  f_isnan _ := false;
  f_of_int z := Some (inject_Z z);
  f_parse := QFloat.parse;
  f_format := QFloat.format;
  f_repr := QFloat.format 0 1
}.

(** A [pd.Series] of prices indexed by timestamps.  A timestamp is the
    number of nanoseconds since the epoch, as pandas stores it. *)
Definition Series (F : Type) := list (Z * F).

(* ================================================================== *)
(** * Dictionaries and JSON values *)
(* ================================================================== *)

(** A Python [dict] with string keys, in insertion order. *)
Definition pydict (V : Type) := list (pystr * V).

(** [d.get(k)]. *)
Fixpoint dict_get {V} (d : pydict V) (k : pystr) : option V :=
  match d with
  | [] => None
  | (k', v) :: d' => if pystr_eqb k' k then Some v else dict_get d' k
  end.

(** [d.get(k, default)]. *)
Definition dict_get_or {V} (d : pydict V) (k : pystr) (default : V) : V :=
  match dict_get d k with
  | Some v => v
  | None => default
  end.

(** [d[k] = v]: an existing key keeps its position, a new key goes last. *)
Fixpoint dict_set {V} (d : pydict V) (k : pystr) (v : V) : pydict V :=
  match d with
  | [] => [(k, v)]
  | (k', v') :: d' =>
      if pystr_eqb k' k then (k', v) :: d' else (k', v') :: dict_set d' k v
  end.

(** [d.pop(k)], the dictionary that is left. *)
Fixpoint dict_pop {V} (d : pydict V) (k : pystr) : pydict V :=
  match d with
  | [] => []
  | (k', v') :: d' => if pystr_eqb k' k then d' else (k', v') :: dict_pop d' k
  end.

Definition dict_keys {V} (d : pydict V) : list pystr := map fst d.

(** [k in d]. *)
Definition dict_mem {V} (d : pydict V) (k : pystr) : bool :=
  match dict_get d k with Some _ => true | None => false end.

(** No string occurs twice in the list. *)
Fixpoint distinct (l : list pystr) : bool :=
  match l with
  | [] => true
  | x :: l' => negb (existsb (pystr_eqb x) l') && distinct l'
  end.

(** Two dictionaries equal as mappings. *)
Definition same_mapping {V} (d1 d2 : pydict V) : Prop :=
  forall k, dict_get d1 k = dict_get d2 k.

(** Two dictionaries of dictionaries that answer every two-level lookup
    alike, a missing inner dictionary counting as an empty one. *)
Definition same_nested {V} (d1 d2 : pydict (pydict V)) : Prop :=
  forall k p, dict_get (dict_get_or d1 k []) p = dict_get (dict_get_or d2 k []) p.

(** What [r.json()] returns. *)
Unset Elimination Schemes.
Inductive json (F : Type) : Type :=
| JNull
| JBool (b : bool)
| JInt (z : Z)
| JFloat (x : F)
| JStr (s : pystr)
| JList (l : list (json F))
| JDict (d : list (pystr * json F)).
Set Elimination Schemes.
Arguments JNull {F}.
Arguments JBool {F} b.
Arguments JInt {F} z.
Arguments JFloat {F} x.
Arguments JStr {F} s.
Arguments JList {F} l.
Arguments JDict {F} d.

Definition hex_digit (n : N) : N :=
  (if n <? 10 then 48 + n else 87 + n)%N.

(** [n] in hexadecimal on [w] digits. *)
Fixpoint hex_fixed (w : nat) (n : N) : pystr :=
  match w with
  | O => []
  | S w' => hex_fixed w' (n / 16)%N ++ [hex_digit (n mod 16)%N]
  end.

Definition repr_int (z : Z) : pystr :=
  if z <? 0 then 45%N :: str_of_N (Z.abs_N z) else str_of_N (Z.abs_N z).

Section Builtins.
Context {F : Type} `{PyFloat F}.
Variable U : Unicode.

(** Truth value of an object. *)
Definition truthy (v : json F) : bool :=
  match v with
  | JNull => false
  | JBool b => b
  | JInt z => negb (z =? 0)
  | JFloat x => negb (f_eqb x (f_lit 0))
  | JStr s => match s with [] => false | _ => true end
  | JList l => match l with [] => false | _ => true end
  | JDict d => match d with [] => false | _ => true end
  end.

(** [a or b]. *)
Definition py_or (a b : json F) : json F := if truthy a then a else b.

(** [v.get(k)]: only a dict has the method. *)
Definition py_get (v : json F) (k : pystr) : result (json F) :=
  match v with
  | JDict d => Ok (match dict_get d k with Some x => x | None => JNull end)
  | _ => Raise AttributeError
  end.

(** [float(v)]. *)
Definition py_float (v : json F) : result F :=
  match v with
  | JBool b => Ok (f_lit (if b then 1 else 0))
  | JInt z => match f_of_int z with Some x => Ok x | None => Raise OverflowError end
  | JFloat x => Ok x
  | JStr s => match f_parse s with Some x => Ok x | None => Raise ValueError end
  | JNull | JList _ | JDict _ => Raise TypeError
  end.

(** [v.strip()]: only a str has the method. *)
Definition py_strip (v : json F) : result pystr :=
  match v with
  | JStr s => Ok (strip U s)
  | _ => Raise AttributeError
  end.

(** [v[:n]] followed by iteration: a list gives its first elements, a
    str its first characters; other objects cannot be sliced. *)
Definition py_slice_items (v : json F) (n : nat) : result (list (json F)) :=
  match v with
  | JList l => Ok (firstn n l)
  | JStr s => Ok (map (fun c => JStr [c]) (firstn n s))
  | _ => Raise TypeError
  end.

(** One character of [repr] of a str quoted with [quote]. *)
Definition repr_char (quote c : N) : pystr :=
  if (N.eqb c quote || N.eqb c 92)%bool then [92; c]%N
  else if N.eqb c 9 then lit "\t"
  else if N.eqb c 10 then lit "\n"
  else if N.eqb c 13 then lit "\r"
  else if ((c <? 32) || N.eqb c 127)%N%bool then lit "\x" ++ hex_fixed 2 c
  else if (c <? 127)%N then [c]
  else if uni_printable U c then [c]
  else if (c <? 256)%N then lit "\x" ++ hex_fixed 2 c
  else if (c <? 65536)%N then lit "\u" ++ hex_fixed 4 c
  else lit "\U" ++ hex_fixed 8 c.

(** [repr(s)] of a str: single quotes unless the text has a single quote
    and no double quote. *)
Definition repr_str (s : pystr) : pystr :=
  let quote := if (existsb (N.eqb 39) s && negb (existsb (N.eqb 34) s))%bool
               then 34%N else 39%N in
  quote :: flat_map (repr_char quote) s ++ [quote].

(** [repr(v)]. *)
Fixpoint py_repr (v : json F) : pystr :=
  match v with
  | JNull => lit "None"
  | JBool b => if b then lit "True" else lit "False"
  | JInt z => repr_int z
  | JFloat x => f_repr x
  | JStr s => repr_str s
  | JList l => lit "[" ++ join (lit ", ") (map py_repr l) ++ lit "]"
  | JDict d =>
      lit "{"
      ++ join (lit ", ")
              (map (fun kv => match kv with
                              | (k, x) => repr_str k ++ lit ": " ++ py_repr x
                              end) d)
      ++ lit "}"
  end.

(** [str(v)]. *)
Definition py_str (v : json F) : pystr :=
  match v with
  | JStr s => s
  | _ => py_repr v
  end.

(** [series.dropna()]. *)
Definition dropna (series : Series F) : Series F :=
  filter (fun o => negb (f_isnan (snd o))) series.

End Builtins.
(* ================================================================== *)
(** * Percent change over a trailing window *)
(* ================================================================== *)

Definition ns_per_day : Z := 86400000000000.

(** [timedelta(days=days)], in nanoseconds.  The constructor accepts at
    most 999999999 days in either direction and raises OverflowError
    beyond. *)
Definition timedelta (days : Z) : result Z :=
  if Z.abs days >? 999999999 then Raise OverflowError
  else Ok (days * ns_per_day).

(** pandas keeps a Timestamp and a Timedelta as a signed 64-bit count of
    nanoseconds, the smallest 64-bit value being set aside. *)
Definition TIMESTAMP_MAX : Z := 9223372036854775807.

Definition in_bounds (ns : Z) : bool :=
  (- TIMESTAMP_MAX <=? ns) && (ns <=? TIMESTAMP_MAX).

(** [ts - delta] for a Timestamp and a timedelta, both in nanoseconds:
    the timedelta is converted to a Timedelta and subtracted.  When the
    Timedelta or the result is out of bounds the subtraction raises; in
    pandas 2 the exception is OutOfBoundsTimedelta or
    OutOfBoundsDatetime, both subclasses of ValueError.  Both callers of
    pct_change catch every exception, so its kind decides nothing. *)
Definition timestamp_sub (ts delta : Z) : result Z :=
  if in_bounds delta && in_bounds (ts - delta) then Ok (ts - delta)
  else Raise ValueError.

Section PctChange.
Context {F : Type} `{PyFloat F}.

(** [series.iloc[-1]] together with [series.index[-1]]. *)
Definition last_obs (series : Series F) : option (Z * F) :=
  match series with
  | [] => None
  | o :: rest => Some (last rest o)
  end.

(** [series.index[-1] - timedelta(days=days)], for a non-empty series. *)
Definition cutoff_date (series : Series F) (days : Z) : result (option Z) :=
  match last_obs series with
  | None => Ok None
  | Some o =>
      do delta <- timedelta days;
      do cutoff <- timestamp_sub (fst o) delta;
      Ok (Some cutoff)
  end.

(** [series[series.index >= cutoff_date]]. *)
Definition window (series : Series F) (cutoff : Z) : Series F :=
  filter (fun o => cutoff <=? fst o) series.

Definition pct_change (series : Series F) (days : Z) : result (option F) :=
  match last_obs series with
  | None => Ok None
  | Some (last_date, end_price) =>
      do delta <- timedelta days;
      do cutoff <- timestamp_sub last_date delta;
      match window series cutoff with
      | [] => Ok None
      | (_, start_price) :: _ =>
          if f_eqb start_price (f_lit 0) then Ok None
          else Ok (Some (f_round 1
                           (f_mul (f_sub (f_div end_price start_price) (f_lit 1))
                                  (f_lit 100))))
      end
  end.

(** Dates in ascending order. *)
Definition ascending (series : Series F) : Prop :=
  StronglySorted (fun a b => fst a <= fst b) series.

End PctChange.

(** Calendar days per period label ([PERIOD_DAYS]), in the order of the
    dict literal. *)
Definition PERIODS : list pystr :=
  [lit "1M"; lit "3M"; lit "6M"; lit "1Y"; lit "3Y"; lit "5Y"].

Definition PERIOD_DAYS : list (pystr * Z) :=
  [(lit "1M", 31); (lit "3M", 92); (lit "6M", 183);
   (lit "1Y", 365); (lit "3Y", 365 * 3); (lit "5Y", 365 * 5)].

(* ================================================================== *)
(** * Configuration tables *)
(* ================================================================== *)

Definition ETFS : list pystr :=
  [lit "XUTC"; lit "SP20"; lit "EQQQ"; lit "WTAI"; lit "CSPX"; lit "VWCE"].

Definition ETF_ISINS : pydict pystr :=
  [(lit "XUTC", lit "IE00BGQYRS42"); (lit "SP20", lit "IE000VA628D5");
   (lit "EQQQ", lit "IE0032077012"); (lit "WTAI", lit "IE00BDVPNG13");
   (lit "CSPX", lit "IE00B5BMR087"); (lit "VWCE", lit "IE00BK5BQT80")].

Definition ETF_YF_TICKERS : pydict pystr :=
  [(lit "XUTC", lit "XUTC.L"); (lit "SP20", lit "SP20.L");
   (lit "EQQQ", lit "EQQQ.L"); (lit "WTAI", lit "WTAI.L");
   (lit "CSPX", lit "CSPX.L"); (lit "VWCE", lit "VWCE.L")].

Definition STOCK_TICKERS : list pystr :=
  map lit
    ["NVDA"; "AAPL"; "MSFT"; "AVGO"; "MU"; "AMD"; "PLTR"; "CSCO";
     "LRCX"; "IBM"; "ACN"; "AMAT"; "TXN"; "CRM"; "INTU"; "META";
     "GOOGL"; "GOOG"; "VZ"; "CMCSA"; "NFLX"; "T"; "EA"; "TTWO";
     "DIS"; "WBD"; "LYV"; "CHTR"; "OMC"; "NWSA"; "AMZN"; "TSLA";
     "COST"; "PEP"; "TSM"; "JPM"; "LLY"; "ORCL"; "SAP"; "BRK-B";
     "V"; "XOM"; "UNH"; "WMT"; "HD"; "QCOM"; "000660.KS"]%string.

(** The order in which the run lists the stock tickers: that of
    [STOCK_TICKERS], with BRK-B renamed to BRK_B and moved last. *)
Definition CANONICAL_STOCK_KEYS : list pystr :=
  filter (fun t => negb (pystr_eqb t (lit "BRK-B"))) STOCK_TICKERS ++ [lit "BRK_B"].

(** The two label tables.  [LABEL_MAP_API] is the one of
    fetch_etf_returns_api, [LABEL_MAP_HTML] the one of
    fetch_etf_returns_html. *)
Definition LABEL_MAP_API : pydict pystr :=
  [(lit "1m", lit "1M"); (lit "1M", lit "1M");
   (lit "3m", lit "3M"); (lit "3M", lit "3M");
   (lit "6m", lit "6M"); (lit "6M", lit "6M");
   (lit "1y", lit "1Y"); (lit "1Y", lit "1Y");
   (lit "3y", lit "3Y"); (lit "3Y", lit "3Y");
   (lit "5y", lit "5Y"); (lit "5Y", lit "5Y")].

Definition LABEL_MAP_HTML : pydict pystr :=
  [(lit "1 month", lit "1M"); (lit "1m", lit "1M");
   (lit "3 months", lit "3M"); (lit "3m", lit "3M");
   (lit "6 months", lit "6M"); (lit "6m", lit "6M");
   (lit "1 year", lit "1Y"); (lit "1y", lit "1Y");
   (lit "3 years", lit "3Y"); (lit "3y", lit "3Y");
   (lit "5 years", lit "5Y"); (lit "5y", lit "5Y")].

(* ================================================================== *)
(** * The outside world *)
(* ================================================================== *)

(** A holding as the fetchers build it. *)
Record Holding (F : Type) := {
  ticker : pystr;
  name   : pystr;
  weight : F
}.
Arguments ticker {F} h.
Arguments name {F} h.
Arguments weight {F} h.

(** The parsed profile page as the holdings scraper sees it: for a CSS
    selector, the selected rows, each given by the texts of its [td]
    cells (already [get_text(" ", strip=True)]). *)
Definition HoldingsPage := pystr -> list (list pystr).

(** The parsed profile page as the returns scraper sees it: the tables,
    each with the texts of its [th] cells and, for every [tr], the texts
    of its [td] cells (already [get_text(strip=True)]). *)
Definition ReturnsPage := list (list pystr * list (list pystr)).

(** The frame returned by [yf.download]: whether its columns are a
    MultiIndex, and the outcome of [raw["Close"][t]] and [raw["Close"]]
    before [dropna]. *)
Record Download (F : Type) := {
  multi_index  : bool;
  close_of     : pystr -> result (Series F);
  close_single : result (Series F)
}.
Arguments multi_index {F} d.
Arguments close_of {F} d t.
Arguments close_single {F} d.

(** Everything the script reads from outside, as the outcome of each
    request: [Raise] stands for any exception of the request, of
    [raise_for_status] or of the decoding. *)
Record World (F : Type) := {
  api_holdings  : pystr -> result (json F);
  api_returns   : pystr -> result (json F);
  page_holdings : pystr -> result HoldingsPage;
  page_returns  : pystr -> result ReturnsPage;
  yf_history    : pystr -> result (Series F);
  yf_download   : list pystr -> result (Download F)
}.
Arguments api_holdings {F} w isin.
Arguments api_returns {F} w isin.
Arguments page_holdings {F} w isin.
Arguments page_returns {F} w isin.
Arguments yf_history {F} w t.
Arguments yf_download {F} w ts.

(* ================================================================== *)
(** * Holdings *)
(* ================================================================== *)

Section Fetch.
Context {F : Type} `{PyFloat F}.
Variable U : Unicode.
Variable W : World F.

Definition HOLDINGS_SELECTORS : list pystr :=
  [lit "table.etf-holdings tbody tr";
   lit "div#etf-holdings table tbody tr";
   lit "div.holdings-table tbody tr";
   lit "section.etf-holdings-section table tbody tr";
   lit "table tbody tr"].

(** The body of the row loop of fetch_holdings_html: the holding a row
    contributes, if any. *)
Definition html_row_holding (cells : list pystr) : option (Holding F) :=
  if Nat.ltb (List.length cells) 3 then None
  else
    let weight_raw :=
      strip U (replace (lit "%") [] (replace (lit ",") (lit ".") (last cells []))) in
    match f_parse weight_raw with
    | None => None
    | Some x =>
        let weight := f_round 2 x in
        if f_leb weight (f_lit 0) then None
        else Some {| ticker := nth 2 cells []; name := nth 1 cells [];
                     weight := weight |}
    end.

(** The selector loop: [holdings] is carried from one selector to the
    next and the loop stops as soon as it is non-empty. *)
Fixpoint scan_selectors (page : HoldingsPage) (top_n : nat)
    (selectors : list pystr) (holdings : list (Holding F)) : list (Holding F) :=
  match selectors with
  | [] => holdings
  | selector :: rest =>
      match page selector with
      | [] => scan_selectors page top_n rest holdings
      | rows =>
          let holdings' :=
            holdings ++ flat_map (fun row => match html_row_holding row with
                                             | Some h => [h]
                                             | None => []
                                             end) (firstn top_n rows) in
          match holdings' with
          | [] => scan_selectors page top_n rest holdings'
          | _ => holdings'
          end
      end
  end.

Definition fetch_holdings_html (isin : pystr) (top_n : nat)
  : option (list (Holding F)) :=
  match page_holdings W isin with
  | Raise _ => None
  | Ok page =>
      match scan_selectors page top_n HOLDINGS_SELECTORS [] with
      | [] => None
      | holdings => Some holdings
      end
  end.

(** The nested-structure scan: the first key whose value is a non-empty
    list with "weight" in the text of its first element. *)
Fixpoint find_nested (d : list (pystr * json F)) : option (json F) :=
  match d with
  | [] => None
  | (_, v) :: d' =>
      match v with
      | JList (x :: _) =>
          if contains (lit "weight") (lower U (py_str U x)) then Some v
          else find_nested d'
      | _ => find_nested d'
      end
  end.

(** [v.get(k1) or v.get(k2) or ... or default], evaluated from left to
    right. *)
Fixpoint get_first (v : json F) (keys : list pystr) (default : json F)
  : result (json F) :=
  match keys with
  | [] => Ok default
  | k :: ks =>
      do x <- py_get v k;
      if truthy x then Ok x else get_first v ks default
  end.

(** The raw holdings list picked from the payload. *)
Definition raw_holdings (data : json F) : result (json F) :=
  do raw <- get_first data [lit "topHoldings"; lit "holdings"] (JList []);
  if truthy raw then Ok raw
  else match data with
       | JDict d => Ok (match find_nested d with Some v => v | None => raw end)
       | _ => Ok raw
       end.

(** The body of the item loop of fetch_holdings_api. *)
Definition api_item_holding (item : json F) : result (option (Holding F)) :=
  do t <- get_first item [lit "ticker"; lit "symbol"; lit "isin"] (JStr []);
  do ticker <- py_strip U t;
  do n <- get_first item [lit "name"; lit "description"] (JStr []);
  do name <- py_strip U n;
  do w <- get_first item [lit "weight"; lit "percentage"] (JInt 0);
  do weight <- py_float w;
  if f_ltb (f_lit 0) weight
  then Ok (Some {| ticker := ticker; name := name; weight := f_round 2 weight |})
  else Ok None.

Fixpoint api_items (items : list (json F)) (holdings : list (Holding F))
  : result (list (Holding F)) :=
  match items with
  | [] => Ok holdings
  | item :: rest =>
      do h <- api_item_holding item;
      api_items rest (match h with Some x => holdings ++ [x] | None => holdings end)
  end.

Definition fetch_holdings_api (isin : pystr) (top_n : nat)
  : result (option (list (Holding F))) :=
  match api_holdings W isin with
  | Raise _ => Ok None
  | Ok data =>
      do raw <- raw_holdings data;
      if negb (truthy raw) then Ok None
      else
        do items <- py_slice_items raw top_n;
        do holdings <- api_items items [];
        match holdings with
        | [] => Ok (fetch_holdings_html isin top_n)
        | _ => Ok (Some holdings)
        end
  end.

(* ------------------------------------------------------------------ *)
(** ** ETF returns *)

Definition nonempty {A} (l : list A) : bool :=
  match l with [] => false | _ => true end.

(** [LABEL_MAP.get(x)] for an arbitrary object: a list or a dict cannot
    be hashed, any other object that is not a str is simply absent. *)
Definition label_lookup (m : pydict pystr) (x : json F) : result (option pystr) :=
  match x with
  | JStr s => Ok (dict_get m s)
  | JList _ | JDict _ => Raise TypeError
  | _ => Ok None
  end.

(** [except (TypeError, ValueError)]. *)
Definition type_or_value_error (e : exn) : bool :=
  match e with
  | TypeError | ValueError => true
  | _ => false
  end.

(** [returns[label] = round(float(v) * 100, 1)] under
    [try ... except (TypeError, ValueError): pass], where [v] is itself
    computed inside the [try]. *)
Definition set_percent (returns : pydict F) (label : pystr) (v : result (json F))
  : result (pydict F) :=
  try_except
    (do x <- v;
     do y <- py_float x;
     Ok (dict_set returns label (f_round 1 (f_mul y (f_lit 100)))))
    type_or_value_error
    (Ok returns).

(** The loop over [perf.items()] when [perf] is a dict. *)
Fixpoint perf_dict_items (items : list (pystr * json F)) (returns : pydict F)
  : result (pydict F) :=
  match items with
  | [] => Ok returns
  | (k, v) :: rest =>
      match dict_get LABEL_MAP_API k with
      | Some mapped =>
          if (nonempty mapped && match v with JNull => false | _ => true end)%bool
          then do r <- set_percent returns mapped (Ok v);
               perf_dict_items rest r
          else perf_dict_items rest returns
      | None => perf_dict_items rest returns
      end
  end.

(** The loop over [perf] when it is a list. *)
Fixpoint perf_list_items (items : list (json F)) (returns : pydict F)
  : result (pydict F) :=
  match items with
  | [] => Ok returns
  | item :: rest =>
      do label <- get_first item [lit "period"; lit "label"] (JStr []);
      do period <- label_lookup LABEL_MAP_API label;
      match period with
      | Some p =>
          if nonempty p
          then do r <- set_percent returns p
                         (get_first item [lit "value"; lit "return"] (JInt 0));
               perf_list_items rest r
          else perf_list_items rest returns
      | None => perf_list_items rest returns
      end
  end.

Definition RETURNS_KEYS : list pystr :=
  [lit "performance"; lit "returns"; lit "historicPerformance"; lit "totalReturn"].

(** The loop over the candidate keys. *)
Fixpoint scan_keys (data : json F) (keys : list pystr) (returns : pydict F)
  : result (pydict F) :=
  match keys with
  | [] => Ok returns
  | raw_key :: rest =>
      do perf <- py_get data raw_key;
      match perf with
      | JDict items =>
          do r <- perf_dict_items items returns;
          if nonempty r then Ok r else scan_keys data rest r
      | JList items =>
          do r <- perf_list_items items returns;
          if nonempty r then Ok r else scan_keys data rest r
      | _ => scan_keys data rest returns
      end
  end.

(** The loop of fetch_etf_returns_yf over [PERIOD_DAYS]. *)
Fixpoint yf_returns_loop (close : Series F) (periods : list (pystr * Z))
    (returns : pydict F) : result (pydict F) :=
  match periods with
  | [] => Ok returns
  | (label, days) :: rest =>
      do v <- pct_change close days;
      yf_returns_loop close rest
        (match v with
         | Some x => dict_set returns label x
         | None => returns
         end)
  end.

(** [fetch_etf_returns_yf]: the download and the loop stand in one
    [try], any exception gives the empty dictionary. *)
Definition fetch_etf_returns_yf (etf : pystr) : pydict F :=
  match dict_get ETF_YF_TICKERS etf with
  | None => []
  | Some yf_ticker =>
      if negb (nonempty yf_ticker) then []
      else
        match yf_history W yf_ticker with
        | Raise _ => []
        | Ok [] => []
        | Ok close =>
            match yf_returns_loop close PERIOD_DAYS [] with
            | Ok returns => returns
            | Raise _ => []
            end
        end
  end.

(** The header loop of fetch_etf_returns_html for one row: [i] is the
    index of the first header of [headers]. *)
Fixpoint html_row_returns (headers : list pystr) (i : nat) (cells : list pystr)
    (returns : pydict F) : pydict F :=
  match headers with
  | [] => returns
  | h :: rest =>
      let returns' :=
        match dict_get LABEL_MAP_HTML h with
        | Some mapped =>
            if (nonempty mapped && Nat.ltb i (List.length cells))%bool
            then
              let raw := strip U (replace (lit ",") (lit ".")
                                    (replace (lit "%") [] (nth i cells []))) in
              match f_parse raw with
              | Some x => dict_set returns mapped (f_round 1 x)
              | None => returns
              end
            else returns
        | None => returns
        end in
      html_row_returns rest (S i) cells returns'
  end.

Definition html_table_returns (table : list pystr * list (list pystr))
    (returns : pydict F) : pydict F :=
  let headers := map (lower U) (fst table) in
  fold_left (fun r cells => match cells with
                            | [] => r
                            | _ => html_row_returns headers 0 cells r
                            end) (snd table) returns.

Definition fetch_etf_returns_html (etf isin : pystr) : pydict F :=
  match page_returns W isin with
  | Raise _ => []
  | Ok tables =>
      match fold_left (fun r t => html_table_returns t r) tables [] with
      | [] => fetch_etf_returns_yf etf
      | returns => returns
      end
  end.

Definition fetch_etf_returns_api (etf isin : pystr) : result (pydict F) :=
  match api_returns W isin with
  | Raise _ => Ok []
  | Ok data =>
      do returns <- scan_keys data RETURNS_KEYS [];
      match returns with
      | [] => Ok (fetch_etf_returns_html etf isin)
      | _ => Ok returns
      end
  end.

(* ------------------------------------------------------------------ *)
(** ** Stock returns *)

(** [{p: None for p in PERIOD_DAYS}]. *)
Definition all_missing : pydict (option F) :=
  map (fun '(label, _) => (label, None)) PERIOD_DAYS.

(** The series of one ticker, as the three branches of the loop body
    obtain it. *)
Definition ticker_series (raw : option (Download F)) (n_tickers : nat)
    (yf_ticker : pystr) : result (Series F) :=
  let individual := do s <- yf_history W yf_ticker; Ok (dropna s) in
  match raw with
  | Some d =>
      if multi_index d then do s <- close_of d yf_ticker; Ok (dropna s)
      else if Nat.eqb n_tickers 1 then do s <- close_single d; Ok (dropna s)
      else individual
  | None => individual
  end.

(** The loop of one ticker over [PERIOD_DAYS]. *)
Fixpoint period_returns (series : Series F) (periods : list (pystr * Z))
    (rets : pydict (option F)) : result (pydict (option F)) :=
  match periods with
  | [] => Ok rets
  | (label, days) :: rest =>
      do v <- pct_change series days;
      period_returns series rest (dict_set rets label v)
  end.

(** The body of the [try] of one ticker. *)
Definition ticker_returns (raw : option (Download F)) (n_tickers : nat)
    (yf_ticker : pystr) : result (pydict (option F)) :=
  do series <- ticker_series raw n_tickers yf_ticker;
  match series with
  | [] => Raise ValueError
  | _ => period_returns series PERIOD_DAYS []
  end.

(** What is stored in [results[ticker]]. *)
Definition ticker_entry (raw : option (Download F)) (n_tickers : nat)
    (yf_ticker : pystr) : pydict (option F) :=
  match ticker_returns raw n_tickers yf_ticker with
  | Ok rets => rets
  | Raise _ => all_missing
  end.

Definition fetch_stock_returns (tickers : list pystr) : pydict (pydict (option F)) :=
  let yf_tickers := map (replace (lit "BRK_B") (lit "BRK-B")) tickers in
  let raw := match yf_download W yf_tickers with
             | Ok d => Some d
             | Raise _ => None
             end in
  fold_left (fun results '(ticker, yf_ticker) =>
               dict_set results ticker
                        (ticker_entry raw (List.length yf_tickers) yf_ticker))
            (combine tickers yf_tickers) [].

(** Step 1 of [main]: fetch, then rename the key BRK-B to BRK_B. *)
Definition main_stock_returns : pydict (pydict (option F)) :=
  let stock_rets := fetch_stock_returns STOCK_TICKERS in
  match dict_get stock_rets (lit "BRK-B") with
  | Some v => dict_set (dict_pop stock_rets (lit "BRK-B")) (lit "BRK_B") v
  | None => stock_rets
  end.

(** Step 2 of [main]: the two dictionaries filled by the loop over
    [ETF_ISINS]; an exception of a fetcher ends the run. *)
Fixpoint main_etf_loop (etfs : pydict pystr)
    (holdings_by_etf : pydict (list (Holding F))) (etf_rets_by_etf : pydict (pydict F))
  : result (pydict (list (Holding F)) * pydict (pydict F)) :=
  match etfs with
  | [] => Ok (holdings_by_etf, etf_rets_by_etf)
  | (etf, isin) :: rest =>
      do h <- fetch_holdings_api isin 15;
      let holdings_by_etf' :=
        match h with
        | Some (x :: l) => dict_set holdings_by_etf etf (x :: l)
        | _ => holdings_by_etf
        end in
      do r <- fetch_etf_returns_api etf isin;
      let etf_rets_by_etf' :=
        match r with
        | [] => etf_rets_by_etf
        | _ => dict_set etf_rets_by_etf etf r
        end in
      main_etf_loop rest holdings_by_etf' etf_rets_by_etf'
  end.

End Fetch.

(* ================================================================== *)
(** * JavaScript formatters *)
(* ================================================================== *)

Definition QUOTE : pystr := [34%N].
Definition NEWLINE : pystr := [10%N].

Section Serialize.
Context {F : Type} `{PyFloat F}.
Variable U : Unicode.

(** [s.replace('"', '\\"')]. *)
Definition escape_quotes (s : pystr) : pystr := replace QUOTE (92%N :: QUOTE) s.

(** One line of a holding. *)
Definition js_holding_line (h : Holding F) : pystr :=
  lit "    { ticker:" ++ QUOTE ++ escape_quotes (ticker h) ++ QUOTE
  ++ lit ", name:" ++ QUOTE ++ escape_quotes (name h) ++ QUOTE
  ++ lit ", weight:" ++ f_format 5 2 (weight h) ++ lit " },".

Definition js_holdings (holdings_by_etf : pydict (list (Holding F))) : pystr :=
  join NEWLINE
    ([lit "const RAW_HOLDINGS = {"]
     ++ flat_map (fun etf =>
                    let holdings := dict_get_or holdings_by_etf etf [] in
                    [lit "  " ++ etf ++ lit ": ["]
                    ++ map js_holding_line holdings
                    ++ [lit "  ],"]) ETFS
     ++ [lit "};"]).

Definition js_etf_returns (returns_by_etf : pydict (pydict F)) : pystr :=
  join NEWLINE
    ([lit "const ETF_RETURNS = {"]
     ++ map (fun etf =>
               let rets := dict_get_or returns_by_etf etf [] in
               let parts :=
                 map (fun p => match dict_get rets p with
                               | None => QUOTE ++ p ++ QUOTE ++ lit ":  null "
                               | Some v => QUOTE ++ p ++ QUOTE ++ lit ": "
                                           ++ f_format 5 1 v
                               end) PERIODS in
               lit "  " ++ etf ++ lit ": { " ++ join (lit ", ") parts ++ lit " },")
            ETFS
     ++ [lit "};"]).

(** The JavaScript key of a ticker: quoted when it has a dot or is not a
    plain identifier. *)
Definition js_key (ticker : pystr) : pystr :=
  if (contains (lit ".") ticker
      || negb (isalnum U (replace (lit "_") [] ticker)))%bool
  then QUOTE ++ ticker ++ QUOTE
  else ticker.

Definition js_holding_returns (returns_by_ticker : pydict (pydict (option F)))
  : pystr :=
  join NEWLINE
    ([lit "const HOLDING_RETURNS = {"]
     ++ map (fun '(ticker, rets) =>
               let parts :=
                 map (fun p => match dict_get rets p with
                               | Some (Some v) => QUOTE ++ p ++ QUOTE ++ lit ": "
                                                  ++ f_format 7 1 v
                               | _ => QUOTE ++ p ++ QUOTE ++ lit ":   null"
                               end) PERIODS in
               lit "  " ++ js_key ticker ++ lit ":  { " ++ join (lit ", ") parts
               ++ lit " },")
            returns_by_ticker
     ++ [lit "};"]).

End Serialize.

(** The body of a double-quoted JavaScript string literal, read from
    just behind the opening quote: the raw body and the text behind the
    closing quote.  A backslash takes the next character with it; a bare
    line break or the end of the text leaves the literal unterminated. *)
Fixpoint js_string_end (s : pystr) : option (pystr * pystr) :=
  match s with
  | [] => None
  | c :: s' =>
      if N.eqb c 34 then Some ([], s')
      else if (N.eqb c 10 || N.eqb c 13)%bool then None
      else if N.eqb c 92 then
        match s' with
        | [] => None
        | e :: s'' =>
            match js_string_end s'' with
            | Some (body, rest) => Some (c :: e :: body, rest)
            | None => None
            end
        end
      else
        match js_string_end s' with
        | Some (body, rest) => Some (c :: body, rest)
        | None => None
        end
  end.

(* ================================================================== *)
(** * Regular expressions *)
(* ================================================================== *)

(** The fragment of [re] that the patcher uses: a pattern is a sequence
    of single characters, [x+] and [.*?]; matching backtracks in the
    order of [re] (greedy: longest first, lazy: shortest first). *)
Inductive atom :=
| Chr (c : N)
| Cls (p : N -> bool)
| Dot.

Inductive item :=
| One (a : atom)
| Plus (a : atom)
| LazyStar (a : atom).

Definition regex := list item.

(** [Dot] is [.] under [re.DOTALL], the only way the script uses it. *)
Definition atom_ok (a : atom) (c : N) : bool :=
  match a with
  | Chr c' => N.eqb c' c
  | Cls p => p c
  | Dot => true
  end.

(** Zero or more [a], as many as possible, then [k]. *)
Fixpoint greedy (a : atom) (k : pystr -> option pystr) (s : pystr) : option pystr :=
  match s with
  | c :: s' =>
      if atom_ok a c
      then match greedy a k s' with
           | Some r => Some r
           | None => k s
           end
      else k s
  | [] => k s
  end.

(** Zero or more [a], as few as possible, then [k]. *)
Fixpoint lazy (a : atom) (k : pystr -> option pystr) (s : pystr) : option pystr :=
  match k s with
  | Some r => Some r
  | None =>
      match s with
      | c :: s' => if atom_ok a c then lazy a k s' else None
      | [] => None
      end
  end.

(** [pattern.match(s)]: the text left after the match, if there is one. *)
Fixpoint re_match (r : regex) (s : pystr) : option pystr :=
  match r with
  | [] => Some s
  | One a :: r' =>
      match s with
      | c :: s' => if atom_ok a c then re_match r' s' else None
      | [] => None
      end
  | Plus a :: r' =>
      match s with
      | c :: s' => if atom_ok a c then greedy a (re_match r') s' else None
      | [] => None
      end
  | LazyStar a :: r' => lazy a (re_match r') s
  end.

Definition re_lit (s : pystr) : regex := map (fun c => One (Chr c)) s.

(** ** Replacement templates *)

(** A parsed template: literal text and references to the whole match. *)
Inductive tpiece :=
| TLit (s : pystr)
| TGroup0.

Definition octal_digit (c : N) : bool := ((48 <=? c) && (c <=? 55))%N.

(** The name inside [\g<...>] and the number of characters up to and
    including the closing bracket. *)
Fixpoint group_name (s : pystr) : option (pystr * nat) :=
  match s with
  | [] => None
  | c :: s' =>
      if N.eqb c 62 then Some ([], 1%nat)
      else match group_name s' with
           | Some (nm, n) => Some (c :: nm, S n)
           | None => None
           end
  end.

Section Template.
Variable U : Unicode.

(** The escape that starts with the backslash followed by [e]; [after]
    is the text behind [e].  The result is the piece and the number of
    characters read behind the backslash.  The pattern has no group, so
    only group 0 can be referred to.  A group name of ASCII digits is a
    number; a name that is an identifier is looked up among the named
    groups, of which there are none; any other name is read as the
    interpreter at hand reads it. *)
Definition template_escape (e : N) (after : pystr) : result (tpiece * nat) :=
  if N.eqb e 103 then
    match after with
    | 60%N :: after' =>
        match group_name after' with
        | None => Raise ReError
        | Some ([], _) => Raise ReError
        | Some (c :: nm, n) =>
            if forallb ascii_digit (c :: nm)
            then if forallb (N.eqb 48) (c :: nm)
                 then Ok (TGroup0, (2 + n)%nat)
                 else Raise ReError
            else if (negb (is_decimal U c) && forallb (is_word U) (c :: nm))%bool
                 then Raise IndexError
                 else match re_legacy_index U (c :: nm) with
                      | Some 0 => Ok (TGroup0, (2 + n)%nat)
                      | _ => Raise ReError
                      end
        end
    | _ => Raise ReError
    end
  else if N.eqb e 48 then
    match after with
    | d1 :: d2 :: _ =>
        if octal_digit d1
        then if octal_digit d2
             then Ok (TLit [(((d1 - 48) * 8 + (d2 - 48)) mod 256)%N], 3%nat)
             else Ok (TLit [(d1 - 48)%N], 2%nat)
        else Ok (TLit [0%N], 1%nat)
    | [d1] =>
        if octal_digit d1 then Ok (TLit [(d1 - 48)%N], 2%nat)
        else Ok (TLit [0%N], 1%nat)
    | [] => Ok (TLit [0%N], 1%nat)
    end
  else if ascii_digit e then
    match after with
    | d2 :: d3 :: _ =>
        if (octal_digit e && octal_digit d2 && octal_digit d3)%bool
        then let v := ((e - 48) * 64 + (d2 - 48) * 8 + (d3 - 48))%N in
             if (255 <? v)%N then Raise ReError else Ok (TLit [v], 3%nat)
        else Raise ReError
    | _ => Raise ReError
    end
  else if N.eqb e 97 then Ok (TLit [7%N], 1%nat)
  else if N.eqb e 98 then Ok (TLit [8%N], 1%nat)
  else if N.eqb e 102 then Ok (TLit [12%N], 1%nat)
  else if N.eqb e 110 then Ok (TLit [10%N], 1%nat)
  else if N.eqb e 114 then Ok (TLit [13%N], 1%nat)
  else if N.eqb e 116 then Ok (TLit [9%N], 1%nat)
  else if N.eqb e 118 then Ok (TLit [11%N], 1%nat)
  else if N.eqb e 92 then Ok (TLit [92%N], 1%nat)
  else if (ascii_upper e || ascii_lower e)%bool then Raise ReError
  else Ok (TLit [92%N; e], 1%nat).

(** The parser of replacement strings; [skip] counts the characters of
    the current escape still to be passed over. *)
Fixpoint parse_template_from (s : pystr) (skip : nat) : result (list tpiece) :=
  match s with
  | [] => Ok []
  | c :: s' =>
      match skip with
      | S k => parse_template_from s' k
      | O =>
          if N.eqb c 92 then
            match s' with
            | [] => Raise ReError
            | e :: after =>
                do pn <- template_escape e after;
                do rest <- parse_template_from s' (snd pn);
                Ok (fst pn :: rest)
            end
          else
            do rest <- parse_template_from s' 0;
            Ok (TLit [c] :: rest)
      end
  end.

Definition parse_template (repl : pystr) : result (list tpiece) :=
  parse_template_from repl 0.

End Template.

(** The replacement text for one match. *)
Definition expand (t : list tpiece) (matched : pystr) : pystr :=
  flat_map (fun p => match p with TLit s => s | TGroup0 => matched end) t.

(** ** Substitution *)

(** The scan of [re.sub] from left to right; [skip] counts the
    characters of the current match still to be passed over.  An empty
    match inserts the replacement and keeps the character. *)
Fixpoint sub_from (r : regex) (repl : pystr -> pystr) (s : pystr) (skip : nat)
  : pystr :=
  match s with
  | [] => []
  | c :: s' =>
      match skip with
      | S k => sub_from r repl s' k
      | O =>
          match re_match r s with
          | Some rest =>
              match (List.length s - List.length rest)%nat with
              | O => repl [] ++ c :: sub_from r repl s' 0
              | S n => repl (firstn (S n) s) ++ sub_from r repl s' n
              end
          | None => c :: sub_from r repl s' 0
          end
      end
  end.

(** [re.sub(pattern, repl, s)]: the template is parsed first, so that a
    bad template raises even when nothing matches. *)
Definition re_sub (U : Unicode) (r : regex) (repl s : pystr) : result pystr :=
  do t <- parse_template U repl;
  Ok (sub_from r (expand t) s 0).

(* ================================================================== *)
(** * The patcher *)
(* ================================================================== *)

Definition CLOSE : pystr := lit "};".

(** [r"const NAME = \{.*?\};"] with [re.DOTALL]. *)
Definition block_re (name : pystr) : regex :=
  re_lit (lit "const " ++ name ++ lit " = {") ++ [LazyStar Dot] ++ re_lit CLOSE.

Definition RAW_HOLDINGS_RE : regex := block_re (lit "RAW_HOLDINGS").
Definition ETF_RETURNS_RE : regex := block_re (lit "ETF_RETURNS").
Definition HOLDING_RETURNS_RE : regex := block_re (lit "HOLDING_RETURNS").

(** The text "EMBEDDED DATA - compiled " with its em dash (U+2014). *)
Definition COMPILED_LABEL : pystr :=
  lit "EMBEDDED DATA " ++ [8212%N] ++ lit " compiled ".

Definition AS_OF_LABEL : pystr := lit "Data as of ".

Section Patch.
Context {F : Type} `{PyFloat F}.
Variable U : Unicode.

(** [\w+ \d+, \d{4}]. *)
Definition date_re : regex :=
  [Plus (Cls (is_word U)); One (Chr 32); Plus (Cls (is_decimal U));
   One (Chr 44); One (Chr 32);
   One (Cls (is_decimal U)); One (Cls (is_decimal U));
   One (Cls (is_decimal U)); One (Cls (is_decimal U))].

Definition COMPILED_RE : regex := re_lit COMPILED_LABEL ++ date_re.
Definition AS_OF_RE : regex := re_lit AS_OF_LABEL ++ date_re ++ [One (Chr 46)].

(** The two date substitutions at the end of patch_html. *)
Definition patch_dates (html date_str : pystr) : result pystr :=
  do html1 <- re_sub U COMPILED_RE (COMPILED_LABEL ++ date_str) html;
  re_sub U AS_OF_RE (AS_OF_LABEL ++ date_str ++ lit ".") html1.

Definition patch_html (html : pystr)
    (new_holdings : option (pydict (list (Holding F))))
    (new_etf_rets : option (pydict (pydict F)))
    (new_stock_rets : option (pydict (pydict (option F))))
    (date_str : pystr) : result pystr :=
  do html1 <- match new_holdings with
              | Some (x :: d) => re_sub U RAW_HOLDINGS_RE (js_holdings (x :: d)) html
              | _ => Ok html
              end;
  do html2 <- match new_etf_rets with
              | Some (x :: d) => re_sub U ETF_RETURNS_RE (js_etf_returns (x :: d)) html1
              | _ => Ok html1
              end;
  do html3 <- match new_stock_rets with
              | Some (x :: d) =>
                  re_sub U HOLDING_RETURNS_RE (js_holding_returns U (x :: d)) html2
              | _ => Ok html2
              end;
  patch_dates html3 date_str.

End Patch.

(* ================================================================== *)
(** * The run *)
(* ================================================================== *)

Section Main.
Context {F : Type} `{PyFloat F}.
Variable U : Unicode.
Variable W : World F.

(** [d or None]. *)
Definition or_none {A} (d : list A) : option (list A) :=
  match d with
  | [] => None
  | _ => Some d
  end.

(** [main], from the text read from the document to the text written
    back.  An exception ends the run before anything is written. *)
Definition main (html today_str : pystr) : result pystr :=
  let stock_rets := main_stock_returns W in
  do hr <- main_etf_loop U W ETF_ISINS [] [];
  patch_html U html (or_none (fst hr)) (or_none (snd hr)) (or_none stock_rets)
             today_str.

End Main.

(* ================================================================== *)
(** * Documents as sequences of text, regions and annotations *)
(* ================================================================== *)

(** The specification describes the document as text with three
    delimited data regions and two date annotations.  A [layout] is a
    document cut into such pieces; [render] gives back its text. *)
Inductive tag :=
| TText
| THoldings
| TEtfReturns
| TStockReturns
| TCompiled
| TAsOf.

Definition tag_eqb (a b : tag) : bool :=
  match a, b with
  | TText, TText | THoldings, THoldings | TEtfReturns, TEtfReturns
  | TStockReturns, TStockReturns | TCompiled, TCompiled | TAsOf, TAsOf => true
  | _, _ => false
  end.

Definition layout := list (tag * pystr).

Definition render (L : layout) : pystr := flat_map snd L.

(** Every piece tagged [T] gets the replacement computed from its text. *)
Definition set_pieces (T : tag) (repl : pystr -> pystr) (L : layout) : layout :=
  map (fun p => if tag_eqb (fst p) T then (T, repl (snd p)) else p) L.

(** No match of [r] starts inside [s] when [rest] follows it. *)
Fixpoint no_match_in (r : regex) (s rest : pystr) : bool :=
  match s with
  | [] => true
  | _ :: s' =>
      match re_match r (s ++ rest) with
      | Some _ => false
      | None => no_match_in r s' rest
      end
  end.

(** The matches of [r] in the rendered document are exactly the pieces
    tagged [T]. *)
Fixpoint scan_ok (r : regex) (T : tag) (L : layout) : bool :=
  match L with
  | [] => true
  | (t, s) :: L' =>
      (if tag_eqb t T
       then match re_match r (s ++ render L') with
            | Some rest => pystr_eqb rest (render L') && nonempty s
            | None => false
            end
       else no_match_in r s (render L'))
      && scan_ok r T L'
  end.

(** A block is provided when it is neither absent nor empty. *)
Definition provided {A} (block : option (list A)) : bool :=
  match block with
  | Some (_ :: _) => true
  | _ => false
  end.

(** All pieces tagged [T] hold the text [c]. *)
Definition pieces_hold (T : tag) (c : pystr) (L : layout) : Prop :=
  forall p, In p L -> fst p = T -> snd p = c.

(** One substitution of the patcher: the kind of piece it rewrites, its
    pattern and its replacement string. *)
Definition step := (tag * regex * pystr)%type.

Section Steps.
Context {F : Type} `{PyFloat F}.
Variable U : Unicode.

(** The substitutions that patch_html runs, in order. *)
Definition block_steps
    (new_holdings : option (pydict (list (Holding F))))
    (new_etf_rets : option (pydict (pydict F)))
    (new_stock_rets : option (pydict (pydict (option F)))) : list step :=
  match new_holdings with
  | Some (x :: d) => [(THoldings, RAW_HOLDINGS_RE, js_holdings (x :: d))]
  | _ => []
  end
  ++ match new_etf_rets with
     | Some (x :: d) => [(TEtfReturns, ETF_RETURNS_RE, js_etf_returns (x :: d))]
     | _ => []
     end
  ++ match new_stock_rets with
     | Some (x :: d) =>
         [(TStockReturns, HOLDING_RETURNS_RE, js_holding_returns U (x :: d))]
     | _ => []
     end.

Definition date_steps (date_str : pystr) : list step :=
  [(TCompiled, COMPILED_RE U, COMPILED_LABEL ++ date_str);
   (TAsOf, AS_OF_RE U, AS_OF_LABEL ++ date_str ++ lit ".")].

(** The substitutions run one after the other on a text. *)
Fixpoint run_subs (steps : list step) (html : pystr) : result pystr :=
  match steps with
  | [] => Ok html
  | (_, r, repl) :: rest =>
      do html' <- re_sub U r repl html;
      run_subs rest html'
  end.

(** The same substitutions as rewritings of the pieces of a layout. *)
Fixpoint run_steps (steps : list step) (L : layout) : layout :=
  match steps with
  | [] => L
  | (T, _, repl) :: rest =>
      match parse_template U repl with
      | Ok t => run_steps rest (set_pieces T (expand t) L)
      | Raise _ => L
      end
  end.

(** Every substitution has a well-formed replacement and, when its turn
    comes, matches exactly the pieces of its own kind. *)
Fixpoint steps_ok (steps : list step) (L : layout) : bool :=
  match steps with
  | [] => true
  | (T, r, repl) :: rest =>
      match parse_template U repl with
      | Ok t => scan_ok r T L && steps_ok rest (set_pieces T (expand t) L)
      | Raise _ => false
      end
  end.

(** The replacement does not refer to the text it replaces. *)
Definition constant_template (repl : pystr) : bool :=
  match parse_template U repl with
  | Ok t => forallb (fun p => match p with TLit _ => true | TGroup0 => false end) t
  | Raise _ => false
  end.

(** The tags rewritten by a list of substitutions. *)
Definition rewritten (steps : list step) (t : tag) : bool :=
  existsb (fun st => tag_eqb (fst (fst st)) t) steps.

(** No two substitutions rewrite the same kind of piece. *)
Fixpoint distinct_tags (steps : list step) : bool :=
  match steps with
  | [] => true
  | st :: rest => negb (rewritten rest (fst (fst st))) && distinct_tags rest
  end.

End Steps.

(* ================================================================== *)
(** * Further vocabulary for the properties *)
(* ================================================================== *)

(** The computation returned. *)
Definition ok {A} (r : result A) : bool :=
  match r with
  | Ok _ => true
  | Raise _ => false
  end.

(** A text without backslash and without line break. *)
Definition plain_text (s : pystr) : bool :=
  forallb (fun c => negb (N.eqb c 92 || N.eqb c 10 || N.eqb c 13)) s.

(** The value of a string literal body in which the only escape is the
    escaped double quote. *)
Fixpoint js_unescape_quotes (body : pystr) : pystr :=
  match body with
  | [] => []
  | c :: rest =>
      if N.eqb c 92 then
        match rest with
        | e :: rest' =>
            if N.eqb e 34 then 34%N :: js_unescape_quotes rest'
            else c :: js_unescape_quotes rest
        | [] => [c]
        end
      else c :: js_unescape_quotes rest
  end.

Section HoldingsVocabulary.
Context {F : Type} `{PyFloat F}.
Variable U : Unicode.

(** The holdings that the rows of one selector contribute. *)
Definition selector_holdings (page : HoldingsPage) (top_n : nat) (selector : pystr)
  : list (Holding F) :=
  flat_map (fun row => match html_row_holding U row with
                       | Some h => [h]
                       | None => []
                       end) (firstn top_n (page selector)).

(** An item of the raw list that the item loop can process: a dict whose
    ticker and name are strings (or missing) and whose weight can be
    converted by [float]. *)
Definition item_well_formed (item : json F) : bool :=
  match item with
  | JDict _ =>
      match get_first item [lit "ticker"; lit "symbol"; lit "isin"] (JStr []),
            get_first item [lit "name"; lit "description"] (JStr []),
            get_first item [lit "weight"; lit "percentage"] (JInt 0) with
      | Ok (JStr _), Ok (JStr _), Ok w => ok (py_float w)
      | _, _, _ => false
      end
  | _ => false
  end.

End HoldingsVocabulary.

(** A returns dictionary in canonical shape: its keys are period labels,
    none of them twice, and every value is rounded to one decimal. *)
Definition period_keyed {F : Type} `{PyFloat F} (r : pydict F) : Prop :=
  NoDup (dict_keys r)
  /\ (forall k, In k (dict_keys r) -> In k PERIODS)
  /\ (forall k v, In (k, v) r -> exists x, v = f_round 1 x).

(** Word characters only, and not underscores alone (so not empty). *)
Definition word_only (U : Unicode) (t : pystr) : bool :=
  forallb (is_word U) t && existsb (fun c => negb (N.eqb c 95)) t.
(* ================================================================== *)
(** * Sample data *)
(* ================================================================== *)

(** The numeric example of the specification: prices 100, 150, 200 at days
    -400, -200 and 0. *)
Definition example_series : Series Q :=
  [(-400 * ns_per_day, 100%Q); (-200 * ns_per_day, 150%Q); (0, 200%Q)].

(** Character tables that know no character above 127, with the
    templates of Python 3.12. *)
Definition ascii_only : Unicode :=
  {| uni_alnum := fun _ => false;
     uni_decimal := fun _ => false;
     uni_space := fun _ => false;
     uni_printable := fun _ => true;
     uni_lower := fun c => [c];
     re_legacy_index := fun _ => None |}.

(** [int(s)] for ASCII text: blanks around, a sign, digits with single
    underscores between them. *)
Fixpoint int_digits (s : pystr) (acc : Z) (after_digit : bool) : option Z :=
  match s with
  | [] => if after_digit then Some acc else None
  | c :: s' =>
      if ascii_digit c then int_digits s' (10 * acc + Z.of_N (c - 48)) true
      else if (N.eqb c 95 && after_digit)%bool then int_digits s' acc false
      else None
  end.

Definition ascii_int (s : pystr) : option Z :=
  match strip ascii_only s with
  | 43%N :: ds => int_digits ds 0 false
  | 45%N :: ds => option_map Z.opp (int_digits ds 0 false)
  | ds => int_digits ds 0 false
  end.

(** The same tables with the templates of Python 3.10 and 3.11. *)
Definition ascii_legacy : Unicode :=
  {| uni_alnum := fun _ => false;
     uni_decimal := fun _ => false;
     uni_space := fun _ => false;
     uni_printable := fun _ => true;
     uni_lower := fun c => [c];
     re_legacy_index := ascii_int |}.

(** A world in which every request fails, except the price history of
    the ticker AAA. *)
Definition offline_world : World Q :=
  {| api_holdings := fun _ => Raise RequestError;
     api_returns := fun _ => Raise RequestError;
     page_holdings := fun _ => Raise RequestError;
     page_returns := fun _ => Raise RequestError;
     yf_history := fun t => if pystr_eqb t (lit "AAA") then Ok example_series
                            else Raise RequestError;
     yf_download := fun _ => Raise RequestError |}.

(** Payloads of the JSON servlet. *)
Definition item_json (t n : string) (w : json Q) : json Q :=
  JDict [(lit "ticker", JStr (lit t)); (lit "name", JStr (lit n)); (lit "weight", w)].

Definition payload_bad_weight : json Q :=
  JDict [(lit "topHoldings", JList [item_json "AAPL" "Apple" (JStr (lit "n/a"))])].

Definition payload_non_dict_item : json Q :=
  JDict [(lit "topHoldings", JList [JStr (lit "AAPL")])].

Definition payload_zero_weight : json Q :=
  JDict [(lit "topHoldings", JList [item_json "AAPL" "Apple" (JInt 0)])].

Definition payload_returns_non_dict : json Q :=
  JDict [(lit "performance", JList [JStr (lit "1y")])].

(** A profile page whose holdings table has one row. *)
Definition one_row_page : HoldingsPage :=
  fun selector =>
    if pystr_eqb selector (lit "table.etf-holdings tbody tr")
    then [[lit "1"; lit "Apple Inc."; lit "AAPL"; lit "7,51%"]]
    else [].

(** A world given by the outcome of the servlet request and of the
    holdings page request; every other request fails. *)
Definition servlet_world (api : result (json Q)) (page : result HoldingsPage)
  : World Q :=
  {| api_holdings := fun _ => api;
     api_returns := fun _ => api;
     page_holdings := fun _ => page;
     page_returns := fun _ => Raise RequestError;
     yf_history := fun _ => Raise RequestError;
     yf_download := fun _ => Raise RequestError |}.

(** A document with the three regions and the two annotations. *)
Definition sample_layout : layout :=
  [(TText, lit "<!-- ");
   (TCompiled, COMPILED_LABEL ++ lit "Jan 1, 2020");
   (TText, lit " -->" ++ NEWLINE);
   (THoldings, lit "const RAW_HOLDINGS = { old };");
   (TText, NEWLINE);
   (TEtfReturns, lit "const ETF_RETURNS = { old };");
   (TText, NEWLINE ++ lit "<p>");
   (TAsOf, lit "Data as of Jan 1, 2020.");
   (TText, lit "</p>" ++ NEWLINE);
   (TStockReturns, lit "const HOLDING_RETURNS = { old };");
   (TText, lit " // end")].

Definition sample_holdings : pydict (list (Holding Q)) :=
  [(lit "XUTC", [{| ticker := lit "AAPL"; name := lit "Apple Inc.";
                    weight := (751 # 100)%Q |}])].

Definition sample_stock_returns : pydict (pydict (option Q)) :=
  [(lit "AAPL", [(lit "1M", Some (15 # 10)%Q); (lit "1Y", None)])].

(** A holdings region with a dated comment inside. *)
Definition dated_region : pystr :=
  lit "const RAW_HOLDINGS = { /* Data as of Jan 1, 2020. */ };".

(** A holding whose name contains the closing marker of the blocks. *)
Definition closing_marker_holdings : pydict (list (Holding Q)) :=
  [(lit "XUTC", [{| ticker := lit "X"; name := lit "a};b"; weight := 1%Q |}])].

(** A holding whose name is a single backslash. *)
Definition backslash_holding : Holding Q :=
  {| ticker := lit "X"; name := [92%N]; weight := 1%Q |}.

(** The same two stock entries in two insertion orders. *)
Definition stock_ab : pydict (pydict (option Q)) :=
  [(lit "AAA", [(lit "1M", Some 1%Q)]); (lit "BBB", [(lit "1M", Some 2%Q)])].

Definition stock_ba : pydict (pydict (option Q)) :=
  [(lit "BBB", [(lit "1M", Some 2%Q)]); (lit "AAA", [(lit "1M", Some 1%Q)])].

(** The same two holdings lists in two insertion orders. *)
Definition holdings_xs : pydict (list (Holding Q)) :=
  [(lit "XUTC", [backslash_holding]); (lit "SP20", [])].

Definition holdings_sx : pydict (list (Holding Q)) :=
  [(lit "SP20", []); (lit "XUTC", [backslash_holding])].


(** A profile page on which the first selector finds only a header row
    and the second one finds the holdings table. *)
Definition second_selector_page : HoldingsPage :=
  fun selector =>
    if pystr_eqb selector (lit "table.etf-holdings tbody tr")
    then [[lit "Holdings"]]
    else if pystr_eqb selector (lit "div#etf-holdings table tbody tr")
    then [[lit "1"; lit "Apple Inc."; lit "AAPL"; lit "7,51%"]]
    else [].

(** A payload with one holding whose weight is given as text. *)
Definition payload_one_holding : list (pystr * json Q) :=
  [(lit "topHoldings", JList [item_json "AAPL" "Apple" (JStr (lit "7.51"))])].

(** A payload with a performance dict: one known label, one unknown. *)
Definition payload_performance : json Q :=
  JDict [(lit "performance",
          JDict [(lit "1y", JFloat (1 # 2)%Q); (lit "ytd", JInt 1)])].

(** A world in which only the price history of XUTC.L is available. *)
Definition history_world : World Q :=
  {| api_holdings := fun _ => Raise RequestError;
     api_returns := fun _ => Raise RequestError;
     page_holdings := fun _ => Raise RequestError;
     page_returns := fun _ => Raise RequestError;
     yf_history := fun t => if pystr_eqb t (lit "XUTC.L") then Ok example_series
                            else Raise RequestError;
     yf_download := fun _ => Raise RequestError |}.

(** The holding of [payload_one_holding]. *)
Definition apple_holding : Holding Q :=
  {| ticker := lit "AAPL"; name := lit "Apple"; weight := 7.51%Q |}.

(** A payload whose performance list has an item with a list as label. *)
Definition payload_list_label : json Q :=
  JDict [(lit "performance",
          JList [JDict [(lit "period", JList [JStr (lit "1y")]);
                        (lit "value", JFloat (1 # 20)%Q)]])].

(** A series whose first price is zero. *)
Definition zero_start_series : Series Q :=
  [(-400 * ns_per_day, 0%Q); (0, 200%Q)].
(* ================================================================== *)
(** * Properties *)
(* ================================================================== *)

Lemma pystr_eqb_eq a b : pystr_eqb a b = true <-> a = b.
Proof.
  unfold pystr_eqb. destruct (pystr_eq_dec a b); split; congruence.
Qed.

Lemma pystr_eqb_refl a : pystr_eqb a a = true.
Proof. now apply pystr_eqb_eq. Qed.

Lemma pystr_eqb_neq a b : pystr_eqb a b = false <-> a <> b.
Proof.
  unfold pystr_eqb. destruct (pystr_eq_dec a b); split; congruence.
Qed.

Lemma bind_ok {A B} (r : result A) (k : A -> result B) b :
  bind r k = Ok b <-> exists a, r = Ok a /\ k a = Ok b.
Proof.
  destruct r as [a|e]; simpl; split.
  - intros H. now exists a.
  - now intros (a' & [= ->] & H).
  - discriminate.
  - now intros (a' & [=] & _).
Qed.

Lemma try_except_any_total {A} (r h : result A) :
  ~ raises h -> ~ raises (try_except r any_exception h).
Proof.
  intros Hh [e He]. destruct r as [a|e']; simpl in He.
  - discriminate.
  - apply Hh. now exists e.
Qed.


(** ** Percent change *)

Lemma timedelta_ok (days : Z) :
  Z.abs days <= 999999999 -> timedelta days = Ok (days * 86400000000000).
Proof.
  intros Hd. unfold timedelta, ns_per_day.
  destruct (Z.abs days >? 999999999) eqn:E; [|reflexivity].
  apply Z.gtb_lt in E. lia.
Qed.

Lemma timedelta_overflow (days : Z) :
  999999999 < Z.abs days -> timedelta days = Raise OverflowError.
Proof.
  intros Hd. unfold timedelta.
  destruct (Z.abs days >? 999999999) eqn:E; [reflexivity|].
  rewrite Z.gtb_ltb in E. apply Z.ltb_ge in E. lia.
Qed.

Lemma timedelta_inv (days delta : Z) :
  timedelta days = Ok delta -> delta = days * 86400000000000.
Proof.
  unfold timedelta, ns_per_day. destruct (Z.abs days >? 999999999); [discriminate|].
  now intros [= <-].
Qed.

Lemma timestamp_sub_ok (ts delta : Z) :
  - 9223372036854775807 <= delta <= 9223372036854775807 ->
  - 9223372036854775807 <= ts - delta <= 9223372036854775807 ->
  timestamp_sub ts delta = Ok (ts - delta).
Proof.
  intros Hd Hc. unfold timestamp_sub, in_bounds.
  assert (Hb : forall x,
             - 9223372036854775807 <= x <= 9223372036854775807 ->
             ((- TIMESTAMP_MAX <=? x) && (x <=? TIMESTAMP_MAX))%bool = true).
  { intros x Hx. apply andb_true_intro.
    split; apply Z.leb_le; unfold TIMESTAMP_MAX; lia. }
  rewrite (Hb delta Hd), (Hb _ Hc). reflexivity.
Qed.

Lemma timestamp_sub_inv (ts delta c : Z) :
  timestamp_sub ts delta = Ok c -> c = ts - delta.
Proof.
  unfold timestamp_sub. destruct (in_bounds delta && in_bounds (ts - delta));
    [now intros [= <-]|discriminate].
Qed.

Section PctChangeFacts.
Context {F : Type} `{PyFloat F}.

Lemma last_in_cons (o : Z * F) rest : In (last rest o) (o :: rest).
Proof.
  induction rest as [|x rest IH]; simpl; [now left|].
  destruct rest as [|y rest']; [right; now left|].
  destruct IH as [IH|IH]; [now left|right; now right].
Qed.

Lemma last_obs_in (series : Series F) e :
  last_obs series = Some e -> In e series.
Proof.
  destruct series as [|o rest]; simpl; [discriminate|].
  intros [= <-]. apply last_in_cons.
Qed.

Lemma last_obs_nonempty (series : Series F) :
  series <> [] -> exists e, last_obs series = Some e.
Proof.
  destruct series as [|o rest]; [congruence|]. intros _. simpl. eauto.
Qed.

Lemma last_obs_snoc (pre : Series F) (e : Z * F) : last_obs (pre ++ [e]) = Some e.
Proof.
  destruct pre as [|o pre]; [reflexivity|]. cbn [app last_obs].
  now rewrite last_last.
Qed.

Lemma last_obs_split (series : Series F) (e : Z * F) :
  last_obs series = Some e -> exists pre, series = pre ++ [e].
Proof.
  destruct series as [|o rest]; [discriminate|]. cbn [last_obs]. intros [= <-].
  destruct (exists_last (l := o :: rest) ltac:(discriminate)) as (pre & x & Hx).
  exists pre. rewrite Hx. f_equal. f_equal.
  pose proof (last_obs_snoc pre x) as Hl. rewrite <- Hx in Hl.
  cbn [last_obs] in Hl. now injection Hl.
Qed.

Lemma window_head_find (series : Series F) c :
  hd_error (window series c) = find (fun o => c <=? fst o) series.
Proof.
  induction series as [|o rest IH]; simpl; [reflexivity|].
  destruct (c <=? fst o); simpl; [reflexivity|exact IH].
Qed.

Lemma window_empty_iff (series : Series F) c :
  window series c = [] <-> forall o, In o series -> fst o < c.
Proof.
  unfold window. induction series as [|o rest IH]; simpl.
  - split; [intros _ o []|reflexivity].
  - destruct (c <=? fst o) eqn:E.
    + split; [discriminate|]. intros Hall.
      specialize (Hall o (or_introl eq_refl)). apply Z.leb_le in E. lia.
    + rewrite IH. apply Z.leb_gt in E. split.
      * intros Hall x [<-|Hx]; [exact E|now apply Hall].
      * intros Hall x Hx. apply Hall. now right.
Qed.

(** The first observation of the window is the first one of the series
    that is dated on or after the cutoff. *)
Lemma window_first (before after : Series F) (o : Z * F) c :
  (forall x, In x before -> fst x < c) -> c <= fst o ->
  window (before ++ o :: after) c = o :: window after c.
Proof.
  intros Hb Ho. unfold window. rewrite filter_app.
  replace (filter (fun o => c <=? fst o) before) with (@nil (Z * F)).
  - cbn [app filter]. now rewrite (proj2 (Z.leb_le _ _) Ho).
  - symmetry. apply (proj2 (window_empty_iff before c)). exact Hb.
Qed.

Lemma window_split (series : Series F) c o w :
  window series c = o :: w ->
  exists before after,
    series = before ++ o :: after
    /\ (forall x, In x before -> fst x < c) /\ c <= fst o.
Proof.
  unfold window. induction series as [|x rest IH]; cbn [filter]; [discriminate|].
  destruct (c <=? fst x) eqn:E.
  - intros [= -> _]. exists [], rest. repeat split.
    + intros y [].
    + now apply Z.leb_le.
  - intros Hw. destruct (IH Hw) as (before & after & -> & Hb & Ho).
    exists (x :: before), after. repeat split; [|exact Ho].
    intros y [<-|Hy]; [now apply Z.leb_gt|now apply Hb].
Qed.

Lemma first_ascending_least (before after : Series F) (o : Z * F) c :
  ascending (before ++ o :: after) ->
  (forall x, In x before -> fst x < c) ->
  forall o', In o' (before ++ o :: after) -> c <= fst o' -> fst o <= fst o'.
Proof.
  unfold ascending. induction before as [|x before IH]; cbn [app]; intros Hs Hb o' Hin Hc.
  - inversion Hs as [|? ? _ Hall]; subst. destruct Hin as [<-|Hin]; [lia|].
    rewrite Forall_forall in Hall. now apply Hall.
  - inversion Hs as [|? ? Hs' _]; subst. destruct Hin as [<-|Hin].
    + specialize (Hb x (or_introl eq_refl)). lia.
    + apply IH; [exact Hs'| |exact Hin|exact Hc].
      intros y Hy. apply Hb. now right.
Qed.

(** The value of pct_change once line 93 has given the cutoff. *)
Lemma pct_change_in_bounds (pre : Series F) d e days :
  Z.abs days <= 999999999 ->
  - 9223372036854775807 <= days * 86400000000000 <= 9223372036854775807 ->
  - 9223372036854775807 <= d - days * 86400000000000 <= 9223372036854775807 ->
  pct_change (pre ++ [(d, e)]) days
  = Ok (match window (pre ++ [(d, e)]) (d - days * 86400000000000) with
        | [] => None
        | (_, start_price) :: _ =>
            if f_eqb start_price (f_lit 0) then None
            else Some (f_round 1
                         (f_mul (f_sub (f_div e start_price) (f_lit 1))
                                (f_lit 100)))
        end).
Proof.
  intros Hd Hdelta Hc. unfold pct_change.
  rewrite last_obs_snoc, (timedelta_ok days Hd). cbn [bind].
  rewrite (timestamp_sub_ok d _ Hdelta Hc). cbn [bind].
  destruct (window (pre ++ [(d, e)]) (d - days * 86400000000000)) as [|[d0 s] w];
    [reflexivity|].
  now destruct (f_eqb s (f_lit 0)).
Qed.

(** C1, amended. On an empty series pct_change returns None.  On a series
    whose last observation has date d and value e, with the cutoff
    c = d - days * 86400000000000 nanoseconds: a window of more than
    999999999 days raises OverflowError, and a window whose length is no
    64-bit count of nanoseconds raises; for a window of at most
    999999999 days whose length and cutoff are 64-bit counts of
    nanoseconds, pct_change returns None when no observation is dated on
    or after c, and otherwise, with o the first observation of the series
    dated on or after c, None when the value of o is zero and
    round((e / start - 1) * 100, 1) with start the value of o when it is
    not; so None is returned exactly in the first and the third case.
    For ascending dates o is the earliest observation on or after c. *)
Theorem pct_change_spec (series : Series F) (days : Z) :
  (series = [] -> pct_change series days = Ok None)
  /\ (forall pre d e,
        series = pre ++ [(d, e)] ->
        (999999999 < Z.abs days -> pct_change series days = Raise OverflowError)
        /\ (9223372036854775807 < Z.abs (days * 86400000000000) ->
            raises (pct_change series days))
        /\ (Z.abs days <= 999999999 ->
            - 9223372036854775807 <= days * 86400000000000 <= 9223372036854775807 ->
            - 9223372036854775807 <= d - days * 86400000000000
                                  <= 9223372036854775807 ->
            ((forall x, In x series -> fst x < d - days * 86400000000000) ->
             pct_change series days = Ok None)
            /\ (forall before o after,
                  series = before ++ o :: after ->
                  (forall x, In x before -> fst x < d - days * 86400000000000) ->
                  d - days * 86400000000000 <= fst o ->
                  pct_change series days
                  = Ok (if f_eqb (snd o) (f_lit 0) then None
                        else Some (f_round 1
                                     (f_mul (f_sub (f_div e (snd o)) (f_lit 1))
                                            (f_lit 100))))
                  /\ (ascending series ->
                      forall o', In o' series ->
                                 d - days * 86400000000000 <= fst o' ->
                                 fst o <= fst o'))
            /\ (pct_change series days = Ok None <->
                (forall x, In x series -> fst x < d - days * 86400000000000)
                \/ exists before o after,
                     series = before ++ o :: after
                     /\ (forall x, In x before -> fst x < d - days * 86400000000000)
                     /\ d - days * 86400000000000 <= fst o
                     /\ f_eqb (snd o) (f_lit 0) = true))).
Proof.
  split; [intros ->; reflexivity|].
  intros pre d e ->. split; [|split].
  - intros Hbig. unfold pct_change.
    now rewrite last_obs_snoc, (timedelta_overflow days Hbig).
  - intros Hbig. unfold pct_change. rewrite last_obs_snoc.
    destruct (timedelta days) as [delta|ex] eqn:Hdelta; [|now exists ex].
    apply timedelta_inv in Hdelta. subst delta. cbn [bind].
    unfold timestamp_sub.
    destruct (in_bounds (days * 86400000000000)) eqn:E;
      [exfalso|now exists ValueError].
    unfold in_bounds, TIMESTAMP_MAX in E. apply andb_prop in E as [E1 E2].
    apply Z.leb_le in E1, E2. lia.
  - intros Hd Hdelta Hc. rewrite (pct_change_in_bounds pre d e days Hd Hdelta Hc).
    set (c := d - days * 86400000000000) in *.
    assert (Hfirst : forall before o after,
               pre ++ [(d, e)] = before ++ o :: after ->
               (forall x, In x before -> fst x < c) -> c <= fst o ->
               window (pre ++ [(d, e)]) c = o :: window after c).
    { intros before o after -> Hb Ho. now apply window_first. }
    split; [|split].
    + intros Hall. now rewrite (proj2 (window_empty_iff _ c) Hall).
    + intros before o after Hs Hb Ho. split.
      * rewrite (Hfirst before o after Hs Hb Ho). now destruct o.
      * intros Hasc o' Hin Hc'. rewrite Hs in Hasc, Hin.
        now apply (first_ascending_least before after o c Hasc Hb).
    + split.
      * destruct (window (pre ++ [(d, e)]) c) as [|[d0 s] w] eqn:Hw.
        -- intros _. left. now apply window_empty_iff.
        -- destruct (f_eqb s (f_lit 0)) eqn:Hz; [|discriminate].
           intros _. right.
           destruct (window_split _ c _ _ Hw) as (before & after & Hs & Hb & Ho).
           exists before, (d0, s), after. repeat split; assumption.
      * intros [Hall|(before & o & after & Hs & Hb & Ho & Hz)].
        -- now rewrite (proj2 (window_empty_iff _ c) Hall).
        -- rewrite (Hfirst before o after Hs Hb Ho). destruct o as [d0 s].
           cbn [snd] in Hz. now rewrite Hz.
Qed.

(** C10, amended. For a series with ascending dates whose last
    observation has date d and value e, and a window of 0 to 999999999
    days whose length and cutoff c = d - days * 86400000000000 are 64-bit
    counts of nanoseconds, the last observation passes the filter of the
    window, so the series has a first observation o dated on or after c,
    o is the earliest such observation, and pct_change returns None
    exactly when the value of o is zero, and round((e / start - 1) * 100,
    1) with start the value of o otherwise. *)
Theorem pct_change_window_has_last (series pre : Series F) (d : Z) (e : F)
    (days : Z) :
  series = pre ++ [(d, e)] -> ascending series ->
  0 <= days <= 999999999 ->
  days * 86400000000000 <= 9223372036854775807 ->
  - 9223372036854775807 <= d - days * 86400000000000 ->
  d <= 9223372036854775807 ->
  In (d, e) (filter (fun x => d - days * 86400000000000 <=? fst x) series)
  /\ exists before o after,
       series = before ++ o :: after
       /\ (forall x, In x before -> fst x < d - days * 86400000000000)
       /\ d - days * 86400000000000 <= fst o
       /\ (forall o', In o' series -> d - days * 86400000000000 <= fst o' ->
                      fst o <= fst o')
       /\ (pct_change series days = Ok None <-> f_eqb (snd o) (f_lit 0) = true)
       /\ (f_eqb (snd o) (f_lit 0) = false ->
           pct_change series days
           = Ok (Some (f_round 1
                         (f_mul (f_sub (f_div e (snd o)) (f_lit 1))
                                (f_lit 100))))).
Proof.
  intros -> Hasc Hdays Hdelta Hlow Hhigh.
  set (c := d - days * 86400000000000) in *.
  assert (Hlast : In (d, e) (window (pre ++ [(d, e)]) c)).
  { apply filter_In. split; [apply in_or_app; right; now left|].
    apply Z.leb_le. cbn [fst]. unfold c. lia. }
  split; [exact Hlast|].
  destruct (window (pre ++ [(d, e)]) c) as [|[d0 s] w] eqn:Hw; [destruct Hlast|].
  destruct (window_split _ c _ _ Hw) as (before & after & Hs & Hb & Ho).
  exists before, (d0, s), after.
  assert (Hval : pct_change (pre ++ [(d, e)]) days
                 = Ok (if f_eqb s (f_lit 0) then None
                       else Some (f_round 1
                                    (f_mul (f_sub (f_div e s) (f_lit 1))
                                           (f_lit 100))))).
  { rewrite (pct_change_in_bounds pre d e days); [|lia|lia|unfold c in *; lia].
    fold c. rewrite Hw. now destruct (f_eqb s (f_lit 0)). }
  repeat split; try assumption.
  - intros o' Hin Hc'. rewrite Hs in Hasc, Hin.
    now apply (first_ascending_least before after (d0, s) c Hasc Hb).
  - rewrite Hval. cbn [snd]. destruct (f_eqb s (f_lit 0)); [reflexivity|discriminate].
  - rewrite Hval. cbn [snd]. intros ->. reflexivity.
  - rewrite Hval. cbn [snd]. intros ->. reflexivity.
Qed.

End PctChangeFacts.

Example pct_change_1y : pct_change example_series 365 = Ok (Some (333 # 10)%Q).
Proof. vm_compute. reflexivity. Qed.

Example pct_change_5y : pct_change example_series 1825 = Ok (Some (100 # 1)%Q).
Proof. vm_compute. reflexivity. Qed.

Lemma example_series_ascending : ascending example_series.
Proof.
  unfold ascending, example_series.
  repeat (constructor; simpl; try (unfold ns_per_day; lia)).
Qed.

(** The claim of C1 fails for a window of 1000000000 days: the series is
    not empty, its first observation is dated on or after the cutoff and
    its price is not zero, so the claim asks for round((200 / 100 - 1) *
    100, 1); but [timedelta] raises and nothing is returned. *)
Lemma huge_window_raises :
  example_series <> []
  /\ 0 - 1000000000 * 86400000000000 <= fst (-400 * ns_per_day, 100%Q)
  /\ hd_error example_series = Some (-400 * ns_per_day, 100%Q)
  /\ f_eqb 100%Q (f_lit 0) = false
  /\ pct_change example_series 1000000000 = Raise OverflowError.
Proof.
  split; [discriminate|].
  split; [cbn [fst]; unfold ns_per_day; lia|].
  split; [reflexivity|].
  split; vm_compute; reflexivity.
Qed.

(** The claim of C10 fails for a window of 200000 days: the series is
    not empty, its dates ascend, the window is not negative and the price
    of the first observation on or after the cutoff is zero, so the claim
    asks for None; but the cutoff is out of the bounds of a Timestamp,
    the subtraction raises and nothing is returned. *)
Lemma long_window_out_of_bounds :
  zero_start_series <> [] /\ ascending zero_start_series /\ 0 <= 200000
  /\ 0 - 200000 * 86400000000000 <= fst (-400 * ns_per_day, 0%Q)
  /\ hd_error zero_start_series = Some (-400 * ns_per_day, 0%Q)
  /\ f_eqb 0%Q (f_lit 0) = true
  /\ raises (pct_change zero_start_series 200000)
  /\ pct_change zero_start_series 200000 <> Ok None.
Proof.
  split; [discriminate|].
  split.
  { unfold ascending, zero_start_series.
    repeat (constructor; simpl; try (unfold ns_per_day; lia)). }
  split; [lia|].
  split; [cbn [fst]; unfold ns_per_day; lia|].
  split; [reflexivity|].
  split; [vm_compute; reflexivity|].
  split; [exists ValueError; vm_compute; reflexivity|].
  vm_compute. discriminate.
Qed.

Lemma pct_change_spec_witness :
  pct_change example_series 365 = Ok (Some (333 # 10)%Q)
  /\ (ascending example_series ->
      forall o', In o' example_series -> 0 - 365 * 86400000000000 <= fst o' ->
                 fst (-200 * ns_per_day, 150%Q) <= fst o').
Proof.
  destruct (proj2 (pct_change_spec example_series 365)
              [(-400 * ns_per_day, 100%Q); (-200 * ns_per_day, 150%Q)]
              0 200%Q eq_refl) as (_ & _ & Hin).
  destruct (Hin ltac:(lia) ltac:(lia) ltac:(lia)) as (_ & Hfirst & _).
  destruct (Hfirst [(-400 * ns_per_day, 100%Q)] (-200 * ns_per_day, 150%Q)
              [(0, 200%Q)] eq_refl) as [Hval Hleast].
  - intros x [<-|[]]. cbn [fst]. unfold ns_per_day. lia.
  - cbn [fst]. unfold ns_per_day. lia.
  - split; [|exact Hleast]. rewrite Hval. vm_compute. reflexivity.
Defined.

Lemma pct_change_window_has_last_witness :
  In (0, 200%Q) (filter (fun x => 0 - 365 * 86400000000000 <=? fst x) example_series)
  /\ exists before o after,
       example_series = before ++ o :: after
       /\ (forall x, In x before -> fst x < 0 - 365 * 86400000000000)
       /\ 0 - 365 * 86400000000000 <= fst o
       /\ (forall o', In o' example_series -> 0 - 365 * 86400000000000 <= fst o' ->
                      fst o <= fst o')
       /\ (pct_change example_series 365 = Ok None
           <-> f_eqb (snd o) (f_lit 0) = true)
       /\ (f_eqb (snd o) (f_lit 0) = false ->
           pct_change example_series 365
           = Ok (Some (f_round 1
                         (f_mul (f_sub (f_div 200%Q (snd o)) (f_lit 1))
                                (f_lit 100))))).
Proof.
  apply (pct_change_window_has_last example_series
           [(-400 * ns_per_day, 100%Q); (-200 * ns_per_day, 150%Q)] 0 200%Q 365).
  - reflexivity.
  - exact example_series_ascending.
  - lia.
  - lia.
  - lia.
  - lia.
Defined.

(** ** Dictionaries *)

Section DictFacts.
Context {V : Type}.

Lemma dict_get_in (d : pydict V) k v :
  dict_get d k = Some v -> In (k, v) d.
Proof.
  induction d as [|[k' v'] d IH]; simpl; [discriminate|].
  destruct (pystr_eqb k' k) eqn:E.
  - apply pystr_eqb_eq in E. intros [= ->]. left. now subst.
  - intros Hg. right. now apply IH.
Qed.

Lemma dict_get_none (d : pydict V) k :
  dict_get d k = None <-> ~ In k (dict_keys d).
Proof.
  induction d as [|[k' v'] d IH]; simpl.
  - split; [intros _ []|reflexivity].
  - destruct (pystr_eqb k' k) eqn:E.
    + apply pystr_eqb_eq in E. split; [discriminate|]. intros Hn.
      contradiction Hn. now left.
    + apply pystr_eqb_neq in E. rewrite IH. split.
      * intros Hn [Hk|Hk]; [now apply E|now apply Hn].
      * intros Hn Hk. apply Hn. now right.
Qed.

Lemma dict_get_some_key (d : pydict V) k v :
  dict_get d k = Some v -> In k (dict_keys d).
Proof.
  intros Hg. apply dict_get_in in Hg. unfold dict_keys.
  change k with (fst (k, v)). now apply in_map.
Qed.

Lemma dict_get_set_same (d : pydict V) k v :
  dict_get (dict_set d k v) k = Some v.
Proof.
  induction d as [|[k' v'] d IH]; simpl.
  - now rewrite pystr_eqb_refl.
  - destruct (pystr_eqb k' k) eqn:E; simpl; rewrite E; [reflexivity|exact IH].
Qed.

Lemma dict_get_set_other (d : pydict V) k k' v :
  k <> k' -> dict_get (dict_set d k v) k' = dict_get d k'.
Proof.
  intros Hne. induction d as [|[k0 v0] d IH]; simpl.
  - apply pystr_eqb_neq in Hne. now rewrite Hne.
  - destruct (pystr_eqb k0 k) eqn:E; simpl.
    + apply pystr_eqb_eq in E. subst k0.
      apply pystr_eqb_neq in Hne. now rewrite Hne.
    + destruct (pystr_eqb k0 k'); [reflexivity|exact IH].
Qed.

Lemma dict_keys_set (d : pydict V) k v :
  dict_keys (dict_set d k v)
  = if dict_mem d k then dict_keys d else dict_keys d ++ [k].
Proof.
  unfold dict_mem. induction d as [|[k' v'] d IH]; simpl; [reflexivity|].
  destruct (pystr_eqb k' k) eqn:E; simpl; [reflexivity|].
  rewrite IH. now destruct (dict_get d k).
Qed.

End DictFacts.

Section DictMoreFacts.
Context {V : Type}.


Lemma dict_set_keys_nodup (d : pydict V) k v :
  NoDup (dict_keys d) -> NoDup (dict_keys (dict_set d k v)).
Proof.
  intros Hnd. rewrite dict_keys_set. unfold dict_mem.
  destruct (dict_get d k) eqn:Hg; [exact Hnd|].
  apply dict_get_none in Hg.
  apply NoDup_app; [exact Hnd|repeat constructor; intros []|].
  intros x Hx [<-|[]]. contradiction.
Qed.

(** A loop [for t in ts: d[t] = g(f(t))], as the stock fetcher runs it
    over [zip(tickers, yf_tickers)]. *)
Lemma fold_dict_set_get (f : pystr -> pystr) (g : pystr -> V) ts :
  forall acc t,
    dict_get (fold_left (fun results '(ticker, yf_ticker) =>
                           dict_set results ticker (g yf_ticker))
                        (combine ts (map f ts)) acc) t
    = if in_dec pystr_eq_dec t ts then Some (g (f t)) else dict_get acc t.
Proof.
  induction ts as [|a ts IH]; intros acc t; cbn [map combine fold_left].
  - now destruct (in_dec pystr_eq_dec t []).
  - rewrite IH.
    destruct (in_dec pystr_eq_dec t ts) as [Hin|Hnin];
      destruct (in_dec pystr_eq_dec t (a :: ts)) as [Hin'|Hnin'].
    + reflexivity.
    + contradiction Hnin'. now right.
    + destruct Hin' as [->|Hin']; [|contradiction]. apply dict_get_set_same.
    + apply dict_get_set_other. intros ->. apply Hnin'. now left.
Qed.


End DictMoreFacts.

Lemma existsb_pystr_eqb (x : pystr) (l : list pystr) :
  existsb (pystr_eqb x) l = true <-> In x l.
Proof.
  rewrite existsb_exists. split.
  - intros (y & Hin & Heq). apply pystr_eqb_eq in Heq. now subst.
  - intros Hin. exists x. split; [exact Hin|apply pystr_eqb_refl].
Qed.

Lemma distinct_nodup (l : list pystr) : distinct l = true -> NoDup l.
Proof.
  induction l as [|x l IH]; cbn [distinct]; intros Hd; constructor.
  - apply andb_true_iff in Hd as [Hx _]. apply negb_true_iff in Hx.
    intros Hin. apply existsb_pystr_eqb in Hin. congruence.
  - apply IH. now apply andb_true_iff in Hd as [_ Hd].
Qed.

Section DictKeyFacts.
Context {V : Type}.

Lemma fold_dict_set_keys (f : pystr -> pystr) (g : pystr -> V) ts :
  forall acc,
    NoDup ts -> (forall t, In t ts -> ~ In t (dict_keys acc)) ->
    dict_keys (fold_left (fun results '(ticker, yf_ticker) =>
                            dict_set results ticker (g yf_ticker))
                         (combine ts (map f ts)) acc)
    = dict_keys acc ++ ts.
Proof.
  induction ts as [|a ts IH]; intros acc Hnd Hfresh; cbn [map combine fold_left].
  - now rewrite app_nil_r.
  - apply NoDup_cons_iff in Hnd as [Ha Hnd].
    assert (Hk : dict_keys (dict_set acc a (g (f a))) = dict_keys acc ++ [a]).
    { rewrite dict_keys_set. unfold dict_mem.
      destruct (dict_get acc a) eqn:Hg; [|reflexivity].
      apply dict_get_some_key in Hg. contradiction (Hfresh a (or_introl eq_refl)). }
    rewrite IH; [|exact Hnd|].
    + now rewrite Hk, <- app_assoc.
    + intros t Hin. rewrite Hk. intros Hin'. apply in_app_or in Hin' as [Hin'|[<-|[]]].
      * apply (Hfresh t); [now right|exact Hin'].
      * contradiction.
Qed.

Lemma filter_other_keys (k : pystr) (l : list pystr) :
  ~ In k l -> filter (fun t => negb (pystr_eqb t k)) l = l.
Proof.
  induction l as [|x l IH]; intros Hn; [reflexivity|]. cbn [filter].
  destruct (pystr_eqb x k) eqn:E.
  - apply pystr_eqb_eq in E. subst. contradiction Hn. now left.
  - cbn [negb]. rewrite IH; [reflexivity|]. intros Hin. apply Hn. now right.
Qed.

Lemma dict_keys_pop (d : pydict V) (k : pystr) :
  NoDup (dict_keys d) ->
  dict_keys (dict_pop d k) = filter (fun t => negb (pystr_eqb t k)) (dict_keys d).
Proof.
  induction d as [|[k' v'] d IH]; intros Hnd; [reflexivity|].
  cbn [dict_keys map fst] in Hnd. apply NoDup_cons_iff in Hnd as [Hfresh Hnd].
  cbn [dict_pop dict_keys map fst filter].
  destruct (pystr_eqb k' k) eqn:E; cbn [negb].
  - apply pystr_eqb_eq in E. subst k'.
    symmetry. now apply filter_other_keys.
  - cbn [dict_keys map fst]. f_equal. now apply IH.
Qed.

End DictKeyFacts.

(** ** Label normalisation *)

Example label_api_lower : dict_get LABEL_MAP_API (lit "1y") = Some (lit "1Y").
Proof. reflexivity. Qed.

Example label_api_upper : dict_get LABEL_MAP_API (lit "1Y") = Some (lit "1Y").
Proof. reflexivity. Qed.

Example label_api_unknown : dict_get LABEL_MAP_API (lit "1 year") = None.
Proof. reflexivity. Qed.

Example label_html_words U :
  dict_get LABEL_MAP_HTML (lower U (lit "1 Year")) = Some (lit "1Y").
Proof. reflexivity. Qed.

Example label_html_unknown U :
  dict_get LABEL_MAP_HTML (lower U (lit "YTD")) = None.
Proof. reflexivity. Qed.

Lemma label_api_values k p : In (k, p) LABEL_MAP_API -> In p PERIODS.
Proof.
  unfold LABEL_MAP_API. simpl.
  intros Hin. repeat (destruct Hin as [[= <- <-]|Hin]; [simpl; tauto|]).
  destruct Hin.
Qed.

Lemma label_html_values k p : In (k, p) LABEL_MAP_HTML -> In p PERIODS.
Proof.
  unfold LABEL_MAP_HTML. simpl.
  intros Hin. repeat (destruct Hin as [[= <- <-]|Hin]; [simpl; tauto|]).
  destruct Hin.
Qed.

Lemma period_nonempty p : In p PERIODS -> nonempty p = true.
Proof.
  unfold PERIODS. cbn [In].
  intros Hin. repeat (destruct Hin as [<-|Hin]; [reflexivity|]). destruct Hin.
Qed.

(** The servlet payload with a list as label makes the returns fetcher
    raise. *)
Example list_label_raises :
  fetch_etf_returns_api ascii_only
    (servlet_world (Ok payload_list_label) (Ok one_row_page))
    (lit "XUTC") (lit "IE00BGQYRS42")
  = Raise TypeError.
Proof. vm_compute. reflexivity. Qed.

Section LabelFacts.
Context {F : Type} `{PyFloat F}.
Variable U : Unicode.

(** C8. The table of fetch_etf_returns_api knows exactly the twelve
    spellings 1m, 1M, ..., 5y, 5Y; the table of fetch_etf_returns_html,
    which is asked with the lower-cased header, knows exactly 1 month,
    1m, ..., 5 years, 5y; each spelling maps to its period among the six,
    and any other string has no mapping.  A header is recognised through
    its lower-case form and then gives the value of its cell; an entry
    with a string label without mapping, or in the list loop with a
    number or a truth value as label, is left out without raising, in
    the dict loop, the list loop and the header loop.  But in the list
    loop a label that is a list or a dict is looked up outside any
    [try]: the loop raises TypeError. *)
Theorem label_tables_and_unhashable_labels :
  (map (dict_get LABEL_MAP_API)
       [lit "1m"; lit "1M"; lit "3m"; lit "3M"; lit "6m"; lit "6M";
        lit "1y"; lit "1Y"; lit "3y"; lit "3Y"; lit "5y"; lit "5Y"]
   = map Some
       [lit "1M"; lit "1M"; lit "3M"; lit "3M"; lit "6M"; lit "6M";
        lit "1Y"; lit "1Y"; lit "3Y"; lit "3Y"; lit "5Y"; lit "5Y"])
  /\ (forall label,
        ~ In label [lit "1m"; lit "1M"; lit "3m"; lit "3M"; lit "6m"; lit "6M";
                    lit "1y"; lit "1Y"; lit "3y"; lit "3Y"; lit "5y"; lit "5Y"] ->
        dict_get LABEL_MAP_API label = None)
  /\ (map (dict_get LABEL_MAP_HTML)
          [lit "1 month"; lit "1m"; lit "3 months"; lit "3m";
           lit "6 months"; lit "6m"; lit "1 year"; lit "1y";
           lit "3 years"; lit "3y"; lit "5 years"; lit "5y"]
      = map Some
          [lit "1M"; lit "1M"; lit "3M"; lit "3M"; lit "6M"; lit "6M";
           lit "1Y"; lit "1Y"; lit "3Y"; lit "3Y"; lit "5Y"; lit "5Y"])
  /\ (forall label,
        ~ In label [lit "1 month"; lit "1m"; lit "3 months"; lit "3m";
                    lit "6 months"; lit "6m"; lit "1 year"; lit "1y";
                    lit "3 years"; lit "3y"; lit "5 years"; lit "5y"] ->
        dict_get LABEL_MAP_HTML label = None)
  /\ (forall header p cell x (returns : pydict F),
        dict_get LABEL_MAP_HTML (lower U header) = Some p ->
        f_parse (strip U (replace (lit ",") (lit ".") (replace (lit "%") [] cell)))
        = Some x ->
        html_table_returns U ([header], [[cell]]) returns
        = dict_set returns p (f_round 1 x))
  /\ (forall header rows (returns : pydict F),
        dict_get LABEL_MAP_HTML (lower U header) = None ->
        html_table_returns U ([header], rows) returns = returns)
  /\ (forall label (v : json F) rest returns,
        dict_get LABEL_MAP_API label = None ->
        perf_dict_items ((label, v) :: rest) returns
        = perf_dict_items rest returns)
  /\ (forall (d : list (pystr * json F)) (lbl : json F) rest returns,
        get_first (JDict d) [lit "period"; lit "label"] (JStr []) = Ok lbl ->
        match lbl with
        | JList _ | JDict _ =>
            perf_list_items (JDict d :: rest) returns = Raise TypeError
        | JStr s =>
            dict_get LABEL_MAP_API s = None ->
            perf_list_items (JDict d :: rest) returns
            = perf_list_items rest returns
        | _ =>
            perf_list_items (JDict d :: rest) returns
            = perf_list_items rest returns
        end).
Proof.
  split; [reflexivity|]. split.
  { intros label Hn. apply dict_get_none. exact Hn. }
  split; [reflexivity|]. split.
  { intros label Hn. apply dict_get_none. exact Hn. }
  split.
  { intros header p cell x returns Hg Hx. unfold html_table_returns.
    cbn [fst snd map fold_left html_row_returns]. rewrite Hg.
    assert (Hp : nonempty p = true).
    { apply period_nonempty. apply dict_get_in in Hg.
      now apply (label_html_values (lower U header)). }
    rewrite Hp. cbn [List.length Nat.ltb Nat.leb andb nth]. now rewrite Hx. }
  split.
  { intros header rows returns Hg. unfold html_table_returns.
    cbn [fst snd map].
    assert (Hrow : forall cells (r : pydict F),
               html_row_returns U [lower U header] 0 cells r = r).
    { intros cells r. cbn [html_row_returns]. now rewrite Hg. }
    induction rows as [|cells rows IH]; [reflexivity|].
    cbn [fold_left]. destruct cells as [|c cells]; [exact IH|].
    rewrite Hrow. exact IH. }
  split.
  { intros label v rest returns Hnone. cbn [perf_dict_items]. now rewrite Hnone. }
  intros d lbl rest returns Hget. cbn [perf_list_items]. rewrite Hget.
  cbn [bind]. destruct lbl as [| | | |s| |]; cbn [label_lookup bind]; try reflexivity.
  intros Hnone. now rewrite Hnone.
Qed.

End LabelFacts.

Lemma label_tables_and_unhashable_labels_witness :
  dict_get LABEL_MAP_API (lit "1 year") = None
  /\ perf_list_items
       [JDict [(lit "period", JList [JStr (lit "1y")]);
               (lit "value", JFloat (1 # 20)%Q)]]
       (@nil (pystr * Q))
     = Raise TypeError.
Proof.
  pose proof (@label_tables_and_unhashable_labels Q _ ascii_only)
    as (_ & Hapi & _ & _ & _ & _ & _ & Hlist).
  split.
  - apply Hapi. cbn [In]. intros Hin.
    repeat (destruct Hin as [Hin|Hin]; [discriminate Hin|]). destruct Hin.
  - exact (Hlist [(lit "period", JList [JStr (lit "1y")]);
                  (lit "value", JFloat (1 # 20)%Q)]
                 (JList [JStr (lit "1y")]) [] [] eq_refl).
Defined.

(** ** Stock returns *)

Section StockFacts.
Context {F : Type} `{PyFloat F}.


End StockFacts.

Example stock_returns_offline :
  fetch_stock_returns offline_world [lit "AAA"; lit "BBB"]
  = [(lit "AAA", [(lit "1M", Some 0%Q); (lit "3M", Some 0%Q); (lit "6M", Some 0%Q);
                  (lit "1Y", Some (333 # 10)%Q); (lit "3Y", Some (100 # 1)%Q);
                  (lit "5Y", Some (100 # 1)%Q)]);
     (lit "BBB", map (fun p => (p, None)) PERIODS)].
Proof. vm_compute. reflexivity. Qed.


(** ** The fetch chains *)

Example scrape_one_row :
  fetch_holdings_html ascii_only (servlet_world (Raise RequestError) (Ok one_row_page))
                      (lit "IE00BGQYRS42") 15
  = Some [{| ticker := lit "AAPL"; name := lit "Apple Inc."; weight := (751 # 100)%Q |}].
Proof. vm_compute. reflexivity. Qed.

(** C2. fetch_holdings_api raises ValueError on a weight that is not a
    number and AttributeError on an item that is not a dict,
    fetch_etf_returns_api raises AttributeError on a list item that is
    not a dict, and the loop of main passes the exception on. *)
Theorem fetchers_raise_on_malformed_items :
  fetch_holdings_api ascii_only (servlet_world (Ok payload_bad_weight) (Ok one_row_page))
                     (lit "IE00BGQYRS42") 15
  = Raise ValueError
  /\ fetch_holdings_api ascii_only
                        (servlet_world (Ok payload_non_dict_item) (Ok one_row_page))
                        (lit "IE00BGQYRS42") 15
     = Raise AttributeError
  /\ fetch_etf_returns_api ascii_only
                           (servlet_world (Ok payload_returns_non_dict) (Ok one_row_page))
                           (lit "XUTC") (lit "IE00BGQYRS42")
     = Raise AttributeError
  /\ main_etf_loop ascii_only (servlet_world (Ok payload_bad_weight) (Ok one_row_page))
                   ETF_ISINS [] []
     = Raise ValueError.
Proof. vm_compute. repeat split. Qed.

(** The claim of C3 fails when the servlet request raises: the page
    scrape would yield a holding, yet the result is missing. *)
Lemma api_exception_skips_scrape :
  let W := servlet_world (Raise RequestError) (Ok one_row_page) in
  fetch_holdings_html ascii_only W (lit "IE00BGQYRS42") 15 <> None
  /\ fetch_holdings_api ascii_only W (lit "IE00BGQYRS42") 15 = Ok None.
Proof. vm_compute. split; [discriminate|reflexivity]. Qed.

Section FetchFacts.
Context {F : Type} `{PyFloat F}.
Variable U : Unicode.
Variable W : World F.

(** C3, amended. When the servlet request raises, the holdings are
    missing and the page is not scraped.  When the payload gives a
    non-empty raw list whose items are processed without exception, the
    holdings with positive weight are returned if there are any, and
    otherwise the result is that of fetch_holdings_html, which is missing
    exactly when the page request fails or no selector yields a
    holding. *)
Theorem holdings_chain_fallthrough (isin : pystr) (top_n : nat) :
  (raises (api_holdings W isin) -> fetch_holdings_api U W isin top_n = Ok None)
  /\ (forall data raw items holdings,
        api_holdings W isin = Ok data ->
        raw_holdings U data = Ok raw ->
        truthy raw = true ->
        py_slice_items raw top_n = Ok items ->
        api_items U items [] = Ok holdings ->
        fetch_holdings_api U W isin top_n
        = Ok (match holdings with
              | [] => fetch_holdings_html U W isin top_n
              | _ => Some holdings
              end))
  /\ (fetch_holdings_html U W isin top_n = None <->
      raises (page_holdings W isin)
      \/ exists page, page_holdings W isin = Ok page
                      /\ scan_selectors U page top_n HOLDINGS_SELECTORS [] = []).
Proof.
  split; [|split].
  - intros [e He]. unfold fetch_holdings_api. now rewrite He.
  - intros data raw items holdings Hd Hr Ht Hs Hi.
    unfold fetch_holdings_api. rewrite Hd, Hr. cbn [bind]. rewrite Ht.
    cbn [negb]. rewrite Hs. cbn [bind]. rewrite Hi. cbn [bind].
    now destruct holdings.
  - unfold fetch_holdings_html. destruct (page_holdings W isin) as [page|e].
    + destruct (scan_selectors U page top_n HOLDINGS_SELECTORS []) eqn:Hs.
      * split; [|reflexivity]. intros _. right. now exists page.
      * split; [discriminate|]. intros [[e He]|(p & [= <-] & Hp)]; congruence.
    + split; [|reflexivity]. intros _. left. now exists e.
Qed.

End FetchFacts.

Lemma holdings_chain_fallthrough_witness :
  fetch_holdings_api ascii_only
                     (servlet_world (Ok payload_zero_weight) (Ok one_row_page))
                     (lit "IE00BGQYRS42") 15
  = Ok (fetch_holdings_html ascii_only
                            (servlet_world (Ok payload_zero_weight) (Ok one_row_page))
                            (lit "IE00BGQYRS42") 15).
Proof.
  apply (proj1 (proj2 (holdings_chain_fallthrough ascii_only
                         (servlet_world (Ok payload_zero_weight) (Ok one_row_page))
                         (lit "IE00BGQYRS42") 15))
               payload_zero_weight
               (JList [item_json "AAPL" "Apple" (JInt 0)])
               [item_json "AAPL" "Apple" (JInt 0)]
               []);
    vm_compute; reflexivity.
Defined.

(** ** Substitution on layouts *)

Lemma render_cons (p : tag * pystr) (L : layout) :
  render (p :: L) = snd p ++ render L.
Proof. reflexivity. Qed.

Lemma tag_eqb_eq a b : tag_eqb a b = true <-> a = b.
Proof. destruct a, b; simpl; split; congruence. Qed.

Lemma tag_eqb_refl a : tag_eqb a a = true.
Proof. now apply tag_eqb_eq. Qed.

Section SubFacts.
Variable r : regex.
Variable repl : pystr -> pystr.

Lemma sub_from_skip (a b : pystr) :
  sub_from r repl (a ++ b) (List.length a) = sub_from r repl b 0.
Proof.
  induction a as [|c a IH]; simpl; [reflexivity|exact IH].
Qed.

Lemma sub_from_match (s rest : pystr) :
  s <> [] -> re_match r (s ++ rest) = Some rest ->
  sub_from r repl (s ++ rest) 0 = repl s ++ sub_from r repl rest 0.
Proof.
  destruct s as [|c s]; [congruence|]. intros _ Hm.
  cbn [app sub_from]. change (c :: s ++ rest) with ((c :: s) ++ rest).
  rewrite Hm.
  replace (List.length ((c :: s) ++ rest) - List.length rest)%nat
    with (S (List.length s)).
  2:{ rewrite length_app. cbn [List.length]. lia. }
  change ((c :: s) ++ rest) with (c :: s ++ rest).
  cbn [firstn]. rewrite firstn_app, firstn_all, Nat.sub_diag. cbn [firstn].
  rewrite app_nil_r. f_equal. apply sub_from_skip.
Qed.

Lemma sub_from_no_match (s rest : pystr) :
  no_match_in r s rest = true ->
  sub_from r repl (s ++ rest) 0 = s ++ sub_from r repl rest 0.
Proof.
  induction s as [|c s IH]; [reflexivity|].
  cbn [no_match_in]. change ((c :: s) ++ rest) with (c :: s ++ rest).
  destruct (re_match r (c :: s ++ rest)) eqn:Hm; [discriminate|].
  intros Hn. cbn [sub_from]. rewrite Hm. cbn [app]. f_equal. now apply IH.
Qed.

(** A substitution whose matches are exactly the pieces tagged [T]
    rewrites those pieces and nothing else. *)
Lemma sub_from_layout (T : tag) (L : layout) :
  scan_ok r T L = true ->
  sub_from r repl (render L) 0 = render (set_pieces T repl L).
Proof.
  induction L as [|[t s] L IH]; [reflexivity|].
  cbn [scan_ok set_pieces map fst snd]. rewrite !render_cons. cbn [snd].
  intros Hok. apply andb_true_iff in Hok as [Hhead Htail].
  fold (set_pieces T repl L). rewrite <- (IH Htail).
  destruct (tag_eqb t T).
  - destruct (re_match r (s ++ render L)) as [rest|] eqn:Hm; [|discriminate].
    apply andb_true_iff in Hhead as [Hrest Hne].
    apply pystr_eqb_eq in Hrest. subst rest.
    cbn [snd]. apply sub_from_match; [|exact Hm].
    destruct s; [discriminate|congruence].
  - now apply sub_from_no_match.
Qed.

End SubFacts.

Section StepFacts.
Context {F : Type} `{PyFloat F}.
Variable U : Unicode.

Lemma run_subs_app (s1 s2 : list step) html :
  run_subs U (s1 ++ s2) html = bind (run_subs U s1 html) (run_subs U s2).
Proof.
  revert html. induction s1 as [|[[T r] repl] s1 IH]; intros html; [reflexivity|].
  cbn [app run_subs]. destruct (re_sub U r repl html) as [h|e]; [|reflexivity].
  cbn [bind]. apply IH.
Qed.

Lemma patch_html_run_subs html
    (nh : option (pydict (list (Holding F)))) (ne : option (pydict (pydict F)))
    (nk : option (pydict (pydict (option F)))) d :
  patch_html U html nh ne nk d
  = run_subs U (block_steps U nh ne nk ++ date_steps U d) html.
Proof.
  unfold patch_html, block_steps, patch_dates, date_steps.
  destruct nh as [[|x1 d1]|], ne as [[|x2 d2]|], nk as [[|x3 d3]|];
    cbn [run_subs bind app];
    repeat match goal with
           | |- bind ?x _ = bind ?x _ =>
               destruct x as [?|?]; cbn [bind]; [|reflexivity]
           end;
    match goal with
    | |- ?x = bind ?x _ => destruct x; reflexivity
    end.
Qed.

Lemma run_subs_layout (steps : list step) (L : layout) :
  steps_ok U steps L = true ->
  run_subs U steps (render L) = Ok (render (run_steps U steps L)).
Proof.
  revert L. induction steps as [|[[T r] repl] steps IH]; intros L; [reflexivity|].
  cbn [steps_ok run_subs run_steps]. unfold re_sub.
  destruct (parse_template U repl) as [t|e]; [|discriminate].
  intros Hok. apply andb_true_iff in Hok as [Hscan Hrest].
  cbn [bind]. rewrite (sub_from_layout r (expand t) T L Hscan). now apply IH.
Qed.

Lemma steps_ok_app (s1 s2 : list step) (L : layout) :
  steps_ok U (s1 ++ s2) L
  = (steps_ok U s1 L && steps_ok U s2 (run_steps U s1 L))%bool.
Proof.
  revert L. induction s1 as [|[[T r] repl] s1 IH]; intros L; [reflexivity|].
  cbn [app steps_ok run_steps].
  destruct (parse_template U repl) as [t|e]; [|reflexivity].
  now rewrite IH, andb_assoc.
Qed.

Lemma run_steps_app (s1 s2 : list step) (L : layout) :
  steps_ok U s1 L = true ->
  run_steps U (s1 ++ s2) L = run_steps U s2 (run_steps U s1 L).
Proof.
  revert L. induction s1 as [|[[T r] repl] s1 IH]; intros L; [reflexivity|].
  cbn [app steps_ok run_steps].
  destruct (parse_template U repl) as [t|e]; [|discriminate].
  intros Hok. apply andb_true_iff in Hok as [_ Hrest]. now apply IH.
Qed.

Lemma set_pieces_tags T f (L : layout) : map fst (set_pieces T f L) = map fst L.
Proof.
  unfold set_pieces. rewrite map_map. apply map_ext_in. intros [t s] _.
  cbn [fst]. destruct (tag_eqb t T) eqn:E; [|reflexivity].
  apply tag_eqb_eq in E. now subst.
Qed.

Lemma set_pieces_nth T f (L : layout) i t s :
  nth_error L i = Some (t, s) -> tag_eqb t T = false ->
  nth_error (set_pieces T f L) i = Some (t, s).
Proof.
  intros Hn Ht. unfold set_pieces. rewrite nth_error_map, Hn.
  cbn [option_map fst]. now rewrite Ht.
Qed.

Lemma run_steps_tags (steps : list step) (L : layout) :
  map fst (run_steps U steps L) = map fst L.
Proof.
  revert L. induction steps as [|[[T r] repl] steps IH]; intros L; [reflexivity|].
  cbn [run_steps]. destruct (parse_template U repl) as [t|e]; [|reflexivity].
  now rewrite IH, set_pieces_tags.
Qed.

(** A piece whose tag no substitution rewrites keeps its text. *)
Lemma run_steps_nth (steps : list step) (L : layout) i t s :
  nth_error L i = Some (t, s) -> rewritten steps t = false ->
  nth_error (run_steps U steps L) i = Some (t, s).
Proof.
  revert L. induction steps as [|[[T r] repl] steps IH]; intros L Hn Hr;
    [exact Hn|].
  cbn [run_steps]. unfold rewritten in Hr. cbn [existsb fst] in Hr.
  apply orb_false_iff in Hr as [HT Hr].
  destruct (parse_template U repl) as [tp|e]; [|exact Hn].
  apply IH; [|exact Hr]. apply set_pieces_nth; [exact Hn|].
  destruct (tag_eqb t T) eqn:E; [|reflexivity].
  apply tag_eqb_eq in E. subst. now rewrite tag_eqb_refl in HT.
Qed.

End StepFacts.

(** ** Frame property of the patcher *)

(** A holdings region that contains a date annotation changes although
    no block is given: the date substitution rewrites the annotation
    inside the region. *)
Lemma dated_region_changes :
  re_match RAW_HOLDINGS_RE dated_region = Some []
  /\ patch_html (F := Q) ascii_only dated_region None None None (lit "Nov 04, 2026")
     = Ok (lit "const RAW_HOLDINGS = { /* Data as of Nov 04, 2026. */ };")
  /\ lit "const RAW_HOLDINGS = { /* Data as of Nov 04, 2026. */ };" <> dated_region.
Proof. vm_compute. repeat split. discriminate. Qed.

Section FrameFacts.
Context {F : Type} `{PyFloat F}.
Variable U : Unicode.

(** X1. Let the document be cut into text, regions and date
    annotations so that every substitution that runs matches exactly the
    pieces of its own kind.  Then patch_html rewrites those pieces only:
    the text pieces and the regions of a kind whose block is absent or
    empty are left byte-identical, and the order and kinds of the pieces
    are unchanged. *)
Theorem patch_html_frame (L : layout)
    (nh : option (pydict (list (Holding F)))) (ne : option (pydict (pydict F)))
    (nk : option (pydict (pydict (option F)))) (date_str : pystr) :
  steps_ok U (block_steps U nh ne nk ++ date_steps U date_str) L = true ->
  exists L',
    patch_html U (render L) nh ne nk date_str = Ok (render L')
    /\ map fst L' = map fst L
    /\ forall i t s,
         nth_error L i = Some (t, s) ->
         t = TText
         \/ (t = THoldings /\ provided nh = false)
         \/ (t = TEtfReturns /\ provided ne = false)
         \/ (t = TStockReturns /\ provided nk = false) ->
         nth_error L' i = Some (t, s).
Proof.
  intros Hok.
  exists (run_steps U (block_steps U nh ne nk ++ date_steps U date_str) L).
  split; [|split].
  - rewrite patch_html_run_subs. now apply run_subs_layout.
  - apply run_steps_tags.
  - intros i t s Hn Ht. apply run_steps_nth; [exact Hn|].
    unfold rewritten. rewrite existsb_app. unfold block_steps.
    destruct Ht as [->|[[-> Hp]|[[-> Hp]|[-> Hp]]]];
      destruct nh as [[|x1 d1]|], ne as [[|x2 d2]|], nk as [[|x3 d3]|];
      try discriminate Hp; reflexivity.
Qed.

End FrameFacts.

Lemma patch_html_frame_witness :
  exists L',
    patch_html ascii_only (render sample_layout)
               (Some sample_holdings) None (Some sample_stock_returns)
               (lit "Nov 04, 2026")
    = Ok (render L')
    /\ map fst L' = map fst sample_layout
    /\ forall i t s,
         nth_error sample_layout i = Some (t, s) ->
         t = TText
         \/ (t = THoldings /\ provided (Some sample_holdings) = false)
         \/ (t = TEtfReturns /\ provided (@None (pydict (pydict Q))) = false)
         \/ (t = TStockReturns /\ provided (Some sample_stock_returns) = false) ->
         nth_error L' i = Some (t, s).
Proof.
  apply (patch_html_frame ascii_only sample_layout
           (Some sample_holdings) None (Some sample_stock_returns)
           (lit "Nov 04, 2026")).
  vm_compute. reflexivity.
Defined.

(** ** Running the patcher twice *)

Lemma expand_constant (t : list tpiece) (m m' : pystr) :
  forallb (fun p => match p with TLit _ => true | TGroup0 => false end) t = true ->
  expand t m = expand t m'.
Proof.
  unfold expand. induction t as [|[s|] t IH]; cbn [forallb flat_map andb];
    [reflexivity| |discriminate].
  intros Hc. now rewrite (IH Hc).
Qed.

Lemma pieces_hold_set (T : tag) (t : list tpiece) (L : layout) :
  forallb (fun p => match p with TLit _ => true | TGroup0 => false end) t = true ->
  pieces_hold T (expand t []) (set_pieces T (expand t) L).
Proof.
  intros Hc [t' s'] Hin Ht. cbn [fst snd] in *. subst t'.
  unfold set_pieces in Hin. apply in_map_iff in Hin as ([t0 s0] & Heq & _).
  cbn [fst snd] in Heq. destruct (tag_eqb t0 T) eqn:E.
  - injection Heq as <-. now apply expand_constant.
  - injection Heq as -> _. now rewrite tag_eqb_refl in E.
Qed.

Lemma pieces_hold_set_other (T T' : tag) c f (L : layout) :
  tag_eqb T' T = false ->
  pieces_hold T c L -> pieces_hold T c (set_pieces T' f L).
Proof.
  intros Hne Hh [t s] Hin Ht. cbn [fst snd] in *. subst t.
  unfold set_pieces in Hin. apply in_map_iff in Hin as ([t0 s0] & Heq & Hin).
  cbn [fst snd] in Heq. destruct (tag_eqb t0 T') eqn:E.
  - injection Heq as <- _. now rewrite tag_eqb_refl in Hne.
  - injection Heq as -> ->. now apply (Hh (T, s) Hin).
Qed.

Lemma set_pieces_fixed (T : tag) f c (L : layout) :
  pieces_hold T c L -> (forall m, f m = c) -> set_pieces T f L = L.
Proof.
  intros Hh Hf. unfold set_pieces. rewrite <- (map_id L) at 2.
  apply map_ext_in. intros [t s] Hin. cbn [fst snd].
  destruct (tag_eqb t T) eqn:E; [|reflexivity].
  apply tag_eqb_eq in E. subst t. now rewrite Hf, <- (Hh (T, s) Hin eq_refl).
Qed.

Section TwiceFacts.
Context {F : Type} `{PyFloat F}.
Variable U : Unicode.

Lemma pieces_hold_run (steps : list step) (T : tag) c (L : layout) :
  rewritten steps T = false ->
  pieces_hold T c L -> pieces_hold T c (run_steps U steps L).
Proof.
  revert L. induction steps as [|[[T' r] repl] steps IH]; intros L Hr Hh;
    [exact Hh|].
  unfold rewritten in Hr. cbn [existsb fst] in Hr.
  apply orb_false_iff in Hr as [HT Hr].
  cbn [run_steps]. destruct (parse_template U repl) as [t|e]; [|exact Hh].
  apply IH; [exact Hr|]. now apply pieces_hold_set_other.
Qed.

(** After a run, the pieces of every substitution with a constant
    replacement hold that replacement. *)
Lemma run_steps_hold (steps : list step) (L : layout) :
  distinct_tags steps = true ->
  steps_ok U steps L = true ->
  forall T r repl t,
    In (T, r, repl) steps ->
    parse_template U repl = Ok t ->
    forallb (fun p => match p with TLit _ => true | TGroup0 => false end) t = true ->
    pieces_hold T (expand t []) (run_steps U steps L).
Proof.
  revert L. induction steps as [|[[T0 r0] repl0] steps IH];
    intros L Hd Hok T r repl t Hin Hp Hc; [destruct Hin|].
  cbn [distinct_tags fst] in Hd. apply andb_true_iff in Hd as [Hfresh Hd].
  apply negb_true_iff in Hfresh.
  cbn [steps_ok] in Hok. cbn [run_steps].
  destruct (parse_template U repl0) as [t0|e] eqn:Hp0; [|discriminate].
  apply andb_true_iff in Hok as [_ Hok].
  destruct Hin as [[= -> -> ->]|Hin].
  - rewrite Hp in Hp0. injection Hp0 as <-.
    apply pieces_hold_run; [exact Hfresh|]. now apply pieces_hold_set.
  - now apply (IH _ Hd Hok T r repl t).
Qed.

(** Substitutions with constant replacements that the pieces already
    hold change nothing. *)
Lemma run_steps_fixed (steps : list step) (L : layout) :
  (forall T r repl, In (T, r, repl) steps ->
     exists t, parse_template U repl = Ok t
               /\ forallb (fun p => match p with TLit _ => true | TGroup0 => false end) t
                  = true
               /\ pieces_hold T (expand t []) L) ->
  run_steps U steps L = L.
Proof.
  induction steps as [|[[T r] repl] steps IH]; intros Hall; [reflexivity|].
  cbn [run_steps].
  destruct (Hall T r repl (or_introl eq_refl)) as (t & Hp & Hc & Hh).
  rewrite Hp.
  rewrite (set_pieces_fixed T (expand t) (expand t []) L Hh
             (fun m => expand_constant t m [] Hc)).
  apply IH. intros T' r' repl' Hin. apply (Hall T' r' repl'). now right.
Qed.

Lemma patch_dates_run_subs html d :
  patch_dates U html d = run_subs U (date_steps U d) html.
Proof.
  unfold patch_dates, date_steps. cbn [run_subs].
  destruct (re_sub U (COMPILED_RE U) (COMPILED_LABEL ++ d) html) as [h|e];
    cbn [bind]; [|reflexivity].
  now destruct (re_sub U (AS_OF_RE U) (AS_OF_LABEL ++ d ++ lit ".") h).
Qed.

Lemma patch_steps_distinct
    (nh : option (pydict (list (Holding F)))) (ne : option (pydict (pydict F)))
    (nk : option (pydict (pydict (option F)))) d :
  distinct_tags (block_steps U nh ne nk ++ date_steps U d) = true.
Proof.
  unfold block_steps.
  destruct nh as [[|x1 d1]|], ne as [[|x2 d2]|], nk as [[|x3 d3]|]; reflexivity.
Qed.

(** X2. Let the document be cut into pieces that the first run
    rewrites as in X1, let the block replacements not refer to the text
    they replace, and let every substitution of the second run match, in
    the patched document, exactly the pieces of its own kind (so that,
    in particular, no data value forges a closing marker).  Let L1 be the
    cut of the document after the first run and L2 the cut after the
    second, both with the pieces of L in the same order and of the same
    kinds.  Then the second run with the same data does what rewriting
    the two date annotations alone does: every piece of L1 other than the
    two dates is byte-identical in L2, and the text pieces are those of
    the document before the first run. *)
Theorem patch_html_twice (L : layout)
    (nh : option (pydict (list (Holding F)))) (ne : option (pydict (pydict F)))
    (nk : option (pydict (pydict (option F)))) (d1 d2 : pystr) :
  steps_ok U (block_steps U nh ne nk ++ date_steps U d1) L = true ->
  steps_ok U (block_steps U nh ne nk ++ date_steps U d2)
           (run_steps U (block_steps U nh ne nk ++ date_steps U d1) L) = true ->
  forallb (fun st => constant_template U (snd st)) (block_steps U nh ne nk) = true ->
  let L1 := run_steps U (block_steps U nh ne nk ++ date_steps U d1) L in
  let L2 := run_steps U (date_steps U d2) L1 in
  patch_html U (render L) nh ne nk d1 = Ok (render L1)
  /\ patch_html U (render L1) nh ne nk d2 = Ok (render L2)
  /\ patch_dates U (render L1) d2 = Ok (render L2)
  /\ map fst L1 = map fst L
  /\ map fst L2 = map fst L
  /\ (forall i t s,
        nth_error L1 i = Some (t, s) -> t <> TCompiled -> t <> TAsOf ->
        nth_error L2 i = Some (t, s))
  /\ (forall i s,
        nth_error L i = Some (TText, s) ->
        nth_error L1 i = Some (TText, s) /\ nth_error L2 i = Some (TText, s)).
Proof.
  intros H1 H2 Hc L1 L2.
  set (B := block_steps U nh ne nk) in *.
  assert (HB : run_steps U B L1 = L1).
  { apply run_steps_fixed. intros T r repl Hin.
    rewrite forallb_forall in Hc. specialize (Hc _ Hin).
    unfold constant_template in Hc. cbn [snd] in Hc.
    destruct (parse_template U repl) as [t|e] eqn:Hp; [|discriminate].
    exists t. repeat split; [exact Hc|].
    apply (run_steps_hold (B ++ date_steps U d1) L
             (patch_steps_distinct nh ne nk d1) H1 T r repl t);
      [apply in_or_app; now left|exact Hp|exact Hc]. }
  rewrite steps_ok_app in H2. apply andb_true_iff in H2 as [H2B H2D].
  fold L1 in H2B, H2D. rewrite HB in H2D.
  assert (Hkeep : forall i t s,
             nth_error L1 i = Some (t, s) -> t <> TCompiled -> t <> TAsOf ->
             nth_error L2 i = Some (t, s)).
  { intros i t s Hn Hn1 Hn2. apply run_steps_nth; [exact Hn|].
    destruct t; try reflexivity; congruence. }
  assert (Htext : forall i s,
             nth_error L i = Some (TText, s) -> nth_error L1 i = Some (TText, s)).
  { intros i s Hn. apply run_steps_nth; [exact Hn|].
    unfold rewritten. rewrite existsb_app. unfold B, block_steps.
    destruct nh as [[|x1 h1]|], ne as [[|x2 e1]|], nk as [[|x3 k1]|]; reflexivity. }
  split; [|split; [|split; [|split; [|split; [|split]]]]].
  - rewrite patch_html_run_subs. now apply run_subs_layout.
  - rewrite patch_html_run_subs. fold B.
    rewrite (run_subs_layout U (B ++ date_steps U d2) L1).
    + now rewrite (run_steps_app U B (date_steps U d2) L1 H2B), HB.
    + rewrite steps_ok_app, H2B, HB. exact H2D.
  - rewrite patch_dates_run_subs. now apply run_subs_layout.
  - apply run_steps_tags.
  - unfold L2. rewrite run_steps_tags. apply run_steps_tags.
  - exact Hkeep.
  - intros i s Hn. pose proof (Htext i s Hn) as Hn1. split; [exact Hn1|].
    apply (Hkeep i TText s Hn1); discriminate.
Qed.

End TwiceFacts.

(** Two runs differ from one when a holding's name contains the closing
    marker: patching the once-patched document again, with the same data
    and the same date, gives a different document. *)
Lemma closing_marker_breaks_idempotence :
  match patch_html ascii_only (render sample_layout)
                   (Some closing_marker_holdings) None None (lit "Nov 04, 2026") with
  | Ok once =>
      patch_html ascii_only once (Some closing_marker_holdings) None None
                 (lit "Nov 04, 2026") <> Ok once
  | Raise _ => False
  end.
Proof.
  vm_compute. intros Heq.
  apply (f_equal (fun r => match r with Ok s => List.length s | Raise _ => O end)) in Heq.
  vm_compute in Heq. discriminate Heq.
Qed.

Lemma patch_html_twice_witness :
  let L1 := run_steps ascii_only
              (block_steps ascii_only (Some sample_holdings) None
                           (Some sample_stock_returns)
               ++ date_steps ascii_only (lit "Nov 04, 2026")) sample_layout in
  let L2 := run_steps ascii_only (date_steps ascii_only (lit "Nov 05, 2026")) L1 in
  patch_html ascii_only (render sample_layout)
             (Some sample_holdings) None (Some sample_stock_returns)
             (lit "Nov 04, 2026") = Ok (render L1)
  /\ patch_html ascii_only (render L1)
                (Some sample_holdings) None (Some sample_stock_returns)
                (lit "Nov 05, 2026") = Ok (render L2)
  /\ patch_dates ascii_only (render L1) (lit "Nov 05, 2026") = Ok (render L2)
  /\ map fst L1 = map fst sample_layout
  /\ map fst L2 = map fst sample_layout
  /\ (forall i t s,
        nth_error L1 i = Some (t, s) -> t <> TCompiled -> t <> TAsOf ->
        nth_error L2 i = Some (t, s))
  /\ (forall i s,
        nth_error sample_layout i = Some (TText, s) ->
        nth_error L1 i = Some (TText, s) /\ nth_error L2 i = Some (TText, s)).
Proof.
  apply (patch_html_twice ascii_only sample_layout
           (Some sample_holdings) None (Some sample_stock_returns)
           (lit "Nov 04, 2026") (lit "Nov 05, 2026"));
    vm_compute; reflexivity.
Defined.

(** ** Order of the serialized entries *)

Lemma same_mapping_swap {V} (k1 k2 : pystr) (v1 v2 : V) :
  k1 <> k2 -> same_mapping [(k1, v1); (k2, v2)] [(k2, v2); (k1, v1)].
Proof.
  intros Hne k. simpl.
  destruct (pystr_eqb k1 k) eqn:E1, (pystr_eqb k2 k) eqn:E2; try reflexivity.
  apply pystr_eqb_eq in E1, E2. congruence.
Qed.

Lemma same_mapping_get_or {V} (d1 d2 : pydict V) k default :
  same_mapping d1 d2 -> dict_get_or d1 k default = dict_get_or d2 k default.
Proof. intros Hs. unfold dict_get_or. now rewrite (Hs k). Qed.

(** The stock-returns block follows the insertion order: two
    dictionaries equal as mappings, built in different orders, serialize
    differently. *)
Lemma stock_block_follows_insertion_order :
  same_mapping stock_ab stock_ba
  /\ js_holding_returns ascii_only stock_ab <> js_holding_returns ascii_only stock_ba.
Proof.
  split.
  - apply same_mapping_swap. discriminate.
  - vm_compute. discriminate.
Qed.

(** Strip the parts that two concatenations share. *)
Ltac same_frame :=
  repeat match goal with
         | |- ?a ++ _ = ?a ++ _ => apply (f_equal (app a))
         | |- _ ++ ?c = _ ++ ?c => apply (f_equal (fun x => x ++ c))
         | |- join ?s _ = join ?s _ => apply (f_equal (join s))
         | |- ?a :: _ = ?a :: _ => apply (f_equal (cons a))
         | |- _ :: ?l = _ :: ?l => apply (f_equal (fun x => x :: l))
         end.

Section OrderFacts.
Context {F : Type} `{PyFloat F}.
Variable U : Unicode.

Lemma js_holdings_mapping (h1 h2 : pydict (list (Holding F))) :
  same_mapping h1 h2 -> js_holdings h1 = js_holdings h2.
Proof.
  intros Hs. unfold js_holdings. same_frame.
  apply flat_map_ext. intros etf. now rewrite (same_mapping_get_or h1 h2 etf [] Hs).
Qed.

Lemma js_etf_returns_nested (r1 r2 : pydict (pydict F)) :
  same_nested r1 r2 -> js_etf_returns r1 = js_etf_returns r2.
Proof.
  intros Hs. unfold js_etf_returns. same_frame.
  apply map_ext. intros etf. same_frame.
  apply map_ext. intros p. now rewrite (Hs etf p).
Qed.

(** The stock serializer reads each inner dictionary through lookups
    only, and the outer one in its own order. *)
Lemma js_holding_returns_entries (d1 d2 : pydict (pydict (option F))) :
  Forall2 (fun e1 e2 => fst e1 = fst e2 /\ same_mapping (snd e1) (snd e2)) d1 d2 ->
  js_holding_returns U d1 = js_holding_returns U d2.
Proof.
  intros Hall. unfold js_holding_returns. same_frame.
  induction Hall as [|[t1 r1] [t2 r2] d1 d2 [Ht Hr] _ IH]; [reflexivity|].
  cbn [map fst snd] in *. subst t2. rewrite IH. same_frame.
  apply map_ext. intros p. now rewrite (Hr p).
Qed.

Lemma entries_of_lookups {V} (d1 d2 : pydict (pydict V)) :
  dict_keys d1 = dict_keys d2 ->
  NoDup (dict_keys d1) ->
  same_nested d1 d2 ->
  Forall2 (fun e1 e2 => fst e1 = fst e2 /\ same_mapping (snd e1) (snd e2)) d1 d2.
Proof.
  revert d2. induction d1 as [|[k1 v1] d1 IH]; intros [|[k2 v2] d2] Hk Hnd Hs;
    try discriminate Hk; [constructor|].
  cbn [dict_keys map fst] in Hk. injection Hk as <- Hk.
  cbn [dict_keys map fst] in Hnd. apply NoDup_cons_iff in Hnd as [Hfresh Hnd].
  constructor.
  - split; [reflexivity|]. intros p. specialize (Hs k1 p).
    unfold dict_get_or in Hs. cbn [dict_get] in Hs.
    now rewrite pystr_eqb_refl in Hs.
  - apply IH; [exact Hk|exact Hnd|].
    intros k p. specialize (Hs k p). unfold dict_get_or in *.
    cbn [dict_get] in Hs. destruct (pystr_eqb k1 k) eqn:E; [|exact Hs].
    apply pystr_eqb_eq in E. subst k.
    assert (Hn1 : dict_get d1 k1 = None) by now apply dict_get_none.
    assert (Hn2 : dict_get d2 k1 = None).
    { apply dict_get_none. unfold dict_keys in *. now rewrite <- Hk. }
    now rewrite Hn1, Hn2.
Qed.

Lemma stock_tickers_distinct : NoDup STOCK_TICKERS.
Proof. apply distinct_nodup. vm_compute. reflexivity. Qed.

Lemma fetch_stock_keys (W : World F) (tickers : list pystr) :
  NoDup tickers -> dict_keys (fetch_stock_returns W tickers) = tickers.
Proof.
  intros Hnd. unfold fetch_stock_returns.
  match goal with
  | |- context [fold_left _ (combine _ (map ?f _)) _] =>
      match goal with
      | |- context [dict_set _ _ (?g _)] =>
          exact (fold_dict_set_keys f g tickers [] Hnd (fun t _ Hin => Hin))
      end
  end.
Qed.

Lemma main_stock_keys (W : World F) :
  dict_keys (main_stock_returns W) = CANONICAL_STOCK_KEYS.
Proof.
  unfold main_stock_returns.
  pose proof (fetch_stock_keys W STOCK_TICKERS stock_tickers_distinct) as Hk.
  destruct (dict_get (fetch_stock_returns W STOCK_TICKERS) (lit "BRK-B")) as [v|] eqn:Hg.
  - rewrite dict_keys_set. unfold dict_mem.
    assert (Hpop : dict_keys (dict_pop (fetch_stock_returns W STOCK_TICKERS) (lit "BRK-B"))
                   = filter (fun t => negb (pystr_eqb t (lit "BRK-B"))) STOCK_TICKERS).
    { rewrite dict_keys_pop; [now rewrite Hk|rewrite Hk; exact stock_tickers_distinct]. }
    destruct (dict_get (dict_pop (fetch_stock_returns W STOCK_TICKERS) (lit "BRK-B"))
                       (lit "BRK_B")) eqn:Hg'.
    + apply dict_get_some_key in Hg'. rewrite Hpop in Hg'.
      apply existsb_pystr_eqb in Hg'. vm_compute in Hg'. discriminate.
    + rewrite Hpop. exact eq_refl.
  - apply dict_get_none in Hg. rewrite Hk in Hg. contradiction Hg.
    apply existsb_pystr_eqb. vm_compute. reflexivity.
Qed.

Lemma main_stock_keys_nodup : NoDup CANONICAL_STOCK_KEYS.
Proof. apply distinct_nodup. vm_compute. reflexivity. Qed.

(** X3. The holdings block and the ETF-returns block are the
    same for snapshots equal as mappings, whatever the insertion order
    (for the ETF returns the inner dictionaries only need to answer
    lookups alike).  The stock-returns block lists the entries in the
    insertion order of the mapping; the mapping that the run builds has
    its tickers in one fixed order, whatever the price service returns,
    so two runs with the same data per ticker serialize alike. *)
Theorem serializers_canonical_order :
  (forall h1 h2 : pydict (list (Holding F)),
     same_mapping h1 h2 -> js_holdings h1 = js_holdings h2)
  /\ (forall r1 r2 : pydict (pydict F),
        same_nested r1 r2 -> js_etf_returns r1 = js_etf_returns r2)
  /\ (forall W : World F, dict_keys (main_stock_returns W) = CANONICAL_STOCK_KEYS)
  /\ (forall W1 W2 : World F,
        same_nested (main_stock_returns W1) (main_stock_returns W2) ->
        js_holding_returns U (main_stock_returns W1)
        = js_holding_returns U (main_stock_returns W2)).
Proof.
  split; [|split; [|split]].
  - exact js_holdings_mapping.
  - exact js_etf_returns_nested.
  - exact main_stock_keys.
  - intros W1 W2 Hs. apply js_holding_returns_entries.
    apply entries_of_lookups.
    + now rewrite !main_stock_keys.
    + rewrite main_stock_keys. exact main_stock_keys_nodup.
    + exact Hs.
Qed.

End OrderFacts.

Lemma serializers_canonical_order_witness :
  js_holdings holdings_xs = js_holdings holdings_sx.
Proof.
  apply (proj1 (serializers_canonical_order ascii_only)).
  apply same_mapping_swap. discriminate.
Defined.


(** ** What the block pattern matches *)

Lemma strip_prefix_app (p s : pystr) : strip_prefix p (p ++ s) = Some s.
Proof.
  induction p as [|a p IH]; simpl; [reflexivity|]. now rewrite N.eqb_refl.
Qed.

Lemma strip_prefix_some (p s r : pystr) :
  strip_prefix p s = Some r <-> s = p ++ r.
Proof.
  split.
  - revert s. induction p as [|a p IH]; intros s; simpl.
    + now intros [= ->].
    + destruct s as [|b s]; [discriminate|].
      destruct (N.eqb a b) eqn:E; [|discriminate].
      apply N.eqb_eq in E. subst b. intros Hs. now rewrite (IH s Hs).
  - intros ->. apply strip_prefix_app.
Qed.

Lemma re_match_lit (p : pystr) (r : regex) (s : pystr) :
  re_match (re_lit p ++ r) s
  = match strip_prefix p s with
    | Some s' => re_match r s'
    | None => None
    end.
Proof.
  revert s. induction p as [|a p IH]; intros s; [reflexivity|].
  cbn [re_lit map app re_match atom_ok strip_prefix].
  destruct s as [|b s]; [reflexivity|].
  destruct (N.eqb a b); [apply IH|reflexivity].
Qed.

Lemma re_match_lit_only (p s : pystr) : re_match (re_lit p) s = strip_prefix p s.
Proof.
  rewrite <- (app_nil_r (re_lit p)), re_match_lit.
  now destruct (strip_prefix p s).
Qed.

(** A lazy [.*?] in front of a literal stops at the first place where the
    literal stands. *)
Lemma lazy_dot_first (p s rest : pystr) :
  lazy Dot (strip_prefix p) s = Some rest <->
  exists body,
    s = body ++ p ++ rest
    /\ forall i, (i < List.length body)%nat -> strip_prefix p (skipn i s) = None.
Proof.
  split.
  - revert rest. induction s as [|c s IH]; intros rest; cbn [lazy atom_ok].
    + destruct (strip_prefix p []) as [r|] eqn:Hp; [|discriminate].
      intros [= ->]. exists []. split.
      * now apply strip_prefix_some in Hp.
      * intros i Hi. cbn in Hi. lia.
    + destruct (strip_prefix p (c :: s)) as [r|] eqn:Hp.
      * intros [= ->]. exists []. split.
        -- now apply strip_prefix_some in Hp.
        -- intros i Hi. cbn in Hi. lia.
      * intros Hl. destruct (IH rest Hl) as (body & -> & Hfirst).
        exists (c :: body). split; [reflexivity|].
        intros [|i] Hi; [exact Hp|]. cbn [skipn]. apply Hfirst.
        cbn [List.length] in Hi. lia.
  - intros (body & -> & Hfirst). induction body as [|c body IH].
    + cbn [app]. destruct (p ++ rest) eqn:E; cbn [lazy];
        rewrite <- E, strip_prefix_app; reflexivity.
    + pose proof (Hfirst 0%nat ltac:(cbn [List.length]; lia)) as H0.
      cbn [skipn app] in H0. cbn [app lazy atom_ok]. rewrite H0.
      apply IH. intros i Hi. apply (Hfirst (S i)). cbn [List.length]. lia.
Qed.

(** X4. The region of a block runs from its opening marker to the first
    closing marker behind it. *)
Theorem block_re_first_close (name s rest : pystr) :
  re_match (block_re name) s = Some rest <->
  exists body,
    s = (lit "const " ++ name ++ lit " = {") ++ body ++ CLOSE ++ rest
    /\ forall i, (i < List.length body)%nat ->
                 strip_prefix CLOSE (skipn i (body ++ CLOSE ++ rest)) = None.
Proof.
  unfold block_re. rewrite re_match_lit. cbn [app re_match].
  assert (Hk : forall x, lazy Dot (re_match (re_lit CLOSE)) x
                         = lazy Dot (strip_prefix CLOSE) x).
  { intros x. induction x as [|c x IH]; cbn [lazy atom_ok];
      rewrite re_match_lit_only; [reflexivity|].
    destruct (strip_prefix CLOSE (c :: x)); [reflexivity|exact IH]. }
  split.
  - destruct (strip_prefix (lit "const " ++ name ++ lit " = {") s) as [s'|] eqn:Hp;
      [|discriminate].
    apply strip_prefix_some in Hp. subst s. rewrite Hk. intros Hl.
    apply lazy_dot_first in Hl as (body & -> & Hfirst). now exists body.
  - intros (body & -> & Hfirst). rewrite strip_prefix_app, Hk.
    apply lazy_dot_first. now exists body.
Qed.

Lemma block_re_first_close_witness :
  re_match (block_re (lit "X")) (lit "const X = {a};b};") = Some (lit "b};").
Proof.
  apply (proj2 (block_re_first_close (lit "X") (lit "const X = {a};b};") (lit "b};"))).
  exists (lit "a"). split; [reflexivity|].
  intros i Hi. destruct i as [|i]; [reflexivity|].
  cbn [lit List.length] in Hi. exfalso. cbn in Hi. lia.
Defined.

(** ** When the patcher raises, and when it changes nothing *)

Section PatchErrorFacts.
Context {F : Type} `{PyFloat F}.
Variable U : Unicode.

Lemma run_subs_ok (steps : list step) (html : pystr) :
  ok (run_subs U steps html)
  = forallb (fun st => ok (parse_template U (snd st))) steps.
Proof.
  revert html. induction steps as [|[[T r] repl] steps IH]; intros html;
    [reflexivity|].
  cbn [run_subs forallb snd]. unfold re_sub.
  destruct (parse_template U repl) as [t|e]; cbn [bind ok andb]; [apply IH|reflexivity].
Qed.

(** X5. Whether patch_html raises is decided by the replacement strings
    alone: it returns exactly when every replacement that is used is a
    template that the [re] module of the interpreter at hand accepts,
    whatever the document is. *)
Theorem patch_html_raises_on_templates_only
    (nh : option (pydict (list (Holding F)))) (ne : option (pydict (pydict F)))
    (nk : option (pydict (pydict (option F)))) (date_str : pystr) (html : pystr) :
  ok (patch_html U html nh ne nk date_str)
  = forallb (fun st => ok (parse_template U (snd st)))
            (block_steps U nh ne nk ++ date_steps U date_str).
Proof. rewrite patch_html_run_subs. apply run_subs_ok. Qed.

Lemma sub_from_nothing (r : regex) (repl : pystr -> pystr) (html : pystr) :
  no_match_in r html [] = true -> sub_from r repl html 0 = html.
Proof.
  intros Hn. rewrite <- (app_nil_r html) at 1.
  rewrite (sub_from_no_match r repl html [] Hn). cbn [sub_from].
  apply app_nil_r.
Qed.

Lemma run_subs_nothing (steps : list step) (html : pystr) :
  forallb (fun st => ok (parse_template U (snd st))
                     && no_match_in (snd (fst st)) html []) steps = true ->
  run_subs U steps html = Ok html.
Proof.
  induction steps as [|[[T r] repl] steps IH]; [reflexivity|].
  cbn [forallb fst snd run_subs]. intros Hall.
  apply andb_true_iff in Hall as [Hst Hall].
  apply andb_true_iff in Hst as [Hp Hn].
  unfold re_sub. destruct (parse_template U repl) as [t|e]; [|discriminate].
  cbn [bind]. rewrite (sub_from_nothing r (expand t) html Hn). now apply IH.
Qed.

(** X6. If no pattern of a substitution that runs matches anywhere in the
    document, and the replacements are well-formed templates, the
    document is returned as it is: a document without the regions and
    without the annotations is never touched. *)
Theorem patch_html_nothing_to_patch
    (nh : option (pydict (list (Holding F)))) (ne : option (pydict (pydict F)))
    (nk : option (pydict (pydict (option F)))) (date_str : pystr) (html : pystr) :
  forallb (fun st => ok (parse_template U (snd st))
                     && no_match_in (snd (fst st)) html [])
          (block_steps U nh ne nk ++ date_steps U date_str) = true ->
  patch_html U html nh ne nk date_str = Ok html.
Proof. intros Hall. rewrite patch_html_run_subs. now apply run_subs_nothing. Qed.

End PatchErrorFacts.

Lemma patch_html_nothing_to_patch_witness :
  patch_html ascii_only (lit "<html><body>no data here</body></html>")
             (Some sample_holdings) None (Some sample_stock_returns)
             (lit "Nov 04, 2026")
  = Ok (lit "<html><body>no data here</body></html>").
Proof.
  apply (patch_html_nothing_to_patch ascii_only).
  vm_compute. reflexivity.
Defined.

(** A group name that is neither a number in ASCII digits nor an
    identifier: Python 3.10 and 3.11 read it with [int] and take group 0,
    Python 3.12 refuses it. *)
Example legacy_group_name_accepted :
  re_sub ascii_legacy [One (Chr 97)] (92%N :: lit "g<+0>") (lit "xay")
  = Ok (lit "xay")
  /\ re_sub ascii_legacy [One (Chr 97)] (92%N :: lit "g<0_0>") (lit "xay")
     = Ok (lit "xay")
  /\ re_sub ascii_legacy [One (Chr 97)] (92%N :: lit "g< 0>") (lit "xay")
     = Ok (lit "xay")
  /\ re_sub ascii_legacy [One (Chr 97)] (92%N :: lit "g<a>") (lit "xay")
     = Raise IndexError
  /\ re_sub ascii_legacy [One (Chr 97)] (92%N :: lit "g<1>") (lit "xay")
     = Raise ReError.
Proof. vm_compute. repeat split. Qed.

Example strict_group_name_refused :
  re_sub ascii_only [One (Chr 97)] (92%N :: lit "g<+0>") (lit "xay")
  = Raise ReError
  /\ re_sub ascii_only [One (Chr 97)] (92%N :: lit "g<0>") (lit "xay")
     = Ok (lit "xay").
Proof. vm_compute. repeat split. Qed.

(** ** Escaping of names and tickers *)

Lemma replace_one_char (c : N) (new s : pystr) :
  replace [c] new s = flat_map (fun x => if N.eqb c x then new else [x]) s.
Proof.
  unfold replace. induction s as [|x s IH]; [reflexivity|].
  cbn [replace_from strip_prefix flat_map List.length Nat.pred].
  destruct (N.eqb c x); cbn [app]; now rewrite IH.
Qed.

Lemma escape_quotes_cons (c : N) (s : pystr) :
  escape_quotes (c :: s)
  = (if N.eqb 34 c then [92; 34]%N else [c]) ++ escape_quotes s.
Proof. unfold escape_quotes, QUOTE. now rewrite !replace_one_char. Qed.

Lemma escape_quotes_app (a b : pystr) :
  escape_quotes (a ++ b) = escape_quotes a ++ escape_quotes b.
Proof.
  unfold escape_quotes, QUOTE. rewrite !replace_one_char. apply flat_map_app.
Qed.

Lemma js_string_end_shorter (s body rest : pystr) :
  js_string_end s = Some (body, rest) -> (List.length rest < List.length s)%nat.
Proof.
  remember (List.length s) as n eqn:Hn. revert s body rest Hn.
  induction n as [n IH] using lt_wf_ind. intros s body rest Hn.
  destruct s as [|c s]; cbn [js_string_end]; [discriminate|].
  cbn [List.length] in Hn.
  destruct (N.eqb c 34); [intros [= _ ->]; lia|].
  destruct (N.eqb c 10 || N.eqb c 13)%bool; [discriminate|].
  destruct (N.eqb c 92).
  - destruct s as [|e s]; [discriminate|]. cbn [List.length] in Hn.
    destruct (js_string_end s) as [[b r]|] eqn:Hs; [|discriminate].
    intros [= _ ->].
    pose proof (IH (List.length s) ltac:(lia) s b rest eq_refl Hs). lia.
  - destruct (js_string_end s) as [[b r]|] eqn:Hs; [|discriminate].
    intros [= _ ->].
    pose proof (IH (List.length s) ltac:(lia) s b rest eq_refl Hs). lia.
Qed.

(** X7. A text without backslash and line break, once its quotes are
    escaped and a closing quote is put behind it, is read back as one
    string literal that ends at that quote, and its value is the text. *)
Theorem escape_quotes_round_trip (s tail : pystr) :
  plain_text s = true ->
  js_string_end (escape_quotes s ++ QUOTE ++ tail) = Some (escape_quotes s, tail)
  /\ js_unescape_quotes (escape_quotes s) = s.
Proof.
  induction s as [|c s IH]; intros Hp.
  - split; reflexivity.
  - cbn [plain_text forallb] in Hp. apply andb_true_iff in Hp as [Hc Hp].
    destruct (IH Hp) as [IH1 IH2]. rewrite escape_quotes_cons.
    apply negb_true_iff in Hc. apply orb_false_iff in Hc as [Hc H13].
    apply orb_false_iff in Hc as [H92 H10].
    destruct (N.eqb 34 c) eqn:E.
    + apply N.eqb_eq in E. subst c. split.
      * cbn [app js_string_end N.eqb Pos.eqb orb]. now rewrite IH1.
      * cbn [app js_unescape_quotes N.eqb Pos.eqb]. now rewrite IH2.
    + assert (E' : N.eqb c 34 = false) by now rewrite N.eqb_sym.
      split.
      * cbn [app js_string_end]. rewrite E', H10, H13, H92. cbn [orb].
        now rewrite IH1.
      * cbn [app js_unescape_quotes]. rewrite H92. now rewrite IH2.
Qed.

(** X8. A backslash at the end of a text is not escaped: it takes the
    closing quote with it, so the literal does not end where the
    serializer closes it. *)
Theorem trailing_backslash_breaks_literal (s tail : pystr) :
  plain_text s = true ->
  js_string_end (escape_quotes (s ++ [92%N]) ++ QUOTE ++ tail)
  <> Some (escape_quotes (s ++ [92%N]), tail).
Proof.
  intros Hp.
  assert (Hgo : forall body rest,
             js_string_end (escape_quotes (s ++ [92%N]) ++ QUOTE ++ tail)
             = Some (body, rest) ->
             (List.length rest < List.length tail)%nat).
  { rewrite escape_quotes_app. replace (escape_quotes [92%N]) with [92%N] by reflexivity.
    rewrite <- app_assoc.
    induction s as [|c s IH]; intros body rest.
    - cbn [escape_quotes app QUOTE]. unfold escape_quotes. cbn [replace replace_from app].
      cbn [js_string_end N.eqb Pos.eqb orb].
      destruct (js_string_end tail) as [[b r]|] eqn:Ht; [|discriminate].
      intros [= _ <-]. now apply (js_string_end_shorter tail b r).
    - cbn [plain_text forallb] in Hp. apply andb_true_iff in Hp as [Hc Hp].
      apply negb_true_iff in Hc. apply orb_false_iff in Hc as [Hc H13].
      apply orb_false_iff in Hc as [H92 H10].
      rewrite escape_quotes_cons. destruct (N.eqb 34 c) eqn:E.
      + cbn [app js_string_end N.eqb Pos.eqb orb].
        destruct (js_string_end _) as [[b r]|] eqn:Hs; [|discriminate].
        intros [= _ <-]. now apply (IH Hp b r).
      + assert (E' : N.eqb c 34 = false) by now rewrite N.eqb_sym.
        cbn [app js_string_end]. rewrite E', H10, H13, H92. cbn [orb].
        destruct (js_string_end _) as [[b r]|] eqn:Hs; [|discriminate].
        intros [= _ <-]. now apply (IH Hp b r). }
  intros Heq. specialize (Hgo _ _ Heq). lia.
Qed.

Lemma escape_quotes_round_trip_witness :
  js_string_end (escape_quotes (lit "Apple " ++ QUOTE ++ lit "Inc" ++ QUOTE)
                 ++ QUOTE ++ lit ", weight: 7.51 },")
  = Some (escape_quotes (lit "Apple " ++ QUOTE ++ lit "Inc" ++ QUOTE),
          lit ", weight: 7.51 },")
  /\ js_unescape_quotes (escape_quotes (lit "Apple " ++ QUOTE ++ lit "Inc" ++ QUOTE))
     = lit "Apple " ++ QUOTE ++ lit "Inc" ++ QUOTE.
Proof.
  apply (escape_quotes_round_trip (lit "Apple " ++ QUOTE ++ lit "Inc" ++ QUOTE)).
  vm_compute. reflexivity.
Defined.

Lemma trailing_backslash_breaks_literal_witness :
  js_string_end (escape_quotes (lit "AT&T" ++ [92%N]) ++ QUOTE ++ lit ", weight: 1.00 },")
  <> Some (escape_quotes (lit "AT&T" ++ [92%N]), lit ", weight: 1.00 },").
Proof.
  apply (trailing_backslash_breaks_literal (lit "AT&T")).
  vm_compute. reflexivity.
Defined.

(** ** The window decides the percent change *)

Section PctWindowFacts.
Context {F : Type} `{PyFloat F}.

Lemma window_twice (series : Series F) c :
  window (window series c) c = window series c.
Proof.
  unfold window. induction series as [|o rest IH]; [reflexivity|].
  cbn [filter]. destruct (c <=? fst o) eqn:E; [|exact IH].
  cbn [filter]. now rewrite E, IH.
Qed.

(** X9. The result depends on the observations of the window only: for a
    non-negative number of days, dropping every observation dated before
    the cutoff, or putting older observations in front of the series,
    does not change the percent change. *)
Theorem pct_change_window_only (series : Series F) (days c : Z) :
  0 <= days ->
  cutoff_date series days = Ok (Some c) ->
  pct_change (window series c) days = pct_change series days
  /\ forall older : Series F,
       (forall o, In o older -> fst o < c) ->
       pct_change (older ++ series) days = pct_change series days.
Proof.
  intros Hdays Hc.
  destruct (last_obs series) as [e|] eqn:He.
  2:{ unfold cutoff_date in Hc. rewrite He in Hc. discriminate. }
  unfold cutoff_date in Hc. rewrite He in Hc.
  destruct (timedelta days) as [delta|ex] eqn:Hdelta; [|discriminate].
  cbn [bind] in Hc.
  destruct (timestamp_sub (fst e) delta) as [c'|ex] eqn:Hsub; [|discriminate].
  cbn [bind] in Hc. injection Hc as ->.
  assert (Hce : c = fst e - days * 86400000000000).
  { rewrite (timestamp_sub_inv _ _ _ Hsub), (timedelta_inv _ _ Hdelta). reflexivity. }
  destruct (last_obs_split series e He) as (pre & Hs).
  assert (Hpass : (c <=? fst e) = true).
  { apply Z.leb_le. subst c. lia. }
  assert (Hwin : forall s' : Series F,
             last_obs s' = Some e -> window s' c = window series c ->
             pct_change s' days = pct_change series days).
  { intros s' He' Hw. unfold pct_change. rewrite He', He.
    destruct e as [d v]. cbn [fst] in Hsub. rewrite Hdelta. cbn [bind].
    rewrite Hsub. cbn [bind]. now rewrite Hw. }
  split.
  - apply Hwin; [|apply window_twice].
    subst series. unfold window. rewrite filter_app. cbn [filter].
    rewrite Hpass. apply last_obs_snoc.
  - intros older Hold. apply Hwin.
    + subst series. rewrite app_assoc. apply last_obs_snoc.
    + unfold window. rewrite filter_app.
      replace (filter (fun o => c <=? fst o) older) with (@nil (Z * F));
        [reflexivity|].
      symmetry. apply (proj2 (window_empty_iff older c)). exact Hold.
Qed.

End PctWindowFacts.

Lemma pct_change_window_only_witness :
  pct_change (window example_series (0 - 365 * ns_per_day)) 365
  = pct_change example_series 365
  /\ forall older : Series Q,
       (forall o, In o older -> fst o < 0 - 365 * ns_per_day) ->
       pct_change (older ++ example_series) 365 = pct_change example_series 365.
Proof.
  apply (pct_change_window_only example_series 365 (0 - 365 * ns_per_day)).
  - lia.
  - reflexivity.
Defined.

(** ** Holdings: which selector wins, what is returned, when it raises *)

Section HoldingsFacts.
Context {F : Type} `{PyFloat F}.
Variable U : Unicode.

Lemma scan_selectors_step (page : HoldingsPage) (top_n : nat) sel rest :
  scan_selectors U page top_n (sel :: rest) []
  = match selector_holdings U page top_n sel with
    | [] => scan_selectors U page top_n rest []
    | hs => hs
    end.
Proof.
  unfold selector_holdings. cbn [scan_selectors app].
  destruct (page sel) as [|row rows] eqn:Hp.
  - now rewrite firstn_nil.
  - now destruct (flat_map _ (firstn top_n (row :: rows))).
Qed.

Lemma scan_selectors_skip (page : HoldingsPage) (top_n : nat) (pre rest : list pystr) :
  Forall (fun s => selector_holdings U page top_n s = []) pre ->
  scan_selectors U page top_n (pre ++ rest) [] = scan_selectors U page top_n rest [].
Proof.
  intros Hpre. induction Hpre as [|s pre Hs _ IH]; [reflexivity|].
  cbn [app]. now rewrite scan_selectors_step, Hs.
Qed.

(** X10. The page scrape tries the selectors in order and returns the
    holdings of the first selector whose first [top_n] rows give at least
    one holding; rows of later selectors are never mixed in. *)
Theorem first_selector_with_holdings_wins (W : World F) (isin : pystr)
    (page : HoldingsPage) (top_n : nat) (pre post : list pystr) (sel : pystr) :
  page_holdings W isin = Ok page ->
  HOLDINGS_SELECTORS = pre ++ sel :: post ->
  Forall (fun s => selector_holdings U page top_n s = []) pre ->
  selector_holdings U page top_n sel <> [] ->
  fetch_holdings_html U W isin top_n = Some (selector_holdings U page top_n sel).
Proof.
  intros Hpage Hsels Hpre Hsel. unfold fetch_holdings_html.
  rewrite Hpage, Hsels, (scan_selectors_skip page top_n pre (sel :: post) Hpre),
    scan_selectors_step.
  destruct (selector_holdings U page top_n sel); [congruence|reflexivity].
Qed.

Lemma scan_selectors_from (page : HoldingsPage) (top_n : nat) (sels : list pystr) :
  scan_selectors U page top_n sels [] = []
  \/ exists sel, In sel sels
                 /\ scan_selectors U page top_n sels []
                    = selector_holdings U page top_n sel.
Proof.
  induction sels as [|sel sels IH]; [now left|].
  rewrite scan_selectors_step.
  destruct (selector_holdings U page top_n sel) as [|h hs] eqn:Hs.
  - destruct IH as [IH|(s & Hin & IH)]; [now left|].
    right. exists s. split; [now right|exact IH].
  - right. exists sel. split; [now left|now rewrite Hs].
Qed.

Lemma selector_holdings_bound (page : HoldingsPage) (top_n : nat) sel :
  (List.length (selector_holdings U page top_n sel) <= top_n)%nat
  /\ Forall (fun h => exists x, weight h = f_round 2 x
                                /\ f_leb (f_round 2 x) (f_lit 0) = false)
            (selector_holdings U page top_n sel).
Proof.
  unfold selector_holdings.
  assert (Hlen : (List.length (firstn top_n (page sel)) <= top_n)%nat)
    by apply firstn_le_length.
  revert Hlen. generalize (firstn top_n (page sel)) as rows. intros rows.
  revert top_n. induction rows as [|row rows IH]; intros n Hlen.
  - split; [cbn; lia|constructor].
  - cbn [List.length] in Hlen. destruct n as [|n]; [lia|].
    destruct (IH n ltac:(lia)) as [IHl IHf]. cbn [flat_map].
    destruct (html_row_holding U row) as [h|] eqn:Hr.
    + split; [cbn [app List.length]; lia|].
      cbn [app]. constructor; [|exact IHf].
      unfold html_row_holding in Hr.
      destruct (Nat.ltb (List.length row) 3); [discriminate|].
      destruct (f_parse _) as [x|]; [|discriminate].
      destruct (f_leb (f_round 2 x) (f_lit 0)) eqn:Hle; [discriminate|].
      injection Hr as <-. cbn [weight]. now exists x.
    + split; [cbn [app]; lia|exact IHf].
Qed.

Lemma api_items_bound (items : list (json F)) :
  forall acc hs,
    api_items U items acc = Ok hs ->
    exists new,
      hs = acc ++ new
      /\ (List.length new <= List.length items)%nat
      /\ Forall (fun h => exists x, weight h = f_round 2 x
                                    /\ f_ltb (f_lit 0) x = true) new.
Proof.
  induction items as [|item items IH]; intros acc hs; cbn [api_items].
  - intros [= <-]. exists []. rewrite app_nil_r. repeat split; [cbn; lia|constructor].
  - destruct (api_item_holding U item) as [oh|e] eqn:Hi; [|discriminate].
    cbn [bind]. intros Hrest. apply IH in Hrest as (new & -> & Hlen & Hall).
    destruct oh as [h|].
    + exists (h :: new). rewrite <- app_assoc. repeat split.
      * cbn [List.length]. lia.
      * constructor; [|exact Hall].
        unfold api_item_holding in Hi.
        repeat match type of Hi with
               | bind ?r _ = _ => destruct r; cbn [bind] in Hi; [|discriminate]
               end.
        match type of Hi with
        | (if f_ltb (f_lit 0) ?w then _ else _) = _ =>
            destruct (f_ltb (f_lit 0) w) eqn:Hw; [|discriminate];
            injection Hi as <-; cbn [weight]; now exists w
        end.
    + exists new. repeat split; [cbn [List.length]; lia|exact Hall].
Qed.

Lemma py_slice_items_bound (raw : json F) (n : nat) items :
  py_slice_items raw n = Ok items -> (List.length items <= n)%nat.
Proof.
  destruct raw; cbn [py_slice_items]; try discriminate; intros [= <-].
  - rewrite length_map. apply firstn_le_length.
  - apply firstn_le_length.
Qed.

(** X11. Whatever tier answers, a result that is not missing is a non-empty
    list of at most [top_n] holdings, each with a weight rounded to two
    decimals that was positive before rounding (JSON tier) or is not at
    most zero after rounding (page scrape). *)
Theorem holdings_result_bounds (W : World F) (isin : pystr) (top_n : nat)
    (hs : list (Holding F)) :
  fetch_holdings_api U W isin top_n = Ok (Some hs) ->
  hs <> []
  /\ (List.length hs <= top_n)%nat
  /\ Forall (fun h => exists x, weight h = f_round 2 x
                                /\ (f_ltb (f_lit 0) x = true
                                    \/ f_leb (f_round 2 x) (f_lit 0) = false)) hs.
Proof.
  unfold fetch_holdings_api.
  destruct (api_holdings W isin) as [data|e]; [|discriminate].
  destruct (raw_holdings U data) as [raw|e]; [|discriminate]. cbn [bind].
  destruct (truthy raw); cbn [negb]; [|discriminate].
  destruct (py_slice_items raw top_n) as [items|e] eqn:Hs; [|discriminate].
  cbn [bind]. destruct (api_items U items []) as [holdings|e] eqn:Hi; [|discriminate].
  cbn [bind]. destruct holdings as [|h holdings].
  - intros [= Hhtml]. unfold fetch_holdings_html in Hhtml.
    destruct (page_holdings W isin) as [page|e]; [|discriminate].
    destruct (scan_selectors_from page top_n HOLDINGS_SELECTORS) as [He|(sel & _ & He)];
      rewrite He in Hhtml.
    + discriminate.
    + destruct (selector_holdings U page top_n sel) as [|h0 l0] eqn:Hsel;
        [discriminate|]. injection Hhtml as <-.
      destruct (selector_holdings_bound page top_n sel) as [Hl Hf].
      rewrite Hsel in Hl, Hf. repeat split; [discriminate|exact Hl|].
      eapply Forall_impl; [|exact Hf]. intros a (x & Hx & Hp). exists x. tauto.
  - intros [= <-]. apply api_items_bound in Hi as (new & Hnew & Hlen & Hall).
    cbn [app] in Hnew. rewrite Hnew. apply py_slice_items_bound in Hs.
    repeat split.
    + rewrite <- Hnew. discriminate.
    + lia.
    + eapply Forall_impl; [|exact Hall]. intros a (x & Hx & Hp). exists x. tauto.
Qed.

Lemma api_items_ok (items : list (json F)) :
  forall acc,
    ok (api_items U items acc) = forallb (fun i => ok (api_item_holding U i)) items.
Proof.
  induction items as [|item items IH]; intros acc; [reflexivity|].
  cbn [api_items forallb].
  destruct (api_item_holding U item) as [oh|e]; cbn [bind ok andb];
    [apply IH|reflexivity].
Qed.

Lemma api_item_holding_ok (item : json F) :
  ok (api_item_holding U item) = item_well_formed item.
Proof.
  unfold api_item_holding, item_well_formed.
  destruct item as [| | | | |l|d]; try reflexivity.
  destruct (get_first (JDict d) [lit "ticker"; lit "symbol"; lit "isin"] (JStr []))
    as [t|e]; cbn [bind]; [|reflexivity].
  destruct t as [| | | |s| |]; cbn [py_strip bind ok]; try reflexivity.
  destruct (get_first (JDict d) [lit "name"; lit "description"] (JStr []))
    as [n|e]; cbn [bind]; [|reflexivity].
  destruct n as [| | | |s0| |]; cbn [py_strip bind ok]; try reflexivity.
  destruct (get_first (JDict d) [lit "weight"; lit "percentage"] (JInt 0))
    as [w|e]; cbn [bind]; [|reflexivity].
  destruct (py_float w) as [x|e]; cbn [bind ok]; [|reflexivity].
  now destruct (f_ltb (f_lit 0) x).
Qed.

(** X12. When the payload is a dict and its raw holdings are a list,
    fetch_holdings_api returns (rather than raises) exactly when each of
    the first [top_n] items is a dict with string ticker and name and a
    weight that [float] accepts. *)
Theorem fetch_holdings_api_raises_iff (W : World F) (isin : pystr) (top_n : nat)
    (d : list (pystr * json F)) (l : list (json F)) :
  api_holdings W isin = Ok (JDict d) ->
  raw_holdings U (JDict d) = Ok (JList l) ->
  ok (fetch_holdings_api U W isin top_n)
  = forallb item_well_formed (firstn top_n l).
Proof.
  intros Hd Hr. unfold fetch_holdings_api. rewrite Hd, Hr. cbn [bind truthy].
  destruct l as [|x l]; cbn [negb].
  - now rewrite firstn_nil.
  - cbn [py_slice_items bind].
    assert (Hsame : forall items,
               forallb item_well_formed items
               = forallb (fun i => ok (api_item_holding U i)) items).
    { induction items as [|i items IH]; [reflexivity|].
      cbn [forallb]. now rewrite IH, api_item_holding_ok. }
    rewrite Hsame, <- (api_items_ok (firstn top_n (x :: l)) []).
    destruct (api_items U (firstn top_n (x :: l)) []) as [[|h hs]|e]; reflexivity.
Qed.

End HoldingsFacts.

Lemma first_selector_with_holdings_wins_witness :
  fetch_holdings_html ascii_only
    (servlet_world (Raise RequestError) (Ok second_selector_page)) (lit "IE") 15
  = Some [{| ticker := lit "AAPL"; name := lit "Apple Inc."; weight := 7.51%Q |}].
Proof.
  refine (eq_trans
            (first_selector_with_holdings_wins ascii_only
               (servlet_world (Raise RequestError) (Ok second_selector_page)) (lit "IE")
               second_selector_page 15
               [lit "table.etf-holdings tbody tr"]
               [lit "div.holdings-table tbody tr";
                lit "section.etf-holdings-section table tbody tr";
                lit "table tbody tr"]
               (lit "div#etf-holdings table tbody tr") _ _ _ _) _);
    [| | | |vm_compute; reflexivity].
  - reflexivity.
  - reflexivity.
  - constructor; [vm_compute; reflexivity|constructor].
  - vm_compute. discriminate.
Defined.

Lemma holdings_result_bounds_witness :
  let hs := [{| ticker := lit "AAPL"; name := lit "Apple"; weight := 7.51%Q |}] in
  hs <> []
  /\ (List.length hs <= 15)%nat
  /\ Forall (fun h => exists x, weight h = f_round 2 x
                                /\ (f_ltb (f_lit 0) x = true
                                    \/ f_leb (f_round 2 x) (f_lit 0) = false)) hs.
Proof.
  apply (holdings_result_bounds ascii_only
           (servlet_world (Ok (JDict payload_one_holding)) (Ok one_row_page))
           (lit "IE") 15).
  vm_compute. reflexivity.
Defined.

Lemma fetch_holdings_api_raises_iff_witness :
  ok (fetch_holdings_api ascii_only
        (servlet_world (Ok payload_bad_weight) (Ok one_row_page)) (lit "IE") 15)
  = forallb (item_well_formed (F := Q))
            (firstn 15 [item_json "AAPL" "Apple" (JStr (lit "n/a"))]).
Proof.
  apply (fetch_holdings_api_raises_iff ascii_only
           (servlet_world (Ok payload_bad_weight) (Ok one_row_page)) (lit "IE") 15
           [(lit "topHoldings", JList [item_json "AAPL" "Apple" (JStr (lit "n/a"))])]).
  - reflexivity.
  - vm_compute. reflexivity.
Defined.

(** ** ETF returns: shape of the result and the price-history tier *)

Lemma dict_set_in {V} (d : pydict V) k v k' v' :
  In (k', v') (dict_set d k v) -> In (k', v') d \/ (k', v') = (k, v).
Proof.
  induction d as [|[k0 v0] d IH]; cbn [dict_set].
  - intros [Heq|[]]. now right.
  - destruct (pystr_eqb k0 k) eqn:E.
    + apply pystr_eqb_eq in E. subst k0. intros [Heq|Hin].
      * now right.
      * left. now right.
    + intros [Heq|Hin].
      * left. now left.
      * destruct (IH Hin) as [Hd|Hd]; [left; now right|now right].
Qed.

Section EtfReturnsFacts.
Context {F : Type} `{PyFloat F}.
Variable U : Unicode.
Variable W : World F.

Lemma period_keyed_nil : period_keyed (@nil (pystr * F)).
Proof. repeat split; [constructor|intros k []|intros k v []]. Qed.

Lemma period_keyed_set (r : pydict F) k x :
  period_keyed r -> In k PERIODS -> period_keyed (dict_set r k (f_round 1 x)).
Proof.
  intros (Hnd & Hk & Hv) Hin. repeat split.
  - now apply dict_set_keys_nodup.
  - intros k'. rewrite dict_keys_set. destruct (dict_mem r k); [apply Hk|].
    rewrite in_app_iff. intros [Hk'|[<-|[]]]; [now apply Hk|exact Hin].
  - intros k' v' Hin'. apply dict_set_in in Hin' as [Hin'|[= _ ->]].
    + now apply (Hv k').
    + now exists x.
Qed.

Lemma set_percent_keyed (r r' : pydict F) p v :
  period_keyed r -> In p PERIODS -> set_percent r p v = Ok r' -> period_keyed r'.
Proof.
  intros Hr Hp. unfold set_percent.
  destruct v as [x|e]; cbn [bind].
  - destruct (py_float x) as [y|e]; cbn [bind try_except].
    + intros [= <-]. now apply period_keyed_set.
    + destruct (type_or_value_error e); [now intros [= <-]|discriminate].
  - cbn [try_except]. destruct (type_or_value_error e); [now intros [= <-]|discriminate].
Qed.

Lemma perf_dict_items_keyed (items : list (pystr * json F)) :
  forall r r', period_keyed r -> perf_dict_items items r = Ok r' -> period_keyed r'.
Proof.
  induction items as [|[k v] items IH]; intros r r' Hr; cbn [perf_dict_items].
  - now intros [= <-].
  - destruct (dict_get LABEL_MAP_API k) as [mapped|] eqn:Hm; [|now apply IH].
    destruct (nonempty mapped && _)%bool; [|now apply IH].
    destruct (set_percent r mapped (Ok v)) as [r1|e] eqn:Hs; [|discriminate].
    cbn [bind]. apply IH.
    apply (set_percent_keyed r r1 mapped (Ok v) Hr); [|exact Hs].
    apply dict_get_in in Hm. now apply (label_api_values k).
Qed.

Lemma perf_list_items_keyed (items : list (json F)) :
  forall r r', period_keyed r -> perf_list_items items r = Ok r' -> period_keyed r'.
Proof.
  induction items as [|item items IH]; intros r r' Hr; cbn [perf_list_items].
  - now intros [= <-].
  - destruct (get_first item _ _) as [label|e]; [|discriminate]. cbn [bind].
    destruct (label_lookup LABEL_MAP_API label) as [period|e] eqn:Hl; [|discriminate].
    cbn [bind]. destruct period as [p|]; [|now apply IH].
    destruct (nonempty p); [|now apply IH].
    match goal with
    | |- bind ?s _ = _ -> _ => destruct s as [r1|e] eqn:Hs; [|discriminate]
    end.
    cbn [bind]. apply IH.
    eapply set_percent_keyed; [exact Hr| |exact Hs].
    destruct label; cbn [label_lookup] in Hl; try discriminate.
    assert (Hl' : dict_get LABEL_MAP_API s = Some p) by congruence.
    apply dict_get_in in Hl'. now apply (label_api_values s).
Qed.

Lemma scan_keys_keyed (data : json F) (keys : list pystr) :
  forall r r', period_keyed r -> scan_keys data keys r = Ok r' -> period_keyed r'.
Proof.
  induction keys as [|k keys IH]; intros r r' Hr; cbn [scan_keys].
  - now intros [= <-].
  - destruct (py_get data k) as [perf|e]; [|discriminate]. cbn [bind].
    destruct perf as [| | | | |items|items]; try now apply IH.
    + destruct (perf_list_items items r) as [r1|e] eqn:Hp; [|discriminate].
      cbn [bind]. apply perf_list_items_keyed in Hp; [|exact Hr].
      destruct (nonempty r1); [now intros [= <-]|now apply IH].
    + destruct (perf_dict_items items r) as [r1|e] eqn:Hp; [|discriminate].
      cbn [bind]. apply perf_dict_items_keyed in Hp; [|exact Hr].
      destruct (nonempty r1); [now intros [= <-]|now apply IH].
Qed.

Lemma html_row_returns_keyed (headers : list pystr) :
  forall i cells (r : pydict F),
    period_keyed r -> period_keyed (html_row_returns U headers i cells r).
Proof.
  induction headers as [|h headers IH]; intros i cells r Hr; cbn [html_row_returns];
    [exact Hr|].
  apply IH. destruct (dict_get LABEL_MAP_HTML h) as [mapped|] eqn:Hm; [|exact Hr].
  destruct (nonempty mapped && _)%bool; [|exact Hr].
  destruct (f_parse _); [|exact Hr].
  apply period_keyed_set; [exact Hr|].
  apply dict_get_in in Hm. now apply (label_html_values h).
Qed.

Lemma html_tables_keyed (tables : list (list pystr * list (list pystr))) :
  forall r : pydict F,
    period_keyed r ->
    period_keyed (fold_left (fun r t => html_table_returns U t r) tables r).
Proof.
  induction tables as [|t tables IH]; intros r Hr; cbn [fold_left]; [exact Hr|].
  apply IH. unfold html_table_returns.
  generalize (map (lower U) (fst t)) as headers. intros headers.
  revert r Hr. induction (snd t) as [|cells rows IHr]; intros r Hr; cbn [fold_left];
    [exact Hr|].
  apply IHr. destruct cells; [exact Hr|now apply html_row_returns_keyed].
Qed.

Lemma pct_change_rounded (series : Series F) days v :
  pct_change series days = Ok (Some v) -> exists x, v = f_round 1 x.
Proof.
  unfold pct_change. destruct (last_obs series) as [[d e]|]; [|discriminate].
  destruct (timedelta days) as [delta|ex]; [|discriminate]. cbn [bind].
  destruct (timestamp_sub d delta) as [c|ex]; [|discriminate]. cbn [bind].
  destruct (window series c) as [|[d0 s] w]; [discriminate|].
  destruct (f_eqb s (f_lit 0)); [discriminate|]. intros [= <-]. now eexists.
Qed.

(** The loop of the price-history tier over [PERIOD_DAYS]: it completes
    exactly when no percent change raises, and then holds the changes
    that are not None. *)
Lemma yf_loop_ok (close : Series F) (kvs : list (pystr * Z)) :
  forall acc,
    ok (yf_returns_loop close kvs acc)
    = forallb (fun kv => ok (pct_change close (snd kv))) kvs.
Proof.
  induction kvs as [|[k d] kvs IH]; intros acc; cbn [yf_returns_loop forallb snd];
    [reflexivity|].
  destruct (pct_change close d) as [v|ex]; cbn [bind ok andb]; [apply IH|reflexivity].
Qed.

Lemma yf_loop_get (close : Series F) (kvs : list (pystr * Z)) :
  NoDup (map fst kvs) ->
  forall acc returns label,
    yf_returns_loop close kvs acc = Ok returns ->
    dict_get returns label
    = match dict_get kvs label with
      | Some days => match pct_change close days with
                     | Ok (Some v) => Some v
                     | _ => dict_get acc label
                     end
      | None => dict_get acc label
      end.
Proof.
  induction kvs as [|[k d] kvs IH]; intros Hnd acc returns label;
    cbn [yf_returns_loop dict_get].
  - now intros [= <-].
  - cbn [map fst] in Hnd. inversion Hnd as [|? ? Hk Hnd']; subst.
    destruct (pct_change close d) as [v|ex] eqn:Hp; [|discriminate]. cbn [bind].
    intros Hloop. rewrite (IH Hnd' _ _ label Hloop).
    destruct (pystr_eqb k label) eqn:E.
    + apply pystr_eqb_eq in E. subst label.
      assert (Hnone : dict_get kvs k = None) by now apply dict_get_none.
      rewrite Hnone, Hp. destruct v as [x|]; [apply dict_get_set_same|reflexivity].
    + apply pystr_eqb_neq in E.
      assert (Hsame : dict_get (match v with
                                | Some x => dict_set acc k x
                                | None => acc
                                end) label = dict_get acc label).
      { destruct v as [x|]; [now apply dict_get_set_other|reflexivity]. }
      rewrite Hsame. reflexivity.
Qed.

Lemma yf_loop_keyed (close : Series F) (kvs : list (pystr * Z)) :
  (forall k d, In (k, d) kvs -> In k PERIODS) ->
  forall acc returns,
    period_keyed acc ->
    yf_returns_loop close kvs acc = Ok returns ->
    period_keyed returns.
Proof.
  induction kvs as [|[k d] kvs IH]; intros Hk acc returns Hacc; cbn [yf_returns_loop].
  - now intros [= <-].
  - destruct (pct_change close d) as [v|ex] eqn:Hp; [|discriminate]. cbn [bind].
    apply IH; [intros k' d' Hin; apply (Hk k' d'); now right|].
    destruct v as [x|]; [|exact Hacc].
    destruct (pct_change_rounded close d x Hp) as [y ->].
    apply period_keyed_set; [exact Hacc|]. apply (Hk k d). now left.
Qed.

Lemma period_days_labels k d : In (k, d) PERIOD_DAYS -> In k PERIODS.
Proof.
  unfold PERIOD_DAYS. cbn [In].
  intros Hin. repeat (destruct Hin as [[= <- <-]|Hin]; [cbn; tauto|]).
  destruct Hin.
Qed.

Lemma fetch_etf_returns_yf_keyed (etf : pystr) :
  period_keyed (fetch_etf_returns_yf W etf).
Proof.
  unfold fetch_etf_returns_yf.
  destruct (dict_get ETF_YF_TICKERS etf) as [t|]; [|apply period_keyed_nil].
  destruct (negb (nonempty t)); [apply period_keyed_nil|].
  destruct (yf_history W t) as [[|o close]|e]; try apply period_keyed_nil.
  destruct (yf_returns_loop (o :: close) PERIOD_DAYS []) as [returns|ex] eqn:Hl;
    [|apply period_keyed_nil].
  apply (yf_loop_keyed (o :: close) PERIOD_DAYS period_days_labels [] returns);
    [apply period_keyed_nil|exact Hl].
Qed.

(** X13. Whichever tier answers, the returns of an ETF are keyed by the
    six period labels only, no label twice, and every value is a number
    rounded to one decimal. *)
Theorem etf_returns_period_keyed (etf isin : pystr) (r : pydict F) :
  fetch_etf_returns_api U W etf isin = Ok r -> period_keyed r.
Proof.
  unfold fetch_etf_returns_api.
  destruct (api_returns W isin) as [data|e];
    [|intros [= <-]; apply period_keyed_nil].
  destruct (scan_keys data RETURNS_KEYS []) as [r0|e] eqn:Hs; [|discriminate].
  cbn [bind]. apply scan_keys_keyed in Hs; [|apply period_keyed_nil].
  destruct r0 as [|kv r0]; [|now intros [= <-]].
  intros [= <-]. unfold fetch_etf_returns_html.
  destruct (page_returns W isin) as [tables|e]; [|apply period_keyed_nil].
  pose proof (html_tables_keyed tables [] period_keyed_nil) as Ht.
  destruct (fold_left (fun r t => html_table_returns U t r) tables []) as [|kv r1];
    [apply fetch_etf_returns_yf_keyed|exact Ht].
Qed.

(** X14. The price-history tier: for an ETF with a ticker and a
    non-empty history, when no percent change raises, the value stored
    under a period label is the percent change of the closing prices over
    the days of that period, and a label is absent exactly when that
    change is undefined; labels other than the six are never present.
    When a percent change raises, the result is empty. *)
Theorem fetch_etf_returns_yf_values (etf yf_ticker : pystr) (close : Series F)
    (label : pystr) :
  dict_get ETF_YF_TICKERS etf = Some yf_ticker ->
  yf_history W yf_ticker = Ok close ->
  close <> [] ->
  dict_get (fetch_etf_returns_yf W etf) label
  = if forallb (fun kv => ok (pct_change close (snd kv))) PERIOD_DAYS
    then match dict_get PERIOD_DAYS label with
         | Some days => match pct_change close days with
                        | Ok v => v
                        | Raise _ => None
                        end
         | None => None
         end
    else None.
Proof.
  intros Ht Hh Hne. unfold fetch_etf_returns_yf. rewrite Ht.
  assert (Hnon : nonempty yf_ticker = true).
  { apply dict_get_in in Ht. unfold ETF_YF_TICKERS in Ht. cbn [In] in Ht.
    repeat (destruct Ht as [[= <- <-]|Ht]; [reflexivity|]). destruct Ht. }
  rewrite Hnon, Hh. cbn [negb].
  destruct close as [|o close]; [congruence|].
  rewrite <- (yf_loop_ok (o :: close) PERIOD_DAYS []).
  destruct (yf_returns_loop (o :: close) PERIOD_DAYS []) as [returns|ex] eqn:Hl;
    cbn [ok]; [|reflexivity].
  rewrite (yf_loop_get (o :: close) PERIOD_DAYS) with (acc := []) (returns := returns);
    [|apply distinct_nodup; vm_compute; reflexivity|exact Hl].
  destruct (dict_get PERIOD_DAYS label) as [days|]; [|reflexivity].
  destruct (pct_change (o :: close) days) as [[v|]|ex']; reflexivity.
Qed.

End EtfReturnsFacts.

Lemma etf_returns_period_keyed_witness :
  period_keyed [(lit "1Y", 50%Q)].
Proof.
  apply (etf_returns_period_keyed ascii_only
           (servlet_world (Ok payload_performance) (Ok one_row_page))
           (lit "XUTC") (lit "IE00BGQYRS42")).
  vm_compute. reflexivity.
Defined.

Lemma fetch_etf_returns_yf_values_witness :
  dict_get (fetch_etf_returns_yf history_world (lit "XUTC")) (lit "1Y")
  = Some (333 # 10)%Q.
Proof.
  refine (eq_trans
            (fetch_etf_returns_yf_values history_world (lit "XUTC") (lit "XUTC.L")
               example_series (lit "1Y") _ _ _) _).
  - reflexivity.
  - reflexivity.
  - discriminate.
  - vm_compute. reflexivity.
Defined.

(** ** The run: what is collected and what is written *)

Lemma dict_get_pop_other {V} (d : pydict V) k k' :
  k <> k' -> dict_get (dict_pop d k) k' = dict_get d k'.
Proof.
  intros Hne. induction d as [|[k0 v0] d IH]; cbn [dict_pop dict_get]; [reflexivity|].
  destruct (pystr_eqb k0 k) eqn:E.
  - apply pystr_eqb_eq in E. subst k0. apply pystr_eqb_neq in Hne. now rewrite Hne.
  - cbn [dict_get]. now rewrite IH.
Qed.

Lemma dict_of_lookups {V} (g : pystr -> V) (d : pydict V) :
  NoDup (dict_keys d) ->
  (forall k, In k (dict_keys d) -> dict_get d k = Some (g k)) ->
  d = map (fun k => (k, g k)) (dict_keys d).
Proof.
  induction d as [|[k0 v0] d IH]; intros Hnd Hget; [reflexivity|].
  cbn [dict_keys map fst] in *. inversion Hnd as [|? ? Hk0 Hnd']; subst.
  f_equal.
  - pose proof (Hget k0 (or_introl eq_refl)) as H0. cbn [dict_get] in H0.
    rewrite pystr_eqb_refl in H0. congruence.
  - apply IH; [exact Hnd'|]. intros k Hk.
    pose proof (Hget k (or_intror Hk)) as Hg. cbn [dict_get] in Hg.
    destruct (pystr_eqb k0 k) eqn:E; [|exact Hg].
    apply pystr_eqb_eq in E. subst k. contradiction.
Qed.

Lemma dict_set_fresh {V} (acc : pydict V) k v :
  ~ In k (dict_keys acc) -> dict_set acc k v = acc ++ [(k, v)].
Proof.
  intros Hk. induction acc as [|[k0 v0] acc IHa]; [reflexivity|].
  cbn [dict_set app]. destruct (pystr_eqb k0 k) eqn:E.
  - apply pystr_eqb_eq in E. subst k0. contradiction Hk. now left.
  - f_equal. apply IHa. intros Hin. apply Hk. now right.
Qed.

Section MainFacts.
Context {F : Type} `{PyFloat F}.
Variable U : Unicode.
Variable W : World F.

Lemma fetch_stock_get (tickers : list pystr) (t : pystr) :
  let yf := replace (lit "BRK_B") (lit "BRK-B") in
  let raw := match yf_download W (map yf tickers) with
             | Ok d => Some d
             | Raise _ => None
             end in
  dict_get (fetch_stock_returns W tickers) t
  = if in_dec pystr_eq_dec t tickers
    then Some (ticker_entry W raw (List.length (map yf tickers)) (yf t))
    else None.
Proof.
  intros yf raw. unfold fetch_stock_returns.
  exact (fold_dict_set_get yf (ticker_entry W raw (List.length (map yf tickers)))
           tickers [] t).
Qed.

(** The loop of one ticker over the periods: it completes exactly when
    no percent change raises, and then lists the labels in order, each
    with its percent change. *)
Lemma period_returns_ok (series : Series F) (kvs : list (pystr * Z)) :
  forall acc,
    ok (period_returns series kvs acc)
    = forallb (fun kv => ok (pct_change series (snd kv))) kvs.
Proof.
  induction kvs as [|[k d] kvs IH]; intros acc; cbn [period_returns forallb snd];
    [reflexivity|].
  destruct (pct_change series d) as [v|ex]; cbn [bind ok andb]; [apply IH|reflexivity].
Qed.

Lemma period_returns_value (series : Series F) (kvs : list (pystr * Z)) :
  forall acc rets,
    NoDup (dict_keys acc ++ map fst kvs) ->
    period_returns series kvs acc = Ok rets ->
    rets = acc ++ map (fun '(label, days) =>
                         (label, match pct_change series days with
                                 | Ok v => v
                                 | Raise _ => None
                                 end)) kvs.
Proof.
  induction kvs as [|[k d] kvs IH]; intros acc rets Hnd; cbn [period_returns map].
  - intros [= <-]. now rewrite app_nil_r.
  - destruct (pct_change series d) as [v|ex]; [|discriminate]. cbn [bind].
    assert (Hk : ~ In k (dict_keys acc)).
    { cbn [map fst] in Hnd. apply NoDup_remove_2 in Hnd.
      intros Hin. apply Hnd. apply in_or_app. now left. }
    rewrite (dict_set_fresh acc k v Hk). intros Hloop.
    assert (Hnd' : NoDup (dict_keys (acc ++ [(k, v)]) ++ map fst kvs)).
    { unfold dict_keys. rewrite map_app. cbn [map fst]. rewrite <- app_assoc.
      exact Hnd. }
    rewrite (IH _ _ Hnd' Hloop). now rewrite <- app_assoc.
Qed.

(** X15. A ticker whose price series is obtained and is not empty gets
    the six period labels, in the order of [PERIOD_DAYS], each with the
    percent change of that series over the days of the period; if a
    percent change raises, every label gets None. *)
Theorem stock_entry_values (tickers : list pystr) (t : pystr) (series : Series F) :
  let yf := replace (lit "BRK_B") (lit "BRK-B") in
  let raw := match yf_download W (map yf tickers) with
             | Ok d => Some d
             | Raise _ => None
             end in
  In t tickers ->
  ticker_series W raw (List.length (map yf tickers)) (yf t) = Ok series ->
  series <> [] ->
  dict_get (fetch_stock_returns W tickers) t
  = Some (if forallb (fun kv => ok (pct_change series (snd kv))) PERIOD_DAYS
          then map (fun '(label, days) =>
                      (label, match pct_change series days with
                              | Ok v => v
                              | Raise _ => None
                              end)) PERIOD_DAYS
          else all_missing).
Proof.
  intros yf raw Hin Hser Hne.
  pose proof (fetch_stock_get tickers t) as Hg. cbv zeta in Hg. rewrite Hg.
  destruct (in_dec pystr_eq_dec t tickers) as [_|Hn]; [|contradiction].
  f_equal. unfold ticker_entry, ticker_returns. fold yf. fold raw. rewrite Hser.
  cbn [bind]. destruct series as [|o series]; [congruence|].
  rewrite <- (period_returns_ok (o :: series) PERIOD_DAYS []).
  destruct (period_returns (o :: series) PERIOD_DAYS []) as [rets|ex] eqn:Hl;
    cbn [ok]; [|reflexivity].
  apply (period_returns_value (o :: series) PERIOD_DAYS [] rets); [|exact Hl].
  apply distinct_nodup. vm_compute. reflexivity.
Qed.

Lemma canonical_key_cases k :
  In k CANONICAL_STOCK_KEYS ->
  k = lit "BRK_B" \/ (k <> lit "BRK_B" /\ k <> lit "BRK-B" /\ In k STOCK_TICKERS).
Proof.
  unfold CANONICAL_STOCK_KEYS. rewrite in_app_iff. intros [Hin|[<-|[]]]; [|now left].
  apply filter_In in Hin as [Hin Hne].
  destruct (pystr_eq_dec k (lit "BRK_B")) as [->|Hk]; [now left|].
  right. repeat split; [exact Hk| |exact Hin].
  intros ->. now rewrite pystr_eqb_refl in Hne.
Qed.

(** X16. After the renaming in [main], every key of the stock returns
    holds the entry computed for its price-service ticker: BRK_B holds
    the entry of BRK-B, every other key that of the ticker itself. *)
Theorem main_stock_entries (k : pystr) :
  let yf := replace (lit "BRK_B") (lit "BRK-B") in
  let raw := match yf_download W (map yf STOCK_TICKERS) with
             | Ok d => Some d
             | Raise _ => None
             end in
  In k CANONICAL_STOCK_KEYS ->
  dict_get (main_stock_returns W) k
  = Some (ticker_entry W raw (List.length (map yf STOCK_TICKERS)) (yf k)).
Proof.
  intros yf raw Hk. unfold main_stock_returns.
  pose proof (fetch_stock_get STOCK_TICKERS) as Hg. cbv zeta in Hg.
  fold yf in Hg. fold raw in Hg.
  rewrite (Hg (lit "BRK-B")).
  destruct (in_dec pystr_eq_dec (lit "BRK-B") STOCK_TICKERS) as [_|Hn].
  - destruct (canonical_key_cases k Hk) as [->|(Hk1 & Hk2 & Hin)].
    + rewrite dict_get_set_same. reflexivity.
    + rewrite dict_get_set_other by congruence.
      rewrite dict_get_pop_other by congruence.
      rewrite (Hg k).
      destruct (in_dec pystr_eq_dec k STOCK_TICKERS) as [_|Hn]; [reflexivity|contradiction].
  - contradiction Hn. apply existsb_pystr_eqb. vm_compute. reflexivity.
Qed.

Lemma main_etf_loop_get (etfs : pydict pystr) :
  NoDup (dict_keys etfs) ->
  forall hb rb hb' rb',
    main_etf_loop U W etfs hb rb = Ok (hb', rb') ->
    forall etf,
      dict_get hb' etf
      = match dict_get etfs etf with
        | Some isin =>
            match fetch_holdings_api U W isin 15 with
            | Ok (Some (x :: l)) => Some (x :: l)
            | _ => dict_get hb etf
            end
        | None => dict_get hb etf
        end
      /\ dict_get rb' etf
         = match dict_get etfs etf with
           | Some isin =>
               match fetch_etf_returns_api U W etf isin with
               | Ok (x :: l) => Some (x :: l)
               | _ => dict_get rb etf
               end
           | None => dict_get rb etf
           end.
Proof.
  induction etfs as [|[e i] etfs IH]; intros Hnd hb rb hb' rb'; cbn [main_etf_loop].
  - intros [= <- <-] etf. now split.
  - cbn [dict_keys map fst] in Hnd. inversion Hnd as [|? ? He Hnd']; subst.
    destruct (fetch_holdings_api U W i 15) as [h|ex] eqn:Hh; [|discriminate].
    cbn [bind]. destruct (fetch_etf_returns_api U W e i) as [r|ex] eqn:Hr; [|discriminate].
    cbn [bind]. intros Hloop etf. destruct (IH Hnd' _ _ _ _ Hloop etf) as [IHh IHr].
    rewrite IHh, IHr. cbn [dict_get]. destruct (pystr_eqb e etf) eqn:E.
    + apply pystr_eqb_eq in E. subst etf.
      assert (Hnone : dict_get etfs e = None) by now apply dict_get_none.
      rewrite Hnone, Hh, Hr. split.
      * destruct h as [[|x l]|]; try reflexivity. apply dict_get_set_same.
      * destruct r as [|x l]; [reflexivity|apply dict_get_set_same].
    + apply pystr_eqb_neq in E. split.
      * assert (Hsame : dict_get (match h with
                                  | Some (x :: l) => dict_set hb e (x :: l)
                                  | _ => hb
                                  end) etf = dict_get hb etf).
        { destruct h as [[|x l]|]; try reflexivity. now apply dict_get_set_other. }
        rewrite Hsame. reflexivity.
      * assert (Hsame : dict_get (match r with
                                  | [] => rb
                                  | _ :: _ => dict_set rb e r
                                  end) etf = dict_get rb etf).
        { destruct r as [|x l]; [reflexivity|now apply dict_get_set_other]. }
        rewrite Hsame. reflexivity.
Qed.

(** X17. When the loop over the ETFs completes, an ETF has holdings
    exactly when its holdings fetcher gave a non-empty list, and returns
    exactly when its returns fetcher gave a non-empty dictionary; the
    stored values are those results, and no other key is present. *)
Theorem main_etf_loop_entries
    (hb : pydict (list (Holding F))) (rb : pydict (pydict F)) (etf : pystr) :
  main_etf_loop U W ETF_ISINS [] [] = Ok (hb, rb) ->
  dict_get hb etf
  = match dict_get ETF_ISINS etf with
    | Some isin =>
        match fetch_holdings_api U W isin 15 with
        | Ok (Some (x :: l)) => Some (x :: l)
        | _ => None
        end
    | None => None
    end
  /\ dict_get rb etf
     = match dict_get ETF_ISINS etf with
       | Some isin =>
           match fetch_etf_returns_api U W etf isin with
           | Ok (x :: l) => Some (x :: l)
           | _ => None
           end
       | None => None
       end.
Proof.
  intros Hloop.
  assert (Hnd : NoDup (dict_keys ETF_ISINS)) by (apply distinct_nodup; vm_compute; reflexivity).
  exact (main_etf_loop_get ETF_ISINS Hnd [] [] hb rb Hloop etf).
Qed.

Lemma main_etf_loop_ok (etfs : pydict pystr) :
  forall hb rb,
    ok (main_etf_loop U W etfs hb rb)
    = forallb (fun ei => ok (fetch_holdings_api U W (snd ei) 15)
                         && ok (fetch_etf_returns_api U W (fst ei) (snd ei))) etfs.
Proof.
  induction etfs as [|[e i] etfs IH]; intros hb rb; cbn [main_etf_loop forallb fst snd];
    [reflexivity|].
  destruct (fetch_holdings_api U W i 15) as [h|ex]; cbn [bind ok andb]; [|reflexivity].
  destruct (fetch_etf_returns_api U W e i) as [r|ex]; cbn [bind ok andb]; [|reflexivity].
  apply IH.
Qed.

(** X18. No fetcher failure is caught by [main]: when the holdings or
    the returns fetcher of one ETF raises, the run ends with that
    exception and no text is written, whatever the other fetchers and
    the stock download gave. *)
Theorem main_aborts_when_a_fetcher_raises (html today_str etf isin : pystr) :
  In (etf, isin) ETF_ISINS ->
  (ok (fetch_holdings_api U W isin 15)
   && ok (fetch_etf_returns_api U W etf isin))%bool = false ->
  ok (main U W html today_str) = false.
Proof.
  intros Hin Hbad. unfold main.
  destruct (main_etf_loop U W ETF_ISINS [] []) as [hr|e] eqn:Hloop; [|reflexivity].
  exfalso.
  pose proof (main_etf_loop_ok ETF_ISINS [] []) as Hok. rewrite Hloop in Hok.
  cbn [ok] in Hok. symmetry in Hok.
  pose proof (proj1 (forallb_forall _ _) Hok (etf, isin) Hin) as Hone.
  cbn [fst snd] in Hone. congruence.
Qed.

Lemma main_etf_loop_offline (etfs : pydict pystr) :
  (forall isin, raises (api_holdings W isin)) ->
  (forall isin, raises (api_returns W isin)) ->
  main_etf_loop U W etfs [] [] = Ok ([], []).
Proof.
  intros Hh Hr. induction etfs as [|[e i] etfs IH]; cbn [main_etf_loop]; [reflexivity|].
  unfold fetch_holdings_api, fetch_etf_returns_api.
  destruct (Hh i) as [ex ->]. destruct (Hr i) as [ex' ->]. cbn [bind]. exact IH.
Qed.

(** X19. A run in which every request fails still rewrites the stock
    returns: the holdings and ETF-returns blocks are left alone, but the
    stock block is replaced by one with null for every ticker and
    period. *)
Theorem offline_run_blanks_stock_returns (html today_str : pystr) :
  (forall isin, raises (api_holdings W isin)) ->
  (forall isin, raises (api_returns W isin)) ->
  (forall ts, raises (yf_download W ts)) ->
  (forall t, raises (yf_history W t)) ->
  main U W html today_str
  = patch_html U html None None
      (Some (map (fun k => (k, all_missing)) CANONICAL_STOCK_KEYS)) today_str.
Proof.
  intros Hh Hr Hd Hy. unfold main.
  rewrite (main_etf_loop_offline ETF_ISINS Hh Hr). cbn [bind fst snd or_none].
  assert (Hstock : main_stock_returns W
                   = map (fun k => (k, all_missing)) CANONICAL_STOCK_KEYS).
  { rewrite <- (main_stock_keys W).
    apply (dict_of_lookups (fun _ => all_missing)).
    - rewrite main_stock_keys. exact main_stock_keys_nodup.
    - intros k Hk. rewrite main_stock_keys in Hk.
      pose proof (main_stock_entries k) as He. cbv zeta in He. rewrite (He Hk).
      f_equal. unfold ticker_entry, ticker_returns, ticker_series.
      destruct (Hd (map (replace (lit "BRK_B") (lit "BRK-B")) STOCK_TICKERS)) as [ex ->].
      destruct (Hy (replace (lit "BRK_B") (lit "BRK-B") k)) as [ex' ->].
      reflexivity. }
  rewrite Hstock.
  assert (Hsome : forall A (l : list A), l <> [] -> or_none l = Some l).
  { intros A [|a l] Hl; [congruence|reflexivity]. }
  rewrite Hsome; [reflexivity|].
  unfold CANONICAL_STOCK_KEYS. rewrite map_app. cbn [map].
  intros Heq. symmetry in Heq. exact (app_cons_not_nil _ _ _ Heq).
Qed.

End MainFacts.

Lemma stock_entry_values_witness :
  dict_get (fetch_stock_returns offline_world [lit "AAA"; lit "BBB"]) (lit "AAA")
  = Some [(lit "1M", Some 0%Q); (lit "3M", Some 0%Q); (lit "6M", Some 0%Q);
          (lit "1Y", Some (333 # 10)%Q); (lit "3Y", Some (100 # 1)%Q);
          (lit "5Y", Some (100 # 1)%Q)].
Proof.
  refine (eq_trans
            (stock_entry_values offline_world [lit "AAA"; lit "BBB"] (lit "AAA")
               example_series _ _ _) _).
  - left. reflexivity.
  - vm_compute. reflexivity.
  - discriminate.
  - vm_compute. reflexivity.
Defined.

Lemma main_stock_entries_witness :
  dict_get (main_stock_returns offline_world) (lit "BRK_B") = Some all_missing.
Proof.
  refine (eq_trans (main_stock_entries offline_world (lit "BRK_B") _) _).
  - unfold CANONICAL_STOCK_KEYS. apply in_or_app. right. left. reflexivity.
  - vm_compute. reflexivity.
Defined.

Lemma main_etf_loop_entries_witness :
  let W := servlet_world (Ok (JDict payload_one_holding)) (Ok one_row_page) in
  dict_get (map (fun etf => (etf, [apple_holding])) ETFS) (lit "XUTC")
  = match dict_get ETF_ISINS (lit "XUTC") with
    | Some isin =>
        match fetch_holdings_api ascii_only W isin 15 with
        | Ok (Some (x :: l)) => Some (x :: l)
        | _ => None
        end
    | None => None
    end
  /\ dict_get (@nil (pystr * pydict Q)) (lit "XUTC")
     = match dict_get ETF_ISINS (lit "XUTC") with
       | Some isin =>
           match fetch_etf_returns_api ascii_only W (lit "XUTC") isin with
           | Ok (x :: l) => Some (x :: l)
           | _ => None
           end
       | None => None
       end.
Proof.
  apply (main_etf_loop_entries ascii_only
           (servlet_world (Ok (JDict payload_one_holding)) (Ok one_row_page))).
  vm_compute. reflexivity.
Defined.

Lemma main_aborts_when_a_fetcher_raises_witness :
  ok (main ascii_only (servlet_world (Ok payload_bad_weight) (Ok one_row_page))
        (lit "const RAW_HOLDINGS = { };") (lit "Jan 01, 2024")) = false.
Proof.
  apply (main_aborts_when_a_fetcher_raises ascii_only
           (servlet_world (Ok payload_bad_weight) (Ok one_row_page))
           (lit "const RAW_HOLDINGS = { };") (lit "Jan 01, 2024")
           (lit "XUTC") (lit "IE00BGQYRS42")).
  - left. reflexivity.
  - vm_compute. reflexivity.
Defined.

Lemma offline_run_blanks_stock_returns_witness :
  let W := servlet_world (Raise RequestError) (Raise RequestError) in
  main ascii_only W (lit "const HOLDING_RETURNS = { };") (lit "Jan 01, 2024")
  = patch_html ascii_only (lit "const HOLDING_RETURNS = { };") None None
      (Some (map (fun k => (k, all_missing)) CANONICAL_STOCK_KEYS))
      (lit "Jan 01, 2024").
Proof.
  apply (offline_run_blanks_stock_returns ascii_only
           (servlet_world (Raise RequestError) (Raise RequestError))).
  - intros isin. eexists. reflexivity.
  - intros isin. eexists. reflexivity.
  - intros ts. eexists. reflexivity.
  - intros t. eexists. reflexivity.
Defined.

(** ** The date pattern and the keys of the stock block *)

Section DateFacts.
Variable U : Unicode.

(** A greedy repetition that can take all of [pre] and must stop there
    continues behind [pre]. *)
Lemma greedy_all (a : atom) (k : pystr -> option pystr) (pre s : pystr) :
  forallb (atom_ok a) pre = true ->
  match s with c :: _ => atom_ok a c = false | [] => True end ->
  k s <> None ->
  greedy a k (pre ++ s) = k s.
Proof.
  intros Hpre Hstop Hk. induction pre as [|c pre IH]; cbn [app].
  - destruct s as [|c s]; cbn [greedy]; [reflexivity|now rewrite Hstop].
  - cbn [forallb] in Hpre. apply andb_prop in Hpre as [Hc Hpre].
    cbn [greedy]. rewrite Hc, (IH Hpre).
    destruct (k s); [reflexivity|congruence].
Qed.

Lemma date_re_match (tail_re : regex) (month day year rest : pystr) :
  month <> [] -> forallb (is_word U) month = true ->
  day <> [] -> forallb (is_decimal U) day = true ->
  List.length year = 4%nat -> forallb (is_decimal U) year = true ->
  re_match tail_re rest <> None ->
  re_match (date_re U ++ tail_re)
           (month ++ lit " " ++ day ++ lit ", " ++ year ++ rest)
  = re_match tail_re rest.
Proof.
  intros Hm Hmw Hd Hdd Hy Hyd Htail.
  destruct year as [|y1 [|y2 [|y3 [|y4 [|y5 year]]]]]; try discriminate.
  cbn [forallb] in Hyd.
  apply andb_prop in Hyd as [Hy1 Hyd]. apply andb_prop in Hyd as [Hy2 Hyd].
  apply andb_prop in Hyd as [Hy3 Hyd]. apply andb_prop in Hyd as [Hy4 _].
  assert (Hyear : re_match ([One (Chr 44); One (Chr 32);
                             One (Cls (is_decimal U)); One (Cls (is_decimal U));
                             One (Cls (is_decimal U)); One (Cls (is_decimal U))]
                            ++ tail_re)
                           (lit ", " ++ [y1; y2; y3; y4] ++ rest)
                  = re_match tail_re rest).
  { cbn [lit app re_match atom_ok]. cbn -[re_match is_decimal].
    now rewrite Hy1, Hy2, Hy3, Hy4. }
  destruct day as [|d ds]; [congruence|]. cbn [forallb] in Hdd.
  apply andb_prop in Hdd as [Hd1 Hds].
  assert (Hday : re_match ([One (Chr 32); Plus (Cls (is_decimal U));
                            One (Chr 44); One (Chr 32);
                            One (Cls (is_decimal U)); One (Cls (is_decimal U));
                            One (Cls (is_decimal U)); One (Cls (is_decimal U))]
                           ++ tail_re)
                          (lit " " ++ (d :: ds) ++ lit ", " ++ [y1; y2; y3; y4] ++ rest)
                 = re_match tail_re rest).
  { change (lit " " ++ (d :: ds) ++ lit ", " ++ [y1; y2; y3; y4] ++ rest)
      with (32%N :: d :: ds ++ lit ", " ++ [y1; y2; y3; y4] ++ rest).
    cbn [app re_match atom_ok]. rewrite N.eqb_refl, Hd1.
    rewrite greedy_all; [exact Hyear|exact Hds|reflexivity|].
    change (re_match
              ([One (Chr 44); One (Chr 32);
                One (Cls (is_decimal U)); One (Cls (is_decimal U));
                One (Cls (is_decimal U)); One (Cls (is_decimal U))] ++ tail_re)
              (lit ", " ++ [y1; y2; y3; y4] ++ rest) <> None).
    now rewrite Hyear. }
  destruct month as [|m ms]; [congruence|]. cbn [forallb] in Hmw.
  apply andb_prop in Hmw as [Hm1 Hms].
  unfold date_re. cbn [app re_match atom_ok]. rewrite Hm1.
  rewrite greedy_all; [exact Hday|exact Hms|reflexivity|].
  change (re_match
            ([One (Chr 32); Plus (Cls (is_decimal U));
              One (Chr 44); One (Chr 32);
              One (Cls (is_decimal U)); One (Cls (is_decimal U));
              One (Cls (is_decimal U)); One (Cls (is_decimal U))] ++ tail_re)
            (lit " " ++ (d :: ds) ++ lit ", " ++ [y1; y2; y3; y4] ++ rest) <> None).
  now rewrite Hday.
Qed.

(** X20. The date annotations that a run writes are found again by the
    next run: a label followed by a date of the shape of
    [strftime("%b %d, %Y")] (a word, a space, digits, a comma and a
    space, four digits) is matched in full by the pattern of its
    annotation, whatever text follows. *)
Theorem written_dates_match_again (month day year rest : pystr) :
  month <> [] -> forallb (is_word U) month = true ->
  day <> [] -> forallb (is_decimal U) day = true ->
  List.length year = 4%nat -> forallb (is_decimal U) year = true ->
  let date_str := month ++ lit " " ++ day ++ lit ", " ++ year in
  re_match (COMPILED_RE U) ((COMPILED_LABEL ++ date_str) ++ rest) = Some rest
  /\ re_match (AS_OF_RE U) ((AS_OF_LABEL ++ date_str ++ lit ".") ++ rest) = Some rest.
Proof.
  intros Hm Hmw Hd Hdd Hy Hyd date_str. unfold date_str, COMPILED_RE, AS_OF_RE. split.
  - rewrite re_match_lit, <- app_assoc, strip_prefix_app.
    rewrite <- (app_nil_r (date_re U)), <- !app_assoc.
    rewrite (date_re_match [] month day year rest Hm Hmw Hd Hdd Hy Hyd);
      [reflexivity|discriminate].
  - rewrite re_match_lit, <- app_assoc, strip_prefix_app, <- !app_assoc.
    rewrite (date_re_match [One (Chr 46)] month day year (lit "." ++ rest)
               Hm Hmw Hd Hdd Hy Hyd); [reflexivity|discriminate].
Qed.

(** ** Keys *)

Lemma strip_underscores_alnum (t : pystr) :
  forallb (is_alnum U) (flat_map (fun x => if N.eqb 95 x then [] else [x]) t)
  = forallb (is_word U) t.
Proof.
  induction t as [|c t IH]; [reflexivity|]. cbn [flat_map forallb].
  unfold is_word at 1. rewrite (N.eqb_sym c 95).
  destruct (N.eqb 95 c) eqn:E; cbn [app forallb].
  - now rewrite orb_true_r.
  - now rewrite orb_false_r, IH.
Qed.

Lemma strip_underscores_nonempty (t : pystr) :
  nonempty (flat_map (fun x => if N.eqb 95 x then [] else [x]) t)
  = existsb (fun c => negb (N.eqb c 95)) t.
Proof.
  induction t as [|c t IH]; [reflexivity|]. cbn [flat_map existsb].
  rewrite (N.eqb_sym c 95). destruct (N.eqb 95 c); cbn [app negb orb]; [exact IH|reflexivity].
Qed.

Lemma contains_dot_not_word (t : pystr) :
  contains (lit ".") t = true -> forallb (is_word U) t = false.
Proof.
  induction t as [|c t IH]; [discriminate|].
  cbn [lit contains strip_prefix forallb].
  change (contains [46%N] t) with (contains (lit ".") t).
  cbn -[contains is_word forallb N.eqb].
  destruct (N.eqb 46 c) eqn:E.
  - apply N.eqb_eq in E. subst c. reflexivity.
  - intros Hc. rewrite (IH Hc). apply andb_false_r.
Qed.

(** X21. A ticker is written as a bare key exactly when it consists of
    word characters only and not of underscores alone; every other
    ticker, the empty one included, is written between double quotes.
    The test for a dot in [js_holding_returns] never decides. *)
Theorem js_key_bare_iff_word_only (t : pystr) :
  js_key U t = (if word_only U t then t else QUOTE ++ t ++ QUOTE).
Proof.
  unfold js_key, word_only.
  change (lit "_") with [95%N]. rewrite replace_one_char.
  assert (Hal : isalnum U (flat_map (fun x => if N.eqb 95 x then [] else [x]) t)
                = forallb (is_word U) t && existsb (fun c => negb (N.eqb c 95)) t).
  { rewrite <- strip_underscores_alnum, <- strip_underscores_nonempty.
    unfold isalnum.
    destruct (flat_map (fun x => if N.eqb 95 x then [] else [x]) t);
      [reflexivity|]. cbn [nonempty]. now rewrite andb_true_r. }
  rewrite Hal. destruct (contains (lit ".") t) eqn:Hc.
  - now rewrite (contains_dot_not_word t Hc).
  - cbn [orb]. now destruct (forallb (is_word U) t && _).
Qed.

End DateFacts.

Lemma written_dates_match_again_witness :
  re_match (COMPILED_RE ascii_only)
           ((COMPILED_LABEL ++ lit "Nov 04, 2026") ++ lit " -->") = Some (lit " -->")
  /\ re_match (AS_OF_RE ascii_only)
              ((AS_OF_LABEL ++ lit "Nov 04, 2026" ++ lit ".") ++ lit "</p>")
     = Some (lit "</p>").
Proof.
  split.
  - apply (written_dates_match_again ascii_only (lit "Nov") (lit "04") (lit "2026")
             (lit " -->")); (reflexivity || discriminate).
  - apply (written_dates_match_again ascii_only (lit "Nov") (lit "04") (lit "2026")
             (lit "</p>")); (reflexivity || discriminate).
Defined.

(** ** The written blocks and the block patterns *)

Lemma lazy_re_lit (p x : pystr) :
  lazy Dot (re_match (re_lit p)) x = lazy Dot (strip_prefix p) x.
Proof.
  induction x as [|c x IH]; cbn [lazy atom_ok]; rewrite re_match_lit_only;
    [reflexivity|].
  destruct (strip_prefix p (c :: x)); [reflexivity|exact IH].
Qed.

Lemma prefix_within (p r X rest : pystr) :
  p ++ r = X ++ rest -> (List.length p <= List.length X)%nat ->
  exists tail, X = p ++ tail /\ r = tail ++ rest.
Proof.
  revert X. induction p as [|a p IH]; intros X Heq Hlen.
  - exists X. now split.
  - destruct X as [|b X]; [cbn in Hlen; lia|].
    cbn [app] in Heq. injection Heq as -> Heq. cbn [List.length] in Hlen.
    destruct (IH X Heq ltac:(lia)) as (tail & -> & ->). now exists tail.
Qed.

(** A lazy [.*?] in front of a literal, run on a text that ends with the
    literal, stops inside that text. *)
Lemma lazy_dot_prefix (p B rest : pystr) :
  exists body tail,
    B ++ p = body ++ p ++ tail
    /\ lazy Dot (strip_prefix p) (B ++ p ++ rest) = Some (tail ++ rest).
Proof.
  induction B as [|c B IH].
  - exists [], []. split; [now rewrite app_nil_r|]. cbn [app].
    destruct (p ++ rest) eqn:E; cbn [lazy]; rewrite <- E, strip_prefix_app; reflexivity.
  - cbn [app lazy atom_ok].
    destruct (strip_prefix p (c :: B ++ p ++ rest)) as [r|] eqn:Hp.
    + apply strip_prefix_some in Hp.
      destruct (prefix_within p r ((c :: B) ++ p) rest) as (tail & Ht & ->).
      * rewrite <- Hp, <- app_assoc. reflexivity.
      * rewrite length_app. lia.
      * exists [], tail. split; [exact Ht|reflexivity].
    + destruct IH as (body & tail & Hb & Hl).
      exists (c :: body), tail. split; [cbn [app]; now rewrite Hb|exact Hl].
Qed.

Lemma block_re_prefix (name B rest : pystr) :
  let block := (lit "const " ++ name ++ lit " = {") ++ B ++ CLOSE in
  exists matched tail,
    block = matched ++ tail
    /\ re_match (block_re name) (block ++ rest) = Some (tail ++ rest).
Proof.
  intros block. unfold block, block_re.
  destruct (lazy_dot_prefix CLOSE B rest) as (body & tail & Hb & Hl).
  exists ((lit "const " ++ name ++ lit " = {") ++ body ++ CLOSE), tail. split.
  - rewrite <- !app_assoc. do 3 f_equal. rewrite Hb. reflexivity.
  - rewrite re_match_lit, <- !app_assoc.
    replace (lit "const " ++ name ++ lit " = {" ++ B ++ CLOSE ++ rest)
      with ((lit "const " ++ name ++ lit " = {") ++ B ++ CLOSE ++ rest)
      by now rewrite <- !app_assoc.
    rewrite strip_prefix_app. cbn [app re_match]. rewrite lazy_re_lit. exact Hl.
Qed.

Lemma join_snoc (sep last : pystr) (mid : list pystr) :
  exists body, join sep (mid ++ [last]) = body ++ last.
Proof.
  induction mid as [|m mid IH]; [now exists []|].
  destruct IH as [body IH]. cbn [app].
  destruct (mid ++ [last]) as [|x l] eqn:E; [now destruct mid|].
  exists (m ++ sep ++ body). cbn [join]. cbn [join] in IH.
  rewrite IH, <- !app_assoc. reflexivity.
Qed.

Lemma join_framed (sep first last : pystr) (mid : list pystr) :
  exists B, join sep ([first] ++ mid ++ [last]) = first ++ B ++ last.
Proof.
  destruct (join_snoc sep last mid) as [body Hb]. cbn [app].
  destruct (mid ++ [last]) as [|x l] eqn:E; [now destruct mid|].
  exists (sep ++ body). cbn [join]. cbn [join] in Hb.
  rewrite Hb, <- !app_assoc. reflexivity.
Qed.

Section BlockFacts.
Context {F : Type} `{PyFloat F}.
Variable U : Unicode.

(** X22. Every block that a serializer writes is found again by the
    pattern of its region: the pattern matches at the start of the block
    and its match ends inside the block, at the first closing marker;
    the part of the block behind that marker, if any, is left over. *)
Theorem written_blocks_match_again (rest : pystr) :
  (forall d : pydict (list (Holding F)),
      exists matched tail,
        js_holdings d = matched ++ tail
        /\ re_match RAW_HOLDINGS_RE (js_holdings d ++ rest) = Some (tail ++ rest))
  /\ (forall d : pydict (pydict F),
         exists matched tail,
           js_etf_returns d = matched ++ tail
           /\ re_match ETF_RETURNS_RE (js_etf_returns d ++ rest) = Some (tail ++ rest))
  /\ (forall d : pydict (pydict (option F)),
         exists matched tail,
           js_holding_returns U d = matched ++ tail
           /\ re_match HOLDING_RETURNS_RE (js_holding_returns U d ++ rest)
              = Some (tail ++ rest)).
Proof.
  repeat split; intros d.
  - assert (HB : exists B, js_holdings d = lit "const RAW_HOLDINGS = {" ++ B ++ lit "};")
      by (unfold js_holdings; apply join_framed).
    destruct HB as [B ->].
    exact (block_re_prefix (lit "RAW_HOLDINGS") B rest).
  - assert (HB : exists B, js_etf_returns d = lit "const ETF_RETURNS = {" ++ B ++ lit "};")
      by (unfold js_etf_returns; apply join_framed).
    destruct HB as [B ->].
    exact (block_re_prefix (lit "ETF_RETURNS") B rest).
  - assert (HB : exists B, js_holding_returns U d = lit "const HOLDING_RETURNS = {" ++ B ++ lit "};")
      by (unfold js_holding_returns; apply join_framed).
    destruct HB as [B ->].
    exact (block_re_prefix (lit "HOLDING_RETURNS") B rest).
Qed.

End BlockFacts.
